(** * JiraManager: API-compatibility resolution and activity classification

    A shallow embedding of [jira_manager.py] (class [JiraManager]) and the
    properties of its version negotiator, discovery tiers, date normaliser,
    activity classifier and impact scorer, and of its selection helpers,
    status groups and report text.

    Conventions of the embedding.
    - A Python [str] is a [string]; the text handled here (status names,
      priorities, timestamps, URLs) is ASCII, and [lower] and [strip] are the
      ASCII restrictions of [str.lower] and [str.strip].
    - A value decoded from a JSON body is a [json]; a [dict] is an association
      list in insertion order, looked up by its first binding.
    - A Python exception is a constructor of [exn]; code that may raise
      returns a [result].  [print] calls write to the terminal only and are
      left out.
    - [self] is the record [JiraManager]; a method that reads or writes it, or
      that talks to the server, is a state transformer [M]. *)

From Stdlib Require Import String Ascii List ZArith Lia Bool DecimalString
  Permutation.
Import ListNotations.
Set Warnings "-register-all".
Open Scope string_scope.
Open Scope Z_scope.

(* ================================================================== *)
(** * Python strings *)
(* ================================================================== *)

Module Str.

Definition is_upper (c : ascii) : bool :=
  let n := nat_of_ascii c in (Nat.leb 65 n && Nat.leb n 90)%bool.

(** [str.lower] on one ASCII character. *)
Definition lower_char (c : ascii) : ascii :=
  if is_upper c then ascii_of_nat (nat_of_ascii c + 32) else c.

(** [s.lower()] *)
Fixpoint lower (s : string) : string :=
  match s with
  | EmptyString => EmptyString
  | String c t => String (lower_char c) (lower t)
  end.

(** [s.startswith(p)] *)
Definition startswith (p s : string) : bool := String.prefix p s.

(** [sub in s] *)
Fixpoint contains (sub s : string) : bool :=
  if String.prefix sub s then true
  else match s with
       | EmptyString => false
       | String _ t => contains sub t
       end.

(** [s.endswith(suf)] *)
Fixpoint endswith (suf s : string) : bool :=
  if String.eqb suf s then true
  else match s with
       | EmptyString => false
       | String _ t => endswith suf t
       end.

(** The ASCII characters [str.strip] removes: tab, line feed, vertical tab,
    form feed, carriage return, the four separators 28..31, and space. *)
Definition is_space (c : ascii) : bool :=
  let n := nat_of_ascii c in
  ((Nat.leb 9 n && Nat.leb n 13) || (Nat.leb 28 n && Nat.leb n 32))%bool.

Fixpoint lstrip (s : string) : string :=
  match s with
  | EmptyString => EmptyString
  | String c t => if is_space c then lstrip t else s
  end.

Fixpoint rev (s : string) : string :=
  match s with
  | EmptyString => EmptyString
  | String c t => rev t ++ String c EmptyString
  end.

Definition rstrip (s : string) : string := rev (lstrip (rev s)).

(** [s.strip()] *)
Definition strip (s : string) : string := rstrip (lstrip s).

(** [s.replace(old, new)] for a one-character [old]. *)
Fixpoint replace (old : ascii) (new s : string) : string :=
  match s with
  | EmptyString => EmptyString
  | String c t =>
      if Ascii.eqb c old then new ++ replace old new t
      else String c (replace old new t)
  end.

(** [sep.join(parts)] *)
Definition join (sep : string) (parts : list string) : string :=
  String.concat sep parts.

End Str.

(* ================================================================== *)
(** * Exceptions and results *)
(* ================================================================== *)

(** The exception classes that the modelled code can meet.
    [ConnectionError] and [JSONDecodeError] are the classes of [requests];
    [RequestError] stands for every other [requests.RequestException]. *)
Inductive exn : Type :=
| ConnectionError
| RequestError
| JSONDecodeError
| AttributeError
| TypeError
| KeyError
| ValueError.

(** [isinstance(e, requests.RequestException)].  In [requests] the class
    [JSONDecodeError] derives from [InvalidJSONError], a [RequestException],
    and from [json.JSONDecodeError]. *)
Definition is_RequestException (e : exn) : bool :=
  match e with
  | ConnectionError | RequestError | JSONDecodeError => true
  | _ => false
  end.

(** [isinstance(e, json.JSONDecodeError)] *)
Definition is_JSONDecodeError (e : exn) : bool :=
  match e with
  | JSONDecodeError => true
  | _ => false
  end.

(** [isinstance(e, ValueError)]; [json.JSONDecodeError] is a [ValueError]. *)
Definition is_ValueError (e : exn) : bool :=
  match e with
  | ValueError | JSONDecodeError => true
  | _ => false
  end.

Inductive result (A : Type) : Type :=
| Ok (a : A)
| Raise (e : exn).
Arguments Ok {A} a.
Arguments Raise {A} e.

Definition rbind {A B : Type} (r : result A) (k : A -> result B) : result B :=
  match r with
  | Ok a => k a
  | Raise e => Raise e
  end.

Declare Scope result_scope.
Delimit Scope result_scope with result.
Notation "x <- r ;; k" := (rbind r (fun x => k))
  (at level 61, r at next level, right associativity) : result_scope.

(** [try: body except <handled>: handler] *)
Definition try_except {A : Type} (body : result A) (handled : exn -> bool)
    (handler : result A) : result A :=
  match body with
  | Ok a => Ok a
  | Raise e => if handled e then handler else Raise e
  end.

(* ================================================================== *)
(** * JSON values *)
(* ================================================================== *)

(** A decoded JSON document.  Numbers are integers: no field read by the
    modelled code is fractional. *)
Inductive json : Type :=
| JNull
| JBool (b : bool)
| JNum (n : Z)
| JStr (s : string)
| JArr (items : list json)
| JObj (members : list (string * json)).

Fixpoint assoc (k : string) (kvs : list (string * json)) : option json :=
  match kvs with
  | [] => None
  | (k', v) :: rest => if String.eqb k k' then Some v else assoc k rest
  end.

(** [bool(v)] *)
Definition truthy (v : json) : bool :=
  match v with
  | JNull => false
  | JBool b => b
  | JNum n => negb (n =? 0)
  | JStr s => negb (String.eqb s "")
  | JArr l => match l with [] => false | _ => true end
  | JObj l => match l with [] => false | _ => true end
  end.

(** [d.get(k, default)]: only a [dict] has [get]. *)
Definition dict_get (d : json) (k : string) (default : json) : result json :=
  match d with
  | JObj kvs => Ok (match assoc k kvs with Some v => v | None => default end)
  | _ => Raise AttributeError
  end.

(** [d.get(k)] *)
Definition dict_get1 (d : json) (k : string) : result json :=
  dict_get d k JNull.

(** [v.lower()]: only a [str] has [lower]. *)
Definition py_lower (v : json) : result string :=
  match v with
  | JStr s => Ok (Str.lower s)
  | _ => Raise AttributeError
  end.

(** [l.append(x)]: only a [list] has [append]. *)
Definition py_append (l x : json) : result json :=
  match l with
  | JArr items => Ok (JArr (items ++ [x])%list)
  | _ => Raise AttributeError
  end.

(* ================================================================== *)
(** * Impact scorer *)
(* ================================================================== *)

Inductive impact_level : Type := HIGH | MEDIUM | LOW.

Definition high_impact_keywords : list string :=
  ["outage"; "down"; "critical"; "security"; "data loss";
   "customer impact"; "revenue"].

(** The [for keyword in high_impact_keywords] loop with its [break]. *)
Fixpoint scan_keywords (keywords : list string) (text_to_check : string)
    (impact_score : Z) : Z :=
  match keywords with
  | [] => impact_score
  | keyword :: rest =>
      if Str.contains keyword text_to_check then impact_score + 1
      else scan_keywords rest text_to_check impact_score
  end.

(** The value of [impact_score] when [_assess_business_impact] reaches its
    final [if]. *)
Definition impact_score (issue_type priority : string) (labels : list string)
    (description : string) : Z :=
  let impact_score := 0 in
  let priority_lower := Str.lower priority in
  let impact_score :=
    if (Str.contains "critical" priority_lower
        || Str.contains "highest" priority_lower)%bool
    then impact_score + 4
    else if Str.contains "high" priority_lower then impact_score + 3
    else if Str.contains "medium" priority_lower then impact_score + 2
    else impact_score + 1 in
  let type_lower := Str.lower issue_type in
  let impact_score :=
    if (Str.contains "bug" type_lower
        && (Str.contains "critical" type_lower
            || Str.contains "blocker" type_lower))%bool
    then impact_score + 2
    else if Str.contains "security" type_lower then impact_score + 2
    else if (Str.contains "feature" type_lower
             || Str.contains "epic" type_lower)%bool
    then impact_score + 1
    else impact_score in
  let text_to_check := Str.lower (Str.join " " (labels ++ [description])%list) in
  scan_keywords high_impact_keywords text_to_check impact_score.

Definition level_of_score (impact_score : Z) : impact_level :=
  if 6 <=? impact_score then HIGH
  else if 4 <=? impact_score then MEDIUM
  else LOW.

(** The text returned for each level (UTF-8 bytes for the emoji). *)
Definition level_text (l : impact_level) : string :=
  match l with
  | HIGH => "🔴 **HIGH** - Critical business impact requiring immediate attention"
  | MEDIUM => "🟡 **MEDIUM** - Moderate business impact, should be prioritized"
  | LOW => "🟢 **LOW** - Minimal business impact, can be addressed in normal workflow"
  end.

Definition _assess_business_impact (issue_type priority : string)
    (labels : list string) (description : string) : string :=
  level_text
    (level_of_score (impact_score issue_type priority labels description)).

(* ================================================================== *)
(** * Date/time values *)
(* ================================================================== *)

(** A [datetime.datetime].  [tzinfo] is [None] for a naive value and
    [Some off] for an aware one, [off] being its [utcoffset()] in
    microseconds ([timezone.utc] is [Some 0]). *)
Record datetime : Type := mk_datetime {
  year : Z;
  month : Z;
  day : Z;
  hour : Z;
  minute : Z;
  second : Z;
  microsecond : Z;
  tzinfo : option Z
}.

Definition is_leap (y : Z) : bool :=
  ((y mod 4 =? 0) && (negb (y mod 100 =? 0) || (y mod 400 =? 0)))%bool.

Definition days_in_month (y m : Z) : Z :=
  if m =? 2 then (if is_leap y then 29 else 28)
  else if (m =? 4) || (m =? 6) || (m =? 9) || (m =? 11) then 30
  else 31.

Definition days_before_year (y : Z) : Z :=
  let y := y - 1 in y * 365 + y / 4 - y / 100 + y / 400.

Definition days_before_month_table : list Z :=
  [0; 31; 59; 90; 120; 151; 181; 212; 243; 273; 304; 334].

Definition days_before_month (y m : Z) : Z :=
  nth (Z.to_nat (m - 1)) days_before_month_table 0
  + (if (2 <? m) && is_leap y then 1 else 0).

(** [d.toordinal()] *)
Definition toordinal (d : datetime) : Z :=
  days_before_year (year d) + days_before_month (year d) (month d) + day d.

(** The checks of the [datetime] and [timezone] constructors. *)
Definition valid_datetime (d : datetime) : bool :=
  ((1 <=? year d) && (year d <=? 9999)
   && (1 <=? month d) && (month d <=? 12)
   && (1 <=? day d) && (day d <=? days_in_month (year d) (month d))
   && (0 <=? hour d) && (hour d <=? 23)
   && (0 <=? minute d) && (minute d <=? 59)
   && (0 <=? second d) && (second d <=? 59)
   && (0 <=? microsecond d) && (microsecond d <=? 999999)
   && match tzinfo d with
      | None => true
      | Some off => (- 86400000000 <? off) && (off <? 86400000000)
      end)%bool.

(** Microseconds from the start of day 0 to the wall-clock reading of [d]. *)
Definition wall_micros (d : datetime) : Z :=
  ((toordinal d * 86400 + hour d * 3600 + minute d * 60 + second d) * 1000000)
  + microsecond d.

(** Lexicographic [>=] on the seven fields, the comparison Python makes when
    the two offsets are the same. *)
Definition fields_ge (a b : datetime) : bool :=
  let fix lex (l : list (Z * Z)) : bool :=
    match l with
    | [] => true
    | (x, y) :: rest => if x =? y then lex rest else y <? x
    end in
  lex [(year a, year b); (month a, month b); (day a, day b);
       (hour a, hour b); (minute a, minute b); (second a, second b);
       (microsecond a, microsecond b)].

(** [a >= b] on two [datetime]s.  Equal offsets (or both naive): the fields
    are compared.  One naive and one aware: [TypeError].  Otherwise the
    difference [a - b], offsets included, decides. *)
Definition datetime_ge (a b : datetime) : result bool :=
  match tzinfo a, tzinfo b with
  | None, None => Ok (fields_ge a b)
  | Some oa, Some ob =>
      if oa =? ob then Ok (fields_ge a b)
      else Ok (0 <=? (wall_micros a - wall_micros b) + ob - oa)
  | _, _ => Raise TypeError
  end.

(** [d.replace(tzinfo=timezone.utc)] *)
Definition replace_tzinfo_utc (d : datetime) : datetime :=
  mk_datetime (year d) (month d) (day d) (hour d) (minute d) (second d)
              (microsecond d) (Some 0).

(** [d.tzinfo] on a value that may be [None]. *)
Definition get_tzinfo (d : option datetime) : result (option Z) :=
  match d with
  | Some d => Ok (tzinfo d)
  | None => Raise AttributeError
  end.

Definition is_None {A : Type} (o : option A) : bool :=
  match o with None => true | Some _ => false end.

(** [a >= b] on values that may be [None]. *)
Definition py_ge (a b : option datetime) : result bool :=
  match a, b with
  | Some a, Some b => datetime_ge a b
  | _, _ => Raise TypeError
  end.

(** [d.replace(tzinfo=timezone.utc)] on a value that may be [None]. *)
Definition py_replace_utc (d : option datetime) : result (option datetime) :=
  match d with
  | Some d => Ok (Some (replace_tzinfo_utc d))
  | None => Raise AttributeError
  end.

Open Scope result_scope.

(** [x and y]: [y] is evaluated only when [x] is true. *)
Definition py_and (x y : result bool) : result bool :=
  b <- x ;; if b then y else Ok false.

(** [d.tzinfo is None] and [d.tzinfo is not None] *)
Definition tz_is_None (d : option datetime) : result bool :=
  t <- get_tzinfo d ;; Ok (is_None t).

Definition tz_is_not_None (d : option datetime) : result bool :=
  t <- get_tzinfo d ;; Ok (negb (is_None t)).

(** The body of the [try] in [_compare_dates]. *)
Definition _compare_dates_try (date1 date2 : option datetime) : result bool :=
  both_aware <- py_and (tz_is_not_None date1) (tz_is_not_None date2) ;;
  if both_aware then py_ge date1 date2
  else
    both_naive <- py_and (tz_is_None date1) (tz_is_None date2) ;;
    if both_naive then py_ge date1 date2
    else
      first_naive <- py_and (tz_is_None date1) (tz_is_not_None date2) ;;
      if first_naive then
        date1 <- py_replace_utc date1 ;;
        py_ge date1 date2
      else
        second_naive <- py_and (tz_is_None date2) (tz_is_not_None date1) ;;
        if second_naive then
          date2 <- py_replace_utc date2 ;;
          py_ge date1 date2
        else py_ge date1 date2.

(** [_compare_dates]: any [Exception] raised in the body is caught and the
    answer is [False]. *)
Definition _compare_dates (date1 date2 : option datetime) : bool :=
  match _compare_dates_try date1 date2 with
  | Ok b => b
  | Raise _ => false
  end.

(* ================================================================== *)
(** * Date parser and activity classifier *)
(* ================================================================== *)

(** The list [formats] of [_parse_jira_date]. *)
Definition formats : list string :=
  ["%Y-%m-%dT%H:%M:%S.%f%z";
   "%Y-%m-%dT%H:%M:%S%z";
   "%Y-%m-%dT%H:%M:%S.%fZ";
   "%Y-%m-%dT%H:%M:%SZ";
   "%Y-%m-%d"].

(** [date_str.replace('Z', '+0000') if date_str.endswith('Z') else date_str];
    a value that is not a [str] has neither method. *)
Definition clean_date (date_str : json) : result string :=
  match date_str with
  | JStr s =>
      Ok (if Str.endswith "Z" s then Str.replace "Z"%char "+0000" s else s)
  | _ => Raise AttributeError
  end.

Inductive bucket : Type := started | completed | blocked | other.

Definition bucket_eqb (a b : bucket) : bool :=
  match a, b with
  | started, started | completed, completed
  | blocked, blocked | other, other => true
  | _, _ => false
  end.

(** The dictionary [categorized_issues], one list per key. *)
Record categorized : Type := mk_categorized {
  cat_started : list json;
  cat_completed : list json;
  cat_blocked : list json;
  cat_other : list json
}.

Definition blocked_terms : list string :=
  ["blocked"; "impediment"; "hold"; "waiting"; "stuck"].
Definition done_terms : list string :=
  ["done"; "closed"; "resolved"; "complete"].
Definition progress_terms : list string :=
  ["progress"; "development"; "active"; "working"].

(** [any(term in issue_status for term in terms)] *)
Definition any_in (terms : list string) (issue_status : string) : bool :=
  existsb (fun term => Str.contains term issue_status) terms.

(** [categorized_issues[b].append(issue)] *)
Definition cat_append (c : categorized) (b : bucket) (issue : json)
    : categorized :=
  match b with
  | started =>
      mk_categorized (cat_started c ++ [issue])%list (cat_completed c)
                     (cat_blocked c) (cat_other c)
  | completed =>
      mk_categorized (cat_started c) (cat_completed c ++ [issue])%list
                     (cat_blocked c) (cat_other c)
  | blocked =>
      mk_categorized (cat_started c) (cat_completed c)
                     (cat_blocked c ++ [issue])%list (cat_other c)
  | other =>
      mk_categorized (cat_started c) (cat_completed c) (cat_blocked c)
                     (cat_other c ++ [issue])%list
  end.

(** [issue.get('fields', {}).get('status', {}).get('name', '').lower()] *)
Definition issue_status_lower (issue : json) : result string :=
  fields <- dict_get issue "fields" (JObj []) ;;
  status <- dict_get fields "status" (JObj []) ;;
  name <- dict_get status "name" (JStr "") ;;
  py_lower name.

(** [issue.get('fields', {}).get(k)] *)
Definition issue_field (issue : json) (k : string) : result json :=
  fields <- dict_get issue "fields" (JObj []) ;;
  dict_get1 fields k.

Section DateParsing.

(** [datetime.strptime(data_string, format)] of the Python library, on two
    [str] arguments: the parsed value, or [None] for the [ValueError] it
    raises when the text does not match the format or names no valid
    instant. *)
Variable strptime : string -> string -> option datetime.

Definition call_strptime (data_string format : string) : result datetime :=
  match strptime data_string format with
  | Some d => Ok d
  | None => Raise ValueError
  end.

(** The [for fmt in formats] loop: the first format that parses returns;
    [ValueError] moves on to the next format; any other exception leaves the
    function. *)
Fixpoint parse_loop (date_str : json) (fmts : list string)
    : result (option datetime) :=
  match fmts with
  | [] => Ok None
  | fmt :: rest =>
      match (clean <- clean_date date_str ;; call_strptime clean fmt) with
      | Ok d => Ok (Some d)
      | Raise e => if is_ValueError e then parse_loop date_str rest
                   else Raise e
      end
  end.

Definition _parse_jira_date (date_str : json) : result (option datetime) :=
  if negb (truthy date_str) then Ok None
  else parse_loop date_str formats.

(** [updated_date and self._compare_dates(updated_date, cutoff_date)] *)
Definition updated_since (updated_date : option datetime)
    (cutoff_date : datetime) : bool :=
  match updated_date with
  | None => false
  | Some _ => _compare_dates updated_date (Some cutoff_date)
  end.

(** One turn of the loop of [get_issues_by_date_range]: the key of
    [categorized_issues] that [issue] is appended to. *)
Definition categorize_issue (cutoff_date : datetime) (issue : json)
    : result bucket :=
  issue_status <- issue_status_lower issue ;;
  created <- issue_field issue "created" ;;
  created_date <- _parse_jira_date created ;;
  updated <- issue_field issue "updated" ;;
  updated_date <- _parse_jira_date updated ;;
  if any_in blocked_terms issue_status then Ok blocked
  else if any_in done_terms issue_status then
    if updated_since updated_date cutoff_date then Ok completed else Ok other
  else if any_in progress_terms issue_status then
    if updated_since updated_date cutoff_date then Ok started else Ok other
  else Ok other.

(** The loop of [get_issues_by_date_range] over [all_issues]. *)
Fixpoint categorize_all (cutoff_date : datetime) (all_issues : list json)
    (categorized_issues : categorized) : result categorized :=
  match all_issues with
  | [] => Ok categorized_issues
  | issue :: rest =>
      b <- categorize_issue cutoff_date issue ;;
      categorize_all cutoff_date rest (cat_append categorized_issues b issue)
  end.

End DateParsing.

(* ================================================================== *)
(** * A model of the library's [strptime] *)
(* ================================================================== *)

(** [datetime.strptime] as CPython's [_strptime] module computes it, for the
    directives that [formats] uses and ASCII text: the format becomes a
    regular expression, matched case-insensitively from the start of the
    text by a backtracking matcher; text left over, or fields that name no
    valid [datetime], raise [ValueError]. *)
Module Strptime.

(** Character classes of the directive table. *)
Inductive cclass : Type :=
| CDigit                      (* \d, [0-9] *)
| CRange (lo hi : ascii)      (* [lo-hi] *)
| CLit (c : ascii)            (* a literal, case-sensitive: (?-i:c) *)
| CLitI (c : ascii)           (* a literal under IGNORECASE *)
| CSign.                      (* [+-] *)

Definition in_range (lo hi c : ascii) : bool :=
  (Nat.leb (nat_of_ascii lo) (nat_of_ascii c)
   && Nat.leb (nat_of_ascii c) (nat_of_ascii hi))%bool.

Definition cmatch (k : cclass) (c : ascii) : bool :=
  match k with
  | CDigit => in_range "0" "9" c
  | CRange lo hi => in_range lo hi c
  | CLit x => Ascii.eqb c x
  | CLitI x => Ascii.eqb (Str.lower_char c) (Str.lower_char x)
  | CSign => (Ascii.eqb c "+" || Ascii.eqb c "-")%bool
  end.

Inductive regex : Type :=
| Chr (k : cclass)
| Seq (r1 r2 : regex)
| Alt (r1 r2 : regex)         (* r1|r2, r1 tried first *)
| Opt (r : regex).            (* r?, greedy *)

(** The texts left after each way of matching [r] at the start of [s], in
    the order a backtracking matcher tries them. *)
Fixpoint rmatch (r : regex) (s : list ascii) : list (list ascii) :=
  match r with
  | Chr k =>
      match s with
      | c :: t => if cmatch k c then [t] else []
      | [] => []
      end
  | Seq r1 r2 => flat_map (rmatch r2) (rmatch r1 s)
  | Alt r1 r2 => (rmatch r1 s ++ rmatch r2 s)%list
  | Opt r1 => (rmatch r1 s ++ [s])%list
  end.

Definition dig : regex := Chr CDigit.
Definition rng (lo hi : ascii) : regex := Chr (CRange lo hi).
Definition lit (c : ascii) : regex := Chr (CLit c).

(** The regular expression of a directive, from [TimeRE.__init__]. *)
Definition directive_regex (d : ascii) : option regex :=
  if Ascii.eqb d "Y" then Some (Seq dig (Seq dig (Seq dig dig)))
  else if Ascii.eqb d "m" then
    Some (Alt (Seq (lit "1") (rng "0" "2"))
         (Alt (Seq (lit "0") (rng "1" "9")) (rng "1" "9")))
  else if Ascii.eqb d "d" then
    Some (Alt (Seq (lit "3") (rng "0" "1"))
         (Alt (Seq (rng "1" "2") dig)
         (Alt (Seq (lit "0") (rng "1" "9"))
         (Alt (rng "1" "9") (Seq (lit " ") (rng "1" "9"))))))
  else if Ascii.eqb d "H" then
    Some (Alt (Seq (lit "2") (rng "0" "3")) (Alt (Seq (rng "0" "1") dig) dig))
  else if Ascii.eqb d "M" then Some (Alt (Seq (rng "0" "5") dig) dig)
  else if Ascii.eqb d "S" then
    Some (Alt (Seq (lit "6") (rng "0" "1")) (Alt (Seq (rng "0" "5") dig) dig))
  else if Ascii.eqb d "f" then
    Some (Seq dig (Opt (Seq dig (Opt (Seq dig (Opt (Seq dig
         (Opt (Seq dig (Opt dig))))))))))
  else if Ascii.eqb d "z" then
    let frac := Seq (lit ".") (Seq dig (Opt (Seq dig (Opt (Seq dig
                (Opt (Seq dig (Opt (Seq dig (Opt dig)))))))))) in
    let secs := Seq (Opt (lit ":")) (Seq (rng "0" "5") (Seq dig (Opt frac))) in
    Some (Alt (Seq (Chr CSign) (Seq dig (Seq dig (Seq (Opt (lit ":"))
              (Seq (rng "0" "5") (Seq dig (Opt secs)))))))
              (lit "Z"))
  else None.

(** A piece of a format: literal text, or a named group. *)
Inductive item : Type :=
| Literal (c : ascii)
| Group (name : ascii) (r : regex).

(** [TimeRE.pattern]: a [%] introduces a directive, any other character
    stands for itself.  [None] is the [KeyError] or [IndexError] of a bad
    format. *)
Fixpoint pattern (format : list ascii) : option (list item) :=
  match format with
  | [] => Some []
  | c :: rest =>
      if Ascii.eqb c "%" then
        match rest with
        | [] => None
        | d :: rest' =>
            match directive_regex d, pattern rest' with
            | Some r, Some items => Some (Group d r :: items)
            | _, _ => None
            end
        end
      else
        match pattern rest with
        | Some items => Some (Literal c :: items)
        | None => None
        end
  end.

(** The matches of a compiled format at the start of [s]: the text of each
    group and the text left over, in backtracking order. *)
Fixpoint match_items (items : list item) (s : list ascii)
    : list (list (ascii * list ascii) * list ascii) :=
  match items with
  | [] => [([], s)]
  | Literal c :: items' =>
      flat_map (match_items items') (rmatch (Chr (CLitI c)) s)
  | Group name r :: items' =>
      flat_map
        (fun rest =>
           let text := firstn (length s - length rest) s in
           map (fun m => ((name, text) :: fst m, snd m))
               (match_items items' rest))
        (rmatch r s)
  end.

Fixpoint group (name : ascii) (found : list (ascii * list ascii))
    : option (list ascii) :=
  match found with
  | [] => None
  | (n, text) :: rest => if Ascii.eqb n name then Some text else group name rest
  end.

Definition digit_value (c : ascii) : Z := Z.of_nat (nat_of_ascii c) - 48.

Fixpoint strip_spaces (s : list ascii) : list ascii :=
  match s with
  | c :: t => if Str.is_space c then strip_spaces t else s
  | [] => []
  end.

Definition obind {A B : Type} (o : option A) (k : A -> option B) : option B :=
  match o with
  | Some a => k a
  | None => None
  end.

Notation "x <-? o ;; k" := (obind o (fun x => k))
  (at level 61, o at next level, right associativity).

(** [int(text)] for unsigned decimal text, spaces around it allowed;
    [None] is [ValueError], here and below. *)
Definition py_int (text : list ascii) : option Z :=
  let t := List.rev (strip_spaces (List.rev (strip_spaces text))) in
  match t with
  | [] => None
  | _ =>
      if forallb (cmatch CDigit) t
      then Some (fold_left (fun acc c => acc * 10 + digit_value c) t 0)
      else None
  end.

(** [int(found_dict[name])], or [default] when the format has no such
    group. *)
Definition int_group (name : ascii) (default : Z)
    (found : list (ascii * list ascii)) : option Z :=
  match group name found with
  | Some text => py_int text
  | None => Some default
  end.

(** [s + "0" * (6 - len(s))] *)
Definition pad6 (s : list ascii) : list ascii :=
  (s ++ repeat "0"%char (6 - length s))%list.

(** The [%z] branch of [_strptime]: the offset in microseconds. *)
Definition gmtoff_micros (z : list ascii) : option Z :=
  if list_eq_dec Ascii.ascii_dec z ["Z"%char] then Some 0
  else
    let colon c := Ascii.eqb c ":" in
    z' <-?
      (if colon (nth 3 z "x"%char) then
         let z1 := (firstn 3 z ++ skipn 4 z)%list in
         if Nat.ltb 5 (length z1) then
           if negb (colon (nth 5 z1 "x"%char)) then None
           else Some (firstn 5 z1 ++ skipn 6 z1)%list
         else Some z1
       else Some z) ;;
    hours <-? py_int (firstn 2 (skipn 1 z')) ;;
    minutes <-? py_int (firstn 2 (skipn 3 z')) ;;
    seconds <-? (match firstn 2 (skipn 5 z') with
                 | [] => Some 0
                 | t => py_int t
                 end) ;;
    let gmtoff := hours * 60 * 60 + minutes * 60 + seconds in
    gmtoff_fraction <-? py_int (pad6 (skipn 8 z')) ;;
    let total := gmtoff * 1000000 + gmtoff_fraction in
    Some (match z' with
          | c :: _ => if Ascii.eqb c "-" then - total else total
          | [] => total
          end).

(** The fields found by the match become a [datetime]; the constructors of
    [date], [datetime] and [timezone] reject what is out of range. *)
Definition build (found : list (ascii * list ascii)) : option datetime :=
  y <-? int_group "Y" 1900 found ;;
  m <-? int_group "m" 1 found ;;
  d <-? int_group "d" 1 found ;;
  H <-? int_group "H" 0 found ;;
  M <-? int_group "M" 0 found ;;
  S <-? int_group "S" 0 found ;;
  fraction <-? (match group "f" found with
                | Some s => py_int (pad6 s)
                | None => Some 0
                end) ;;
  tz <-? (match group "z" found with
          | Some z => off <-? gmtoff_micros z ;; Some (Some off)
          | None => Some None
          end) ;;
  let dt := mk_datetime y m d H M S fraction tz in
  if valid_datetime dt then Some dt else None.

Definition strptime (data_string format : string) : option datetime :=
  match pattern (list_ascii_of_string format) with
  | None => None
  | Some items =>
      match match_items items (list_ascii_of_string data_string) with
      | [] => None
      | (found, rest) :: _ =>
          match rest with
          | [] => build found
          | _ => None
          end
      end
  end.

End Strptime.

(* ================================================================== *)
(** * Formatting values into text *)
(* ================================================================== *)

Module Fmt.

Definition decimal (n : Z) : string :=
  DecimalString.NilZero.string_of_int (Z.to_int n).

Definition hex_digit (n : nat) : ascii :=
  nth n (list_ascii_of_string "0123456789abcdef") "0"%char.

(** How [repr] writes one character of a [str] quoted with [quote]. *)
Definition repr_char (quote c : ascii) : string :=
  let n := nat_of_ascii c in
  if Ascii.eqb c "\" then "\\"
  else if Ascii.eqb c quote then String "\" (String c "")
  else if Nat.eqb n 9 then "\t"
  else if Nat.eqb n 10 then "\n"
  else if Nat.eqb n 13 then "\r"
  else if (Nat.ltb n 32 || Nat.eqb n 127)%bool then
    String "\" (String "x" (String (hex_digit (Nat.div n 16))
                           (String (hex_digit (Nat.modulo n 16)) "")))
  else String c "".

Fixpoint repr_chars (quote : ascii) (s : string) : string :=
  match s with
  | EmptyString => EmptyString
  | String c t => (repr_char quote c ++ repr_chars quote t)%string
  end.

(** [repr(s)] of a [str]: single quotes, unless the text has a single quote
    and no double quote. *)
Definition repr_str (s : string) : string :=
  let quote : ascii :=
    if (Str.contains "'" s && negb (Str.contains (String (ascii_of_nat 34) "") s))%bool
    then ascii_of_nat 34 else "'"%char in
  (String quote (repr_chars quote s) ++ String quote "")%string.

(** [repr(v)] *)
Fixpoint py_repr (v : json) : string :=
  match v with
  | JNull => "None"
  | JBool true => "True"
  | JBool false => "False"
  | JNum n => decimal n
  | JStr s => repr_str s
  | JArr items => ("[" ++ Str.join ", " (map py_repr items) ++ "]")%string
  | JObj members =>
      ("{" ++ Str.join ", "
                (map (fun kv => match kv with
                                | (k, x) => (repr_str k ++ ": " ++ py_repr x)%string
                                end) members)
           ++ "}")%string
  end.

(** [str(v)], the text an f-string puts in place of [{v}]. *)
Definition py_str (v : json) : string :=
  match v with
  | JStr s => s
  | _ => py_repr v
  end.

End Fmt.

(* ================================================================== *)
(** * Project key of a saved filter *)
(* ================================================================== *)

Module Filter.

Fixpoint skip_while (p : ascii -> bool) (s : list ascii) : list ascii :=
  match s with
  | c :: t => if p c then skip_while p t else s
  | [] => []
  end.

Fixpoint take_while (p : ascii -> bool) (s : list ascii) : list ascii :=
  match s with
  | c :: t => if p c then c :: take_while p t else []
  | [] => []
  end.

(** The text after [word] at the start of [s], letters compared without
    case. *)
Fixpoint after_word (word s : list ascii) : option (list ascii) :=
  match word, s with
  | [], _ => Some s
  | w :: word', c :: t =>
      if Ascii.eqb (Str.lower_char c) (Str.lower_char w)
      then after_word word' t else None
  | _ :: _, [] => None
  end.

Definition is_alpha (c : ascii) : bool :=
  Strptime.in_range "a" "z" (Str.lower_char c).

Definition is_alnum (c : ascii) : bool :=
  (is_alpha c || Strptime.in_range "0" "9" c)%bool.

Definition is_quote (c : ascii) : bool :=
  (Ascii.eqb c "'" || Nat.eqb (nat_of_ascii c) 34)%bool.

(** A match of the pattern of [_extract_project_from_filter] at the start
    of [s], under [IGNORECASE]: the word project, white space, [=] or the
    word in, white space, an optional opening parenthesis, any number of
    single or double quotes, then the group: a letter followed by letters
    and digits.  Every choice is forced by the next character, so the
    backtracking matcher and this scanner agree.  The result is the text of
    the group. *)
Definition match_here (s : list ascii) : option (list ascii) :=
  match after_word (list_ascii_of_string "project") s with
  | None => None
  | Some s1 =>
      let s2 := skip_while Str.is_space s1 in
      let operator :=
        match s2 with
        | c :: t =>
            if Ascii.eqb c "=" then Some t
            else after_word (list_ascii_of_string "in") s2
        | [] => None
        end in
      match operator with
      | None => None
      | Some s3 =>
          let s4 := skip_while Str.is_space s3 in
          let s5 := match s4 with
                    | c :: t => if Ascii.eqb c "(" then t else s4
                    | [] => s4
                    end in
          match skip_while is_quote s5 with
          | c :: t => if is_alpha c then Some (c :: take_while is_alnum t)
                      else None
          | [] => None
          end
      end
  end.

(** [re.search]: the match at the leftmost position that has one. *)
Fixpoint search (s : list ascii) : option (list ascii) :=
  match match_here s with
  | Some g => Some g
  | None => match s with
            | [] => None
            | _ :: t => search t
            end
  end.

End Filter.

(** [re.search] wants a [str]. *)
Definition _extract_project_from_filter (filter_query : json) : result string :=
  if negb (truthy filter_query) then Ok "N/A"
  else
    match filter_query with
    | JStr q =>
        match Filter.search (list_ascii_of_string q) with
        | Some g => Ok (string_of_list_ascii g)
        | None => Ok "N/A"
        end
    | _ => Raise TypeError
    end.

(* ================================================================== *)
(** * The session: requests, responses, and [self] *)
(* ================================================================== *)

Record request : Type := mk_request {
  url : string;
  params : list (string * json)
}.

(** What the code reads of a [requests.Response]: [status_code], [text], and
    the value of [json()], [None] when the body is not valid JSON. *)
Record response : Type := mk_response {
  status_code : Z;
  text : string;
  body : option json
}.

(** A request either gets a response or fails in transit. *)
Inductive transport_failure : Type :=
| NoConnection      (* requests.ConnectionError *)
| OtherFailure.     (* another requests.RequestException *)

Inductive outcome : Type :=
| Responded (r : response)
| Failed (f : transport_failure).

(** The fields of [self] that the modelled methods use, and the requests
    sent through [self.session] so far, oldest first. *)
Record JiraManager : Type := mk_JiraManager {
  base_url : string;
  api_version : option string;
  selected_projects : list json;
  sent : list request
}.

(** A method: from [self] to a value or an exception, and [self] after. *)
Definition M (A : Type) : Type := JiraManager -> result A * JiraManager.

Definition ret {A : Type} (a : A) : M A := fun self => (Ok a, self).

Definition raise {A : Type} (e : exn) : M A := fun self => (Raise e, self).

Definition bind {A B : Type} (m : M A) (k : A -> M B) : M B :=
  fun self =>
    match m self with
    | (Ok a, self') => k a self'
    | (Raise e, self') => (Raise e, self')
    end.

Definition lift {A : Type} (r : result A) : M A := fun self => (r, self).

Declare Scope method_scope.
Delimit Scope method_scope with method.
Notation "x <~ m ;; k" := (bind m (fun x => k))
  (at level 61, m at next level, right associativity) : method_scope.
Notation "m ;;; k" := (bind m (fun _ => k))
  (at level 61, right associativity) : method_scope.
Open Scope method_scope.

(** [try: body except <handled>: handler] *)
Definition try_catch {A : Type} (body : M A) (handled : exn -> bool)
    (handler : M A) : M A :=
  fun self =>
    match body self with
    | (Ok a, self') => (Ok a, self')
    | (Raise e, self') =>
        if handled e then handler self' else (Raise e, self')
    end.

Definition get_self : M JiraManager := fun self => (Ok self, self).

(** [self] once [req] has been sent through its session. *)
Definition record_request (req : request) (self : JiraManager) : JiraManager :=
  mk_JiraManager (base_url self) (api_version self) (selected_projects self)
                 (sent self ++ [req])%list.

Definition set_api_version (v : string) : M unit :=
  fun self =>
    (Ok tt, mk_JiraManager (base_url self) (Some v) (selected_projects self)
                           (sent self)).

(** [self.api_version == v] *)
Definition api_version_is (v : string) (self : JiraManager) : bool :=
  match api_version self with
  | Some v' => String.eqb v' v
  | None => false
  end.

(** [response.json()] *)
Definition response_json (r : response) : result json :=
  match body r with
  | Some v => Ok v
  | None => Raise JSONDecodeError
  end.

(** [response.status_code == 200 and response.text.strip().startswith('<')] *)
Definition is_html_200 (r : response) : bool :=
  ((status_code r =? 200) && Str.startswith "<" (Str.strip (text r)))%bool.

(** [len(v)] *)
Definition py_len (v : json) : result Z :=
  match v with
  | JStr s => Ok (Z.of_nat (String.length s))
  | JArr l => Ok (Z.of_nat (List.length l))
  | JObj l => Ok (Z.of_nat (List.length l))
  | _ => Raise TypeError
  end.

(** [for x in v]: the values the loop visits. *)
Definition py_iter (v : json) : result (list json) :=
  match v with
  | JArr l => Ok l
  | JObj l => Ok (map (fun kv => JStr (fst kv)) l)
  | JStr s => Ok (map (fun c => JStr (String c "")) (list_ascii_of_string s))
  | _ => Raise TypeError
  end.

(** [d[k]] with a [str] key *)
Definition py_getitem (d : json) (k : string) : result json :=
  match d with
  | JObj kvs => match assoc k kvs with
                | Some v => Ok v
                | None => Raise KeyError
                end
  | _ => Raise TypeError
  end.

Definition any_exception (e : exn) : bool := true.

(* ================================================================== *)
(** * Methods of [JiraManager] *)
(* ================================================================== *)

(** How a tiered method leaves one tier: by [return v], or by going on to
    the next tier with the current value of its accumulator. *)
Inductive flow : Type :=
| Return (v : json)
| Continue (acc : json).

(** The board that [get_boards] and [get_board_by_id] make of a rapid
    view. *)
Definition board_of_view (view : json) : result json :=
  id <- dict_get1 view "id" ;;
  name <- dict_get1 view "name" ;;
  sprints <- dict_get view "sprintSupportEnabled" (JBool false) ;;
  filter <- dict_get view "filter" (JObj []) ;;
  query <- dict_get filter "query" (JStr "") ;;
  project_key <- _extract_project_from_filter query ;;
  Ok (JObj [("id", id);
            ("name", name);
            ("type", JStr (if truthy sprints then "scrum" else "kanban"));
            ("location", JObj [("projectKey", JStr project_key)])]).

(** The board that tier 3 of [get_boards] makes of a selected project. *)
Definition board_of_project (project : json) : result json :=
  key <- py_getitem project "key" ;;
  name <- py_getitem project "name" ;;
  key' <- py_getitem project "key" ;;
  Ok (JObj [("id", JStr ("project-" ++ Fmt.py_str key));
            ("name", JStr (Fmt.py_str name ++ " (Project View)"));
            ("type", JStr "project");
            ("location", JObj [("projectKey", key')])]).

(** The issue that tier 2 of [get_board_issues] makes of one entry of the
    board work data. *)
Definition issue_of_work_data (issue_data : json) : result json :=
  key <- dict_get1 issue_data "key" ;;
  id <- dict_get1 issue_data "id" ;;
  summary <- dict_get1 issue_data "summary" ;;
  status_name <- dict_get issue_data "statusName" (JStr "Unknown") ;;
  status_id <- dict_get1 issue_data "statusId" ;;
  has_assignee <- dict_get1 issue_data "assigneeName" ;;
  assignee <-
    (if truthy has_assignee then
       display <- dict_get issue_data "assigneeName" (JStr "Unassigned") ;;
       Ok (JObj [("displayName", display)])
     else Ok JNull) ;;
  priority_name <- dict_get issue_data "priorityName" (JStr "Unknown") ;;
  type_name <- dict_get issue_data "typeName" (JStr "Unknown") ;;
  Ok (JObj [("key", key);
            ("id", id);
            ("fields",
             JObj [("summary", summary);
                   ("status", JObj [("name", status_name); ("id", status_id)]);
                   ("assignee", assignee);
                   ("priority", JObj [("name", priority_name)]);
                   ("issuetype", JObj [("name", type_name)])])]).

(** [for x in xs: acc.append(f(x))] *)
Fixpoint append_each (f : json -> result json) (xs : list json) (acc : json)
    : result json :=
  match xs with
  | [] => Ok acc
  | x :: rest =>
      y <- f x ;;
      acc' <- py_append acc y ;;
      append_each f rest acc'
  end.

Section Methods.

(** The Jira server: what each request gets. *)
Variable server : request -> outcome.

(** [datetime.strptime]; [None] is its [ValueError]. *)
Variable strptime : string -> string -> option datetime.

(** [datetime.now(timezone.utc) - timedelta(days=days_back)], read from the
    clock. *)
Variable utc_days_ago : Z -> datetime.

(** [self.session.get(url, params=params)] *)
Definition session_get (u : string) (ps : list (string * json)) : M response :=
  fun self =>
    let req := mk_request u ps in
    match server req with
    | Responded r => (Ok r, record_request req self)
    | Failed NoConnection => (Raise ConnectionError, record_request req self)
    | Failed OtherFailure => (Raise RequestError, record_request req self)
    end.

Definition test_connection : M bool :=
  try_catch
    (self <~ get_self ;;
     response <~ session_get (base_url self ++ "/rest/api/3/myself") [] ;;
     response <~
       (if ((status_code response =? 404) || is_html_200 response)%bool then
          response <~ session_get (base_url self ++ "/rest/api/2/myself") [] ;;
          set_api_version "v2" ;;;
          ret response
        else
          set_api_version "v3" ;;;
          ret response) ;;
     if status_code response =? 200 then
       try_catch
         (user_info <~ lift (response_json response) ;;
          lift (dict_get user_info "displayName" (JStr "Unknown User")) ;;;
          ret true)
         is_JSONDecodeError
         (ret false)
     else ret false)
    is_RequestException
    (ret false).

Definition get_projects : M json :=
  try_catch
    (self <~ get_self ;;
     let api_endpoint :=
       if api_version_is "v2" self
       then base_url self ++ "/rest/api/2/project"
       else base_url self ++ "/rest/api/3/project" in
     response <~ session_get api_endpoint [] ;;
     response <~
       (if is_html_200 response then
          if negb (api_version_is "v2" self)
          then session_get (base_url self ++ "/rest/api/2/project") []
          else ret response
        else if ((status_code response =? 404)
                 && negb (api_version_is "v2" self))%bool
        then session_get (base_url self ++ "/rest/api/2/project") []
        else ret response) ;;
     if status_code response =? 200 then
       try_catch
         (projects <~ lift (response_json response) ;;
          lift (py_len projects) ;;;
          ret projects)
         is_JSONDecodeError
         (ret (JArr []))
     else ret (JArr []))
    is_RequestException
    (ret (JArr [])).

Definition issue_detail_params : list (string * json) :=
  [("expand", JStr "changelog,renderedFields");
   ("fields", JStr "summary,description,status,assignee,priority,issuetype,created,updated,components,labels,fixVersions,comment")].

(** [None] is [JNull]. *)
Definition get_issue_details (issue_key : string) : M json :=
  try_catch
    (self <~ get_self ;;
     let api_endpoint :=
       if api_version_is "v2" self
       then base_url self ++ "/rest/api/2/issue/" ++ issue_key
       else base_url self ++ "/rest/api/3/issue/" ++ issue_key in
     response <~ session_get api_endpoint issue_detail_params ;;
     response <~
       (if ((status_code response =? 404)
            && negb (api_version_is "v2" self))%bool
        then session_get (base_url self ++ "/rest/api/2/issue/" ++ issue_key)
                         issue_detail_params
        else ret response) ;;
     if status_code response =? 200 then lift (response_json response)
     else ret JNull)
    is_RequestException
    (ret JNull).

(** Tier 1 of [get_boards]; [boards] is the empty list on entry. *)
Definition get_boards_agile : M flow :=
  try_catch
    (self <~ get_self ;;
     response <~ session_get (base_url self ++ "/rest/agile/1.0/board") [] ;;
     if status_code response =? 200 then
       try_catch
         (data <~ lift (response_json response) ;;
          boards <~ lift (dict_get data "values" (JArr [])) ;;
          lift (py_len boards) ;;;
          if truthy boards then ret (Return boards)
          else ret (Continue boards))
         is_JSONDecodeError
         (ret (Continue (JArr [])))
     else ret (Continue (JArr [])))
    is_RequestException
    (ret (Continue (JArr []))).

(** Tier 2 of [get_boards].  Nothing is appended to [boards] before the
    point where a handled exception can be raised. *)
Definition get_boards_greenhopper (boards : json) : M flow :=
  try_catch
    (self <~ get_self ;;
     response <~
       session_get (base_url self ++ "/rest/greenhopper/1.0/rapidview") [] ;;
     if status_code response =? 200 then
       try_catch
         (data <~ lift (response_json response) ;;
          views <~ lift (dict_get data "views" (JArr [])) ;;
          lift (py_len views) ;;;
          views <~ lift (py_iter views) ;;
          boards <~ lift (append_each board_of_view views boards) ;;
          if truthy boards then ret (Return boards)
          else ret (Continue boards))
         is_JSONDecodeError
         (ret (Continue boards))
     else ret (Continue boards))
    is_RequestException
    (ret (Continue boards)).

(** Tier 3 of [get_boards] and its final [return boards]. *)
Definition get_boards_projects (boards : json) : M json :=
  self <~ get_self ;;
  boards <~
    (if (negb (truthy boards)
         && truthy (JArr (selected_projects self)))%bool
     then lift (append_each board_of_project (selected_projects self) boards)
     else ret boards) ;;
  lift (py_len boards) ;;;
  ret boards.

Definition get_boards : M json :=
  tier1 <~ get_boards_agile ;;
  match tier1 with
  | Return boards => ret boards
  | Continue boards =>
      tier2 <~ get_boards_greenhopper boards ;;
      match tier2 with
      | Return boards => ret boards
      | Continue boards => get_boards_projects boards
      end
  end.

(** [None] is [JNull]. *)
Definition get_board_by_id (board_id : string) : M json :=
  try_catch
    (self <~ get_self ;;
     response <~
       session_get (base_url self ++ "/rest/agile/1.0/board/" ++ board_id) [] ;;
     if status_code response =? 200 then lift (response_json response)
     else
       response <~
         session_get
           (base_url self ++ "/rest/greenhopper/1.0/rapidview/" ++ board_id)
           [] ;;
       if status_code response =? 200 then
         data <~ lift (response_json response) ;;
         lift (board_of_view data)
       else ret JNull)
    any_exception
    (ret JNull).

Definition get_project_issues (project_key : json) (max_results : Z) : M json :=
  try_catch
    (self <~ get_self ;;
     let jql := "project = " ++ Fmt.py_str project_key
                ++ " ORDER BY updated DESC" in
     let params :=
       [("jql", JStr jql);
        ("maxResults", JNum max_results);
        ("fields", JStr "summary,status,assignee,priority,created,updated")] in
     response <~ session_get (base_url self ++ "/rest/api/3/search") params ;;
     response <~
       (if status_code response =? 404
        then session_get (base_url self ++ "/rest/api/2/search") params
        else ret response) ;;
     if status_code response =? 200 then
       data <~ lift (response_json response) ;;
       lift (dict_get data "issues" (JArr []))
     else ret (JArr []))
    is_RequestException
    (ret (JArr [])).

(** Tier 1 of [get_board_issues]; [issues] is the empty list on entry. *)
Definition get_board_issues_agile (board_id : string) (max_results : Z)
    : M flow :=
  try_catch
    (self <~ get_self ;;
     response <~
       session_get
         (base_url self ++ "/rest/agile/1.0/board/" ++ board_id ++ "/issue")
         [("maxResults", JNum max_results)] ;;
     if status_code response =? 200 then
       data <~ lift (response_json response) ;;
       issues <~ lift (dict_get data "issues" (JArr [])) ;;
       lift (py_len issues) ;;;
       ret (Return issues)
     else ret (Continue (JArr [])))
    is_RequestException
    (ret (Continue (JArr []))).

(** Tier 2 of [get_board_issues].  Nothing is appended to [issues] before
    the point where a handled exception can be raised. *)
Definition get_board_issues_greenhopper (board_id : string) (issues : json)
    : M flow :=
  try_catch
    (self <~ get_self ;;
     response <~
       session_get
         (base_url self
          ++ "/rest/greenhopper/1.0/xboard/work/allData/?rapidViewId="
          ++ board_id) [] ;;
     if status_code response =? 200 then
       data <~ lift (response_json response) ;;
       issues_data <~ lift (d <- dict_get data "issuesData" (JObj []) ;;
                            dict_get d "issues" (JArr [])) ;;
       issues_data <~ lift (py_iter issues_data) ;;
       issues <~ lift (append_each issue_of_work_data issues_data issues) ;;
       lift (py_len issues) ;;;
       ret (Return issues)
     else ret (Continue issues))
    is_RequestException
    (ret (Continue issues)).

(** [project_key and project_key != 'N/A'] *)
Definition usable_project_key (project_key : json) : bool :=
  (truthy project_key
   && negb (match project_key with
            | JStr s => String.eqb s "N/A"
            | _ => false
            end))%bool.

(** Tier 3 of [get_board_issues] and its final [return issues]. *)
Definition get_board_issues_project (board_id : string) (max_results : Z)
    (issues : json) : M json :=
  board_info <~ get_board_by_id board_id ;;
  if truthy board_info then
    project_key <~ lift (location <- dict_get board_info "location" (JObj []) ;;
                         dict_get1 location "projectKey") ;;
    if usable_project_key project_key
    then get_project_issues project_key max_results
    else ret issues
  else ret issues.

Definition get_board_issues (board_id : string) (max_results : Z) : M json :=
  tier1 <~ get_board_issues_agile board_id max_results ;;
  match tier1 with
  | Return issues => ret issues
  | Continue issues =>
      tier2 <~ get_board_issues_greenhopper board_id issues ;;
      match tier2 with
      | Return issues => ret issues
      | Continue issues => get_board_issues_project board_id max_results issues
      end
  end.

Definition no_issues : categorized := mk_categorized [] [] [] [].

Definition get_issues_by_date_range (board_id : string) (days_back : Z)
    : M categorized :=
  all_issues <~ get_board_issues board_id 100 ;;
  let cutoff_date := utc_days_ago days_back in
  all_issues <~ lift (py_iter all_issues) ;;
  lift (categorize_all strptime cutoff_date all_issues no_issues).

End Methods.

(* ================================================================== *)
(** * What [display_board_issues] shows of an issue *)
(* ================================================================== *)

(** [issue.get('key', 'Unknown')] *)
Definition shown_key (issue : json) : result json :=
  dict_get issue "key" (JStr "Unknown").

(** [issue.get('fields', {}).get('status', {}).get('name', 'Unknown')] *)
Definition shown_status (issue : json) : result json :=
  fields <- dict_get issue "fields" (JObj []) ;;
  status <- dict_get fields "status" (JObj []) ;;
  dict_get status "name" (JStr "Unknown").

(** [assignee = issue.get('fields', {}).get('assignee')] followed by
    [assignee.get('displayName', 'Unassigned') if assignee else 'Unassigned'] *)
Definition shown_assignee (issue : json) : result json :=
  fields <- dict_get issue "fields" (JObj []) ;;
  assignee <- dict_get1 fields "assignee" ;;
  if truthy assignee then dict_get assignee "displayName" (JStr "Unassigned")
  else Ok (JStr "Unassigned").

(* ================================================================== *)
(** * The properties, in the words of the specification *)
(* ================================================================== *)

(** ** Impact scorer *)

(** Priority contains critical or highest: 4; else high: 3; else medium: 2;
    else 1. *)
Definition spec_priority_weight (priority : string) : Z :=
  let p := Str.lower priority in
  if Str.contains "critical" p then 4
  else if Str.contains "highest" p then 4
  else if Str.contains "high" p then 3
  else if Str.contains "medium" p then 2
  else 1.

(** Type contains bug together with critical or blocker: 2; else security: 2;
    else feature or epic: 1; else nothing. *)
Definition spec_type_weight (issue_type : string) : Z :=
  let t := Str.lower issue_type in
  if (Str.contains "bug" t
      && (Str.contains "critical" t || Str.contains "blocker" t))%bool then 2
  else if Str.contains "security" t then 2
  else if (Str.contains "feature" t || Str.contains "epic" t)%bool then 1
  else 0.

(** A high-impact keyword in the joined labels and description: 1, once. *)
Definition spec_keyword_weight (labels : list string) (description : string)
    : Z :=
  let joined := Str.lower (Str.join " " (labels ++ [description])%list) in
  if existsb (fun keyword => Str.contains keyword joined) high_impact_keywords
  then 1 else 0.

Definition spec_total (issue_type priority : string) (labels : list string)
    (description : string) : Z :=
  spec_priority_weight priority + spec_type_weight issue_type
  + spec_keyword_weight labels description.

(** ** Date parser *)

(** A literal Z suffix becomes +0000; any other text is unchanged. *)
Fixpoint rewrite_Z_suffix (raw : string) : string :=
  match raw with
  | EmptyString => EmptyString
  | String c EmptyString =>
      if Ascii.eqb c "Z" then "+0000" else String c EmptyString
  | String c t => String c (rewrite_Z_suffix t)
  end.

(** The first pattern that parses wins; none is the result when none
    parses. *)
Fixpoint first_parse (strptime : string -> string -> option datetime)
    (text : string) (patterns : list string) : option datetime :=
  match patterns with
  | [] => None
  | p :: rest =>
      match strptime text p with
      | Some d => Some d
      | None => first_parse strptime text rest
      end
  end.

Definition spec_parse (strptime : string -> string -> option datetime)
    (raw : string) : option datetime :=
  first_parse strptime (rewrite_Z_suffix raw) formats.

(** The number of characters of [s] that are [Z] or [+]. *)
Fixpoint marks (s : string) : nat :=
  match s with
  | EmptyString => O
  | String c t =>
      ((if (Ascii.eqb c "Z" || Ascii.eqb c "+")%bool then 1 else 0)
       + marks t)%nat
  end.

(** What the proofs use of the library's [strptime]: under the five formats
    it parses no empty text, and no text with two or more characters among
    [Z] and [+] (a format has one zone field or one literal Z at most, and a
    zone is either Z alone or a signed offset). *)
Definition strptime_regular
    (strptime : string -> string -> option datetime) : Prop :=
  forall text fmt d,
    In fmt formats -> strptime text fmt = Some d ->
    text <> "" /\ (marks text <= 1)%nat.

(** ** Comparison *)

(** The instant of [d] in microseconds of UTC, a naive value read as UTC. *)
Definition utc_micros (d : datetime) : Z :=
  wall_micros d - match tzinfo d with Some off => off | None => 0 end.

(** A naive value taken as UTC; an aware value as it is. *)
Definition assume_utc (d : datetime) : datetime :=
  match tzinfo d with
  | None => replace_tzinfo_utc d
  | Some _ => d
  end.

(** ** Classifier *)

(** A timestamp field of an issue: absent or null, or a string. *)
Definition is_timestamp (v : json) : bool :=
  match v with
  | JNull | JStr _ => true
  | _ => false
  end.

(** The updated timestamp is absent, or parses under none of the five
    formats. *)
Definition unparseable (strptime : string -> string -> option datetime)
    (updated : json) : Prop :=
  updated = JNull \/
  exists s, updated = JStr s /\
            forall clean, clean_date (JStr s) = Ok clean ->
                          forall fmt, In fmt formats ->
                                      strptime clean fmt = None.

(** ** Board and issue discovery *)

(** [board.get('location', {}).get('projectKey')], the owning project key
    as [filter_boards_by_project] reads it. *)
Definition board_project_key (board : json) : result json :=
  location <- dict_get board "location" (JObj []) ;;
  dict_get1 location "projectKey".

(** A selected project, as [select_projects] stores it. *)
Definition project_record (p : string * string) : json :=
  JObj [("key", JStr (fst p)); ("name", JStr (snd p))].

(** [board] is a project-proxy board of the project [p]: the project owns
    it, its id is a string composed from the project key, and its kind is
    the project kind. *)
Definition is_proxy_of (p : string * string) (board : json) : Prop :=
  board_project_key board = Ok (JStr (fst p))
  /\ dict_get1 board "id" = Ok (JStr ("project-" ++ fst p))
  /\ dict_get1 board "type" = Ok (JStr "project").

(** The set that a listing backend reports under [member]: empty when the
    request fails in transit, is answered by another status than 200, or by
    a body that is not JSON; [None] when the answer has another shape than
    a dictionary with a list. *)
Definition reported (member : string) (o : outcome) : option (list json) :=
  match o with
  | Failed _ => Some []
  | Responded r =>
      if status_code r =? 200 then
        match body r with
        | None => Some []
        | Some (JObj kvs) =>
            match assoc member kvs with
            | None => Some []
            | Some (JArr l) => Some l
            | Some _ => None
            end
        | Some _ => None
        end
      else Some []
  end.

(** A tier's request fails: a network error, a status other than 200, or a
    body that is not JSON. *)
Definition tier_failed (o : outcome) : bool :=
  match o with
  | Failed _ => true
  | Responded r => (negb (status_code r =? 200) || is_None (body r))%bool
  end.

(** The board lookup resolves no owning project key: it finds no board, or
    a value that is no board record, or a board whose location is absent,
    is no dictionary, or names no key or the placeholder N/A. *)
Definition no_project_key (board_info : json) : bool :=
  match board_info with
  | JObj kvs =>
      match assoc "location" kvs with
      | Some (JObj l) =>
          match assoc "projectKey" l with
          | None => true
          | Some k => negb (usable_project_key k)
          end
      | _ => true
      end
  | _ => true
  end.

(** The last tier of [get_board_issues] cannot read the location of the
    board: the board is a true value and it, or its location, is no
    dictionary, so that the value has no [get]. *)
Definition location_unreadable (board_info : json) : bool :=
  (truthy board_info
   && match board_info with
      | JObj kvs =>
          match assoc "location" kvs with
          | None | Some (JObj _) => false
          | Some _ => true
          end
      | _ => true
      end)%bool.

(** The data of an issue that both shapes carry: its key, its status name,
    and the display name of its assignee, if it has one. *)
Record issue_facts : Type := mk_issue_facts {
  fact_key : string;
  fact_status : string;
  fact_assignee : option string
}.

(** A record of the legacy board work data carrying [d].  An unassigned
    issue has no [assigneeName], a null one or an empty one. *)
Definition legacy_shape (d : issue_facts) (issue_data : json) : Prop :=
  dict_get1 issue_data "key" = Ok (JStr (fact_key d))
  /\ dict_get1 issue_data "statusName" = Ok (JStr (fact_status d))
  /\ match fact_assignee d with
     | Some a => a <> "" /\ dict_get1 issue_data "assigneeName" = Ok (JStr a)
     | None => dict_get1 issue_data "assigneeName" = Ok JNull
               \/ dict_get1 issue_data "assigneeName" = Ok (JStr "")
     end.

(** A record of the modern shape carrying [d].  An unassigned issue has a
    null [assignee]. *)
Definition modern_shape (d : issue_facts) (issue : json) : Prop :=
  dict_get1 issue "key" = Ok (JStr (fact_key d))
  /\ exists fields status,
       dict_get1 issue "fields" = Ok fields
       /\ dict_get1 fields "status" = Ok status
       /\ dict_get1 status "name" = Ok (JStr (fact_status d))
       /\ match fact_assignee d with
          | Some a =>
              exists assignee,
                dict_get1 fields "assignee" = Ok assignee
                /\ dict_get1 assignee "displayName" = Ok (JStr a)
          | None => dict_get1 fields "assignee" = Ok JNull
          end.

(** The name shown for the assignee of an issue carrying [d]. *)
Definition assignee_shown (d : issue_facts) : string :=
  match fact_assignee d with
  | Some a => a
  | None => "Unassigned"
  end.

(** ** Version negotiation *)

Definition html_fronted_base : string := "https://jira.example.com".

Definition legacy_issue : json :=
  JObj [("key", JStr "OPS-1");
        ("fields", JObj [("summary", JStr "Rotate keys");
                         ("status", JObj [("name", JStr "In Progress")])])].

(** A server that answers every modern path with an HTML page and status
    200, and serves the legacy family. *)
Definition html_fronted_server (req : request) : outcome :=
  let u := url req in
  if String.eqb u (html_fronted_base ++ "/rest/api/2/myself") then
    Responded (mk_response 200 "{...}"
                 (Some (JObj [("displayName", JStr "Dev")])))
  else if String.eqb u (html_fronted_base ++ "/rest/api/2/search") then
    Responded (mk_response 200 "{...}"
                 (Some (JObj [("issues", JArr [legacy_issue])])))
  else if String.eqb u (html_fronted_base ++ "/rest/api/2/project") then
    Responded (mk_response 200 "[...]"
                 (Some (JArr [project_record ("OPS", "Operations")])))
  else if Str.startswith (html_fronted_base ++ "/rest/api/3/") u then
    Responded (mk_response 200 "<html><body>Log in</body></html>" None)
  else Responded (mk_response 404 "" None).

Definition fresh_session (base : string) : JiraManager :=
  mk_JiraManager base None [] [].

(** ** Measures and sample values used by the proofs *)

(** Microseconds from midnight to the time of day of [d]. *)
Definition day_micros (d : datetime) : Z :=
  (hour d * 3600 + minute d * 60 + second d) * 1000000 + microsecond d.

Definition is_mark (c : ascii) : bool :=
  (Ascii.eqb c "Z" || Ascii.eqb c "+")%bool.

Fixpoint marks_of (s : list ascii) : nat :=
  match s with
  | [] => O
  | c :: t => ((if is_mark c then 1 else 0) + marks_of t)%nat
  end.

(** The most marks that a text matched by a class, an expression or a
    compiled format can hold. *)
Definition class_marks (k : Strptime.cclass) : nat :=
  if (Strptime.cmatch k "Z" || Strptime.cmatch k "+")%bool then 1%nat else O.

Fixpoint regex_marks (r : Strptime.regex) : nat :=
  match r with
  | Strptime.Chr k => class_marks k
  | Strptime.Seq r1 r2 => (regex_marks r1 + regex_marks r2)%nat
  | Strptime.Alt r1 r2 => Nat.max (regex_marks r1) (regex_marks r2)
  | Strptime.Opt r1 => regex_marks r1
  end.

Fixpoint items_marks (items : list Strptime.item) : nat :=
  match items with
  | [] => O
  | Strptime.Literal c :: rest =>
      (class_marks (Strptime.CLitI c) + items_marks rest)%nat
  | Strptime.Group _ r :: rest => (regex_marks r + items_marks rest)%nat
  end.

Fixpoint has_Z (s : string) : bool :=
  match s with
  | EmptyString => false
  | String c t => (Ascii.eqb c "Z" || has_Z t)%bool
  end.

(** The board that tier 3 of [get_boards] makes of the project [p]. *)
Definition proxy_board (p : string * string) : json :=
  JObj [("id", JStr ("project-" ++ fst p));
        ("name", JStr (snd p ++ " (Project View)"));
        ("type", JStr "project");
        ("location", JObj [("projectKey", JStr (fst p))])].

Definition noon_utc : datetime :=
  mk_datetime 2024 1 15 12 0 0 0 (Some 0).
Definition noon_naive : datetime :=
  mk_datetime 2024 1 15 12 0 0 0 None.
Definition two_pm_plus_two : datetime :=
  mk_datetime 2024 1 15 14 0 0 0 (Some 7200000000).

(** The two identity probes of [test_connection], and the parameters of the
    search of [get_project_issues]. *)
Definition modern_probe (self : JiraManager) : request :=
  mk_request (base_url self ++ "/rest/api/3/myself") [].
Definition legacy_probe (self : JiraManager) : request :=
  mk_request (base_url self ++ "/rest/api/2/myself") [].

Definition search_params (project_key : json) (max_results : Z)
    : list (string * json) :=
  [("jql", JStr ("project = " ++ Fmt.py_str project_key
                 ++ " ORDER BY updated DESC"));
   ("maxResults", JNum max_results);
   ("fields", JStr "summary,status,assignee,priority,created,updated")].

(** Sample issues, servers and sessions. *)
Definition blocked_issue : json :=
  JObj [("key", JStr "OPS-7");
        ("fields",
         JObj [("status", JObj [("name", JStr "Blocked - Waiting on vendor")]);
               ("created", JStr "2024-01-10T09:00:00.000+0000");
               ("updated", JStr "yesterday")])].

Definition undated_done_issue : json :=
  JObj [("key", JStr "OPS-8");
        ("fields",
         JObj [("status", JObj [("name", JStr "Done")]);
               ("created", JStr "2024-01-10T09:00:00.000+0000");
               ("updated", JStr "15/01/2024")])].

Definition ops_base : string := "https://jira.example.com".

(** A server whose issue backends fail for board 42 and whose board lookup
    finds a rapid view with a filter that names no project. *)
Definition locked_server (req : request) : outcome :=
  let u := url req in
  if String.eqb u (ops_base ++ "/rest/agile/1.0/board/42/issue") then
    Responded (mk_response 401 "Unauthorized" None)
  else if String.eqb u
            (ops_base
             ++ "/rest/greenhopper/1.0/xboard/work/allData/?rapidViewId=42")
  then Responded (mk_response 200 "<html>Log in</html>" None)
  else if String.eqb u (ops_base ++ "/rest/greenhopper/1.0/rapidview/42") then
    Responded
      (mk_response 200 "{...}"
         (Some (JObj [("id", JNum 42);
                      ("name", JStr "Ops");
                      ("filter",
                       JObj [("query", JStr "assignee = currentUser()")])])))
  else if String.eqb u (ops_base ++ "/rest/agile/1.0/board") then
    Responded (mk_response 200 "{...}" (Some (JObj [("values", JArr [])])))
  else Responded (mk_response 404 "" None).

(** A board whose location is null, and a server whose issue backends know
    nothing of board 42 and whose board lookup serves that board. *)
Definition unplaced_board : json :=
  JObj [("id", JNum 42); ("name", JStr "Ops"); ("type", JStr "kanban");
        ("location", JNull)].

Definition unplaced_server (req : request) : outcome :=
  if String.eqb (url req) (ops_base ++ "/rest/agile/1.0/board/42")
  then Responded (mk_response 200 "{...}" (Some unplaced_board))
  else Responded (mk_response 404 "" None).

Definition ops_session : JiraManager :=
  mk_JiraManager ops_base (Some "v2")
                 [project_record ("OPS", "Operations");
                  project_record ("WEB", "Website")] [].

Definition legacy_record : json :=
  JObj [("key", JStr "OPS-9");
        ("id", JNum 10009);
        ("summary", JStr "Renew certificate");
        ("statusName", JStr "In Review");
        ("assigneeName", JStr "Ada Lovelace")].

Definition modern_record : json :=
  JObj [("id", JStr "10009");
        ("key", JStr "OPS-9");
        ("fields",
         JObj [("summary", JStr "Renew certificate");
               ("status", JObj [("name", JStr "In Review")]);
               ("assignee", JObj [("displayName", JStr "Ada Lovelace");
                                  ("active", JBool true)])])].

(** The list of [c] that holds the issues of bucket [b]. *)
Definition cat_list (b : bucket) (c : categorized) : list json :=
  match b with
  | started => cat_started c
  | completed => cat_completed c
  | blocked => cat_blocked c
  | other => cat_other c
  end.

(** A done issue with the given updated timestamp. *)
Definition done_issue (updated : string) : json :=
  JObj [("key", JStr "OPS-3");
        ("fields", JObj [("status", JObj [("name", JStr "Done")]);
                         ("updated", JStr updated)])].

(* ================================================================== *)
(** * Text substitution *)
(* ================================================================== *)

Module Re.

(** [re.sub(pattern, repl, s)] for a pattern that matches no empty text.
    [match_len s] is the length of the match of the pattern at the start of
    [s], if it has one there.  The scan goes from left to right; the text of
    a match is replaced by [repl] and the scan resumes after it, so matches
    do not overlap.  [skip] counts the characters of the current match that
    are still to be dropped. *)
Fixpoint sub_from (match_len : list ascii -> option nat) (repl : list ascii)
    (skip : nat) (s : list ascii) : list ascii :=
  match s with
  | [] => []
  | c :: t =>
      match skip with
      | S k => sub_from match_len repl k t
      | O =>
          match match_len s with
          | Some (S k) => (repl ++ sub_from match_len repl k t)%list
          | _ => c :: sub_from match_len repl O t
          end
      end
  end.

Definition sub (match_len : list ascii -> option nat) (repl s : string)
    : string :=
  string_of_list_ascii
    (sub_from match_len (list_ascii_of_string repl) O
              (list_ascii_of_string s)).

(** The position of the first character of [s] that satisfies [p]. *)
Fixpoint find_index (p : ascii -> bool) (s : list ascii) : option nat :=
  match s with
  | [] => None
  | c :: t => if p c then Some O else option_map S (find_index p t)
  end.

(** An opening brace, any characters but a closing brace, a closing
    brace. *)
Definition braces (s : list ascii) : option nat :=
  match s with
  | c :: t =>
      if Ascii.eqb c "{"
      then option_map (fun i => (i + 2)%nat) (find_index (Ascii.eqb "}") t)
      else None
  | [] => None
  end.

(** An opening bracket and a tilde, any characters but a closing bracket, a
    closing bracket. *)
Definition mention (s : list ascii) : option nat :=
  match s with
  | c :: d :: t =>
      if (Ascii.eqb c "[" && Ascii.eqb d "~")%bool
      then option_map (fun i => (i + 3)%nat) (find_index (Ascii.eqb "]") t)
      else None
  | _ => None
  end.

(** An opening bracket, then up to the next closing bracket a text that
    holds a vertical bar.  Neither part around the bar can hold a closing
    bracket, so the match ends at the first one. *)
Definition link (s : list ascii) : option nat :=
  match s with
  | c :: t =>
      if Ascii.eqb c "[" then
        match find_index (Ascii.eqb "]") t with
        | Some i =>
            if existsb (Ascii.eqb "|") (firstn i t) then Some (i + 2)%nat
            else None
        | None => None
        end
      else None
  | [] => None
  end.

(** The letter h, a digit from 1 to 6, a full stop and a space. *)
Definition heading (s : list ascii) : option nat :=
  match s with
  | c :: d :: e :: f :: _ =>
      if (Ascii.eqb c "h" && Strptime.in_range "1" "6" d
          && Ascii.eqb e "." && Ascii.eqb f " ")%bool
      then Some 4%nat else None
  | _ => None
  end.

(** One or more characters of the class [p], as many as there are. *)
Definition run_of (p : ascii -> bool) (s : list ascii) : option nat :=
  match List.length (Filter.take_while p s) with
  | O => None
  | n => Some n
  end.

Definition is_emphasis (c : ascii) : bool :=
  (Ascii.eqb c "*" || Ascii.eqb c "_" || Ascii.eqb c "#")%bool.

Definition is_newline (c : ascii) : bool := Nat.eqb (nat_of_ascii c) 10.

(** The text [old] itself. *)
Definition literal (old : string) (s : list ascii) : option nat :=
  if String.prefix old (string_of_list_ascii s)
  then Some (String.length old) else None.

(** [s.replace(old, new)] for a non-empty [old]. *)
Definition replace (old new s : string) : string := sub (literal old) new s.

(** [s.rstrip(chars)] for a one-character [chars]. *)
Definition rstrip_char (c : ascii) (s : string) : string :=
  Str.rev (string_of_list_ascii
             (Filter.skip_while (Ascii.eqb c)
                                (list_ascii_of_string (Str.rev s)))).

(** [s[:n]] *)
Fixpoint slice_to (n : nat) (s : string) : string :=
  match n, s with
  | S k, String c t => String c (slice_to k t)
  | _, _ => EmptyString
  end.

End Re.

(* ================================================================== *)
(** * Executive summaries *)
(* ================================================================== *)

(** The line feed, which Python writes with a backslash and the letter n. *)
Definition newline : string := String (ascii_of_nat 10) "".

(** The seven substitutions of [_clean_jira_text] and its final [strip]. *)
Definition clean_markup (text : string) : string :=
  let text := Re.sub Re.braces "" text in
  let text := Re.sub Re.mention "" text in
  let text := Re.sub Re.link "" text in
  let text := Re.sub Re.heading "" text in
  let text := Re.sub (Re.run_of Re.is_emphasis) "" text in
  let text := Re.sub (Re.run_of Re.is_newline) " " text in
  let text := Re.sub (Re.run_of Str.is_space) " " text in
  Str.strip text.

(** [re.sub] wants a [str]. *)
Definition _clean_jira_text (text : json) : result string :=
  if negb (truthy text) then Ok ""
  else match text with
       | JStr s => Ok (clean_markup s)
       | _ => Raise TypeError
       end.

(** [if len(s) > limit: s = s[:keep] + "..."] *)
Definition shorten (limit keep : nat) (s : string) : string :=
  if Nat.ltb limit (String.length s) then Re.slice_to keep s ++ "..." else s.

(** [sep.join(parts)]: every part must be a [str]. *)
Fixpoint all_str (parts : list json) : result (list string) :=
  match parts with
  | [] => Ok []
  | JStr s :: rest => strs <- all_str rest ;; Ok (s :: strs)
  | _ :: _ => Raise TypeError
  end.

(** [[f(x) for x in xs]] *)
Fixpoint comprehension {A B : Type} (f : A -> result B) (xs : list A)
    : result (list B) :=
  match xs with
  | [] => Ok []
  | x :: rest => y <- f x ;; ys <- comprehension f rest ;; Ok (y :: ys)
  end.

(** [_assess_business_impact] on the values that [generate_executive_summary]
    hands to it.  It calls [priority.lower()], then [issue_type.lower()],
    then [' '.join(labels + [description])], which wants a list of [str]
    and a [str]. *)
Definition assess_decoded (issue_type priority labels description : json)
    : result string :=
  match priority with
  | JStr priority =>
      match issue_type with
      | JStr issue_type =>
          match labels with
          | JArr labels =>
              labels <- all_str labels ;;
              match description with
              | JStr description =>
                  Ok (_assess_business_impact issue_type priority labels
                                              description)
              | _ => Raise TypeError
              end
          | _ => Raise TypeError
          end
      | _ => Raise AttributeError
      end
  | _ => Raise AttributeError
  end.

(** [comments[-2:] if len(comments) > 0 else []]; slicing a [dict] is the
    [TypeError] of CPython 3.11. *)
Definition recent_of (comments : json) : result json :=
  n <- py_len comments ;;
  if 0 <? n then
    match comments with
    | JArr l => Ok (JArr (skipn (List.length l - 2) l))
    | JStr s =>
        Ok (JStr (string_of_list_ascii
                    (skipn (String.length s - 2) (list_ascii_of_string s))))
    | _ => Raise TypeError
    end
  else Ok (JArr []).

(** [recent_comments[-1]] of a non-empty value. *)
Definition latest_of (recent_comments : json) : result json :=
  match recent_comments with
  | JArr l => Ok (last l JNull)
  | JStr s =>
      Ok (JStr (string_of_list_ascii
                  (skipn (String.length s - 1) (list_ascii_of_string s))))
  | _ => Raise TypeError
  end.

Definition generate_executive_summary (issue_details : json) : result string :=
  if negb (truthy issue_details)
  then Ok "Unable to generate summary - issue details not available."
  else
    fields <- dict_get issue_details "fields" (JObj []) ;;
    key <- dict_get issue_details "key" (JStr "Unknown") ;;
    summary <- dict_get fields "summary" (JStr "No summary available") ;;
    description <- dict_get fields "description" (JStr "") ;;
    issue_type <- (t <- dict_get fields "issuetype" (JObj []) ;;
                   dict_get t "name" (JStr "Unknown")) ;;
    priority <- (p <- dict_get fields "priority" (JObj []) ;;
                 dict_get p "name" (JStr "Unknown")) ;;
    status <- (s <- dict_get fields "status" (JObj []) ;;
               dict_get s "name" (JStr "Unknown")) ;;
    assignee <- dict_get1 fields "assignee" ;;
    assignee_name <-
      (if truthy assignee
       then dict_get assignee "displayName" (JStr "Unassigned")
       else Ok (JStr "Unassigned")) ;;
    components <- (cs <- dict_get fields "components" (JArr []) ;;
                   cs <- py_iter cs ;;
                   comprehension (fun c => dict_get c "name" (JStr "")) cs) ;;
    labels <- dict_get fields "labels" (JArr []) ;;
    comments <- (c <- dict_get fields "comment" (JObj []) ;;
                 dict_get c "comments" (JArr [])) ;;
    recent_comments <- recent_of comments ;;
    let summary_parts : list string := [] in
    summary_parts <-
      (if truthy description then
         clean_desc <- _clean_jira_text description ;;
         let clean_desc := shorten 200 197 clean_desc in
         Ok (summary_parts
             ++ [("**Description:** " ++ clean_desc)%string])%list
       else Ok summary_parts) ;;
    let summary_parts :=
      (summary_parts
       ++ [("**Current Status:** " ++ Fmt.py_str status
            ++ " | **Priority:** " ++ Fmt.py_str priority)%string])%list in
    summary_parts <-
      (if truthy (JArr components) then
         names <- all_str components ;;
         Ok (summary_parts
             ++ [("**Components:** " ++ Str.join ", " names)%string])%list
       else Ok summary_parts) ;;
    summary_parts <-
      (if truthy recent_comments then
         latest_comment <- latest_of recent_comments ;;
         comment_author <- (a <- dict_get latest_comment "author" (JObj []) ;;
                            dict_get a "displayName" (JStr "Unknown")) ;;
         comment_body <- dict_get latest_comment "body" (JStr "") ;;
         comment_text <- _clean_jira_text comment_body ;;
         let comment_text := shorten 100 97 comment_text in
         Ok (summary_parts
             ++ [("**Latest Update (" ++ Fmt.py_str comment_author
                  ++ "):** " ++ comment_text)%string])%list
       else Ok summary_parts) ;;
    impact_level <- assess_decoded issue_type priority labels description ;;
    Ok (Str.join newline
          (summary_parts
           ++ [("**Business Impact:** " ++ impact_level)%string])%list).

(* ================================================================== *)
(** * Issue lines of the weekly report *)
(* ================================================================== *)

(** The heading lines that [_format_issues_for_report] writes for an issue
    of the given category; another category has none. *)
Definition category_lines (category jira_link summary assignee_name priority
    status : string) : list string :=
  if String.eqb category "started" then
    ["### " ++ jira_link ++ ": " ++ summary;
     "**Assignee:** " ++ assignee_name ++ " | **Priority:** " ++ priority]
  else if String.eqb category "completed" then
    ["### ✅ " ++ jira_link ++ ": " ++ summary;
     "**Assignee:** " ++ assignee_name]
  else if String.eqb category "blocked" then
    ["### 🚫 " ++ jira_link ++ ": " ++ summary;
     "**Status:** " ++ status ++ " | **Assignee:** " ++ assignee_name;
     "**Blocking Reason:** *[TODO: Add blocking reason]*"]
  else [].

Section Report.

Variable server : request -> outcome.

(** The loop of [_format_issues_for_report]. *)
Fixpoint format_issues_from (issues : list json) (category : string)
    (include_summaries : bool) (formatted_lines : list string)
    : M (list string) :=
  match issues with
  | [] => ret formatted_lines
  | issue :: rest =>
      self <~ get_self ;;
      key <~ lift (dict_get issue "key" (JStr "Unknown")) ;;
      summary <~ lift (fields <- dict_get issue "fields" (JObj []) ;;
                       dict_get fields "summary" (JStr "No summary")) ;;
      assignee <~ lift (fields <- dict_get issue "fields" (JObj []) ;;
                        dict_get1 fields "assignee") ;;
      assignee_name <~
        lift (if truthy assignee
              then dict_get assignee "displayName" (JStr "Unassigned")
              else Ok (JStr "Unassigned")) ;;
      priority <~ lift (fields <- dict_get issue "fields" (JObj []) ;;
                        priority <- dict_get fields "priority" (JObj []) ;;
                        dict_get priority "name" (JStr "Unknown")) ;;
      status <~ lift (shown_status issue) ;;
      let jira_link :=
        ("[" ++ Fmt.py_str key ++ "](" ++ base_url self ++ "/browse/"
         ++ Fmt.py_str key ++ ")")%string in
      let formatted_lines :=
        (formatted_lines
         ++ category_lines category jira_link (Fmt.py_str summary)
              (Fmt.py_str assignee_name) (Fmt.py_str priority)
              (Fmt.py_str status))%list in
      formatted_lines <~
        (if include_summaries then
           issue_details <~ get_issue_details server (Fmt.py_str key) ;;
           if truthy issue_details then
             exec_summary <~ lift (generate_executive_summary issue_details) ;;
             ret (formatted_lines
                  ++ [(newline ++ "**Executive Summary:**")%string;
                      exec_summary])%list
           else
             ret (formatted_lines
                  ++ [(newline ++ "**Executive Summary:** Unable to fetch detailed information for this issue.")%string])%list
         else ret formatted_lines) ;;
      format_issues_from rest category include_summaries
                         (formatted_lines ++ [""%string])%list
  end.

Definition _format_issues_for_report (issues : list json) (category : string)
    (include_summaries : bool) : M string :=
  if negb (truthy (JArr issues))
  then ret ("*No items for this period.*" ++ newline)
  else
    formatted_lines <~ format_issues_from issues category include_summaries [] ;;
    ret (Str.join newline formatted_lines).

End Report.

(* ================================================================== *)
(** * Choosing projects and boards *)
(* ================================================================== *)

(** The loop of [find_project_by_name]; [search_term] is in lower case. *)
Fixpoint find_project_by_name_from (projects : list json)
    (search_term : string) (matches : list json) : result (list json) :=
  match projects with
  | [] => Ok matches
  | project :: rest =>
      name <- py_getitem project "name" ;;
      project_name <- py_lower name ;;
      key <- py_getitem project "key" ;;
      project_key <- py_lower key ;;
      if (Str.contains search_term project_name
          || Str.contains search_term project_key
          || String.eqb project_name search_term
          || String.eqb project_key search_term)%bool
      then find_project_by_name_from rest search_term
             (matches ++ [project])%list
      else find_project_by_name_from rest search_term matches
  end.

Definition find_project_by_name (projects : list json) (search_term : string)
    : result (list json) :=
  let search_term := Str.lower search_term in
  find_project_by_name_from projects search_term [].

(** [a == b] on decoded values.  [True] and [False] equal 1 and 0; lists are
    compared in order; dictionaries, which hold no key twice, have the same
    keys with equal values. *)
Fixpoint py_eq (a b : json) {struct a} : bool :=
  match a, b with
  | JNull, JNull => true
  | JBool x, JBool y => Bool.eqb x y
  | JBool x, JNum n => (if x then 1 else 0) =? n
  | JNum n, JBool y => n =? (if y then 1 else 0)
  | JNum m, JNum n => m =? n
  | JStr s, JStr t => String.eqb s t
  | JArr xs, JArr ys =>
      (fix items (xs ys : list json) {struct xs} : bool :=
         match xs, ys with
         | [], [] => true
         | x :: xs', y :: ys' => (py_eq x y && items xs' ys')%bool
         | _, _ => false
         end) xs ys
  | JObj ms, JObj ns =>
      (Nat.eqb (List.length ms) (List.length ns)
       && (fix members (ms : list (string * json)) {struct ms} : bool :=
             match ms with
             | [] => true
             | (k, v) :: ms' =>
                 (match assoc k ns with
                  | Some w => py_eq v w
                  | None => false
                  end && members ms')%bool
             end) ms)%bool
  | _, _ => false
  end.

(** [x in l] for a list [l] *)
Definition py_in (x : json) (l : list json) : bool := existsb (py_eq x) l.

(** The loop of [filter_boards_by_project]. *)
Fixpoint filter_boards_from (selected_project_keys boards : list json)
    (filtered_boards : list json) : result (list json) :=
  match boards with
  | [] => Ok filtered_boards
  | board :: rest =>
      board_project_key <- board_project_key board ;;
      if py_in board_project_key selected_project_keys
      then filter_boards_from selected_project_keys rest
             (filtered_boards ++ [board])%list
      else filter_boards_from selected_project_keys rest filtered_boards
  end.

Definition filter_boards_by_project (boards : list json) : M (list json) :=
  self <~ get_self ;;
  if negb (truthy (JArr (selected_projects self))) then ret boards
  else
    selected_project_keys <~
      lift (comprehension (fun p => py_getitem p "key")
                          (selected_projects self)) ;;
    lift (filter_boards_from selected_project_keys boards []).

(* ================================================================== *)
(** * Issues of a board by status *)
(* ================================================================== *)

(** A [dict] from status names to lists of issues, in insertion order. *)
Definition groups : Type := list (string * list json).

(** [d[k] = v]: a key that is present keeps its place. *)
Fixpoint dict_set (k : string) (v : list json) (d : groups) : groups :=
  match d with
  | [] => [(k, v)]
  | (k', v') :: rest =>
      if String.eqb k k' then (k', v) :: rest
      else (k', v') :: dict_set k v rest
  end.

(** [d[k].append(x)]; a missing key is a [KeyError]. *)
Fixpoint dict_append (k : string) (x : json) (d : groups) : result groups :=
  match d with
  | [] => Raise KeyError
  | (k', v') :: rest =>
      if String.eqb k k' then Ok ((k', (v' ++ [x])%list) :: rest)
      else rest' <- dict_append k x rest ;; Ok ((k', v') :: rest')
  end.

(** The inner loop of [get_board_issues_by_status] with its [break]: the
    first status that holds the status of the issue, or is held by it,
    letters compared without case. *)
Fixpoint match_status (statuses : list string) (issue_status : json)
    : result (option string) :=
  match statuses with
  | [] => Ok None
  | status :: rest =>
      issue_lower <- py_lower issue_status ;;
      if (Str.contains (Str.lower status) issue_lower
          || Str.contains issue_lower (Str.lower status))%bool
      then Ok (Some status)
      else match_status rest issue_status
  end.

(** The loop over the issues. *)
Fixpoint group_issues (statuses : list string) (all_issues : list json)
    (issues_by_status : groups) : result groups :=
  match all_issues with
  | [] => Ok issues_by_status
  | issue :: rest =>
      issue_status <- shown_status issue ;;
      matched_status <- match_status statuses issue_status ;;
      issues_by_status <-
        match matched_status with
        | Some status =>
            if negb (String.eqb status "")
            then dict_append status issue issues_by_status
            else dict_append "Other" issue issues_by_status
        | None => dict_append "Other" issue issues_by_status
        end ;;
      group_issues statuses rest issues_by_status
  end.

Definition default_statuses : list string :=
  ["In Progress"; "In Review"; "Done"; "To Do"; "New"; "Open"].

(** The dictionary before the loop over the issues: an empty list for each
    status, then for Other. *)
Definition empty_groups (statuses : list string) : groups :=
  dict_set "Other" [] (fold_left (fun d status => dict_set status [] d)
                                 statuses []).

(** [{k: v for k, v in d.items() if v}] *)
Definition drop_empty (d : groups) : groups :=
  filter (fun kv => match snd kv with [] => false | _ => true end) d.

Section StatusGroups.

Variable server : request -> outcome.

(** [statuses] is [None] when the caller gives none. *)
Definition get_board_issues_by_status (board_id : string)
    (statuses : option (list string)) : M groups :=
  let statuses := match statuses with
                  | None => default_statuses
                  | Some given => given
                  end in
  all_issues <~ get_board_issues server board_id 100 ;;
  let issues_by_status := empty_groups statuses in
  all_issues <~ lift (py_iter all_issues) ;;
  issues_by_status <~ lift (group_issues statuses all_issues issues_by_status) ;;
  ret (drop_empty issues_by_status).

End StatusGroups.

(* ================================================================== *)
(** * The base URL read by [interactive_setup] *)
(* ================================================================== *)

(** [startswith(('http://', 'https://'))] *)
Definition has_scheme (base_url : string) : bool :=
  (Str.startswith "http://" base_url || Str.startswith "https://" base_url)%bool.

(** The value of [self.base_url] when one pass of the input loop reaches
    its validity test, from the line that [input] returned. *)
Definition interactive_setup_base_url (line : string) : string :=
  let base_url := Re.rstrip_char "/" (Str.strip line) in
  if Str.startswith "htpps://" base_url
  then Re.replace "htpps://" "https://" base_url
  else if Str.startswith "htpp://" base_url
  then Re.replace "htpp://" "https://" base_url
  else if negb (has_scheme base_url) then "https://" ++ base_url
  else base_url.

(* ================================================================== *)
(** * Notions and sample values of the further properties *)
(* ================================================================== *)

(** A project key as the filter pattern reads one: a letter, then letters
    and digits. *)
Definition is_project_key (k : string) : bool :=
  match list_ascii_of_string k with
  | c :: t => (Filter.is_alpha c && forallb Filter.is_alnum t)%bool
  | [] => false
  end.

(** The number of issues in the four lists of [c]. *)
Definition cat_total (c : categorized) : nat :=
  (List.length (cat_started c) + List.length (cat_completed c)
   + List.length (cat_blocked c) + List.length (cat_other c))%nat.

(** [project] has a name and a key that are strings. *)
Definition is_project (project : json) : Prop :=
  exists name key,
    py_getitem project "name" = Ok (JStr name)
    /\ py_getitem project "key" = Ok (JStr key).

(** The search term occurs in the name or in the key of [project], letters
    compared without case. *)
Definition project_matches (search_term : string) (project : json) : bool :=
  match py_getitem project "name", py_getitem project "key" with
  | Ok (JStr name), Ok (JStr key) =>
      (Str.contains (Str.lower search_term) (Str.lower name)
       || Str.contains (Str.lower search_term) (Str.lower key))%bool
  | _, _ => false
  end.

(** The owning project key of [board] equals one of the selected keys. *)
Definition board_selected (selected_project_keys : list json) (board : json)
    : bool :=
  match board_project_key board with
  | Ok key => py_in key selected_project_keys
  | Raise _ => false
  end.

(** The issues of all the groups, group after group. *)
Definition grouped (d : groups) : list json := concat (map snd d).



(** A server that refuses every request, and one that cannot be reached. *)
Definition denying_server (req : request) : outcome :=
  Responded (mk_response 401 "Unauthorized" None).

Definition down_server (req : request) : outcome := Failed NoConnection.

(** The details of an issue without description, as the legacy family
    serves them. *)
Definition undescribed_details : json :=
  JObj [("key", JStr "OPS-1");
        ("fields",
         JObj [("summary", JStr "Rotate keys");
               ("description", JNull);
               ("issuetype", JObj [("name", JStr "Task")]);
               ("priority", JObj [("name", JStr "High")]);
               ("status", JObj [("name", JStr "In Progress")]);
               ("assignee", JNull);
               ("components", JArr []);
               ("labels", JArr [JStr "security"]);
               ("comment", JObj [("comments", JArr [])])])].

(** A server with two boards: the agile backend serves the issues of
    board 7, the board work data those of board 8; it also serves the
    details of OPS-1. *)
Definition kanban_server (req : request) : outcome :=
  let u := url req in
  if String.eqb u (ops_base ++ "/rest/agile/1.0/board/7/issue") then
    Responded
      (mk_response 200 "{...}"
         (Some (JObj [("issues",
                       JArr [legacy_issue;
                             done_issue "2024-01-15T14:00:00.000+0100";
                             blocked_issue])])))
  else if String.eqb u
            (ops_base
             ++ "/rest/greenhopper/1.0/xboard/work/allData/?rapidViewId=8")
  then
    Responded
      (mk_response 200 "{...}"
         (Some (JObj [("rapidViewId", JNum 8);
                      ("issuesData",
                       JObj [("rankCustomFieldId", JNum 10100);
                             ("issues", JArr [legacy_record])])])))
  else if String.eqb u (ops_base ++ "/rest/api/2/issue/OPS-1") then
    Responded (mk_response 200 "{...}" (Some undescribed_details))
  else Responded (mk_response 404 "" None).

(** Projects as the project listing serves them. *)
Definition listed_projects : list json :=
  [JObj [("id", JStr "10000"); ("key", JStr "OPS");
         ("name", JStr "Operations")];
   JObj [("id", JStr "10001"); ("key", JStr "WEB");
         ("name", JStr "Website")];
   JObj [("id", JStr "10002"); ("key", JStr "DOC");
         ("name", JStr "Web Documentation")]].

(* ================================================================== *)
(** * Theorems *)
(* ================================================================== *)

(** ** Impact scorer *)

Lemma scan_keywords_weight (keywords : list string) (text : string) (acc : Z) :
  scan_keywords keywords text acc
  = acc + (if existsb (fun keyword => Str.contains keyword text) keywords
           then 1 else 0).
Proof.
  induction keywords as [|k rest IH]; simpl.
  - lia.
  - destruct (Str.contains k text); simpl; [reflexivity | apply IH].
Qed.

Lemma impact_score_total (issue_type priority : string) (labels : list string)
    (description : string) :
  impact_score issue_type priority labels description
  = spec_total issue_type priority labels description.
Proof.
  unfold impact_score, spec_total, spec_priority_weight, spec_type_weight,
    spec_keyword_weight.
  rewrite scan_keywords_weight.
  destruct (Str.contains "critical" (Str.lower priority));
    destruct (Str.contains "highest" (Str.lower priority));
    destruct (Str.contains "high" (Str.lower priority));
    destruct (Str.contains "medium" (Str.lower priority));
    destruct (Str.contains "bug" (Str.lower issue_type)
              && (Str.contains "critical" (Str.lower issue_type)
                  || Str.contains "blocker" (Str.lower issue_type)))%bool;
    destruct (Str.contains "security" (Str.lower issue_type));
    destruct (Str.contains "feature" (Str.lower issue_type)
              || Str.contains "epic" (Str.lower issue_type))%bool;
    simpl; lia.
Qed.

(** C8.  For every input the scorer's total is the sum of the three stated
    weights (priority 4/3/2/1, type 2/2/1/0, keyword 1 at most once), and
    the text returned is the HIGH text for a total of 6 or more, the MEDIUM
    text for 4 or 5, and the LOW text for anything less, which are three
    different texts; the type "Bug - Critical" at priority "Highest" totals
    6 and gets the HIGH text, and the type "Task" at priority "Low" with the
    label "customer impact" totals 2 and gets the LOW text. *)
Theorem assess_business_impact_weights :
  (forall issue_type priority labels description,
      let total := impact_score issue_type priority labels description in
      let rating :=
        _assess_business_impact issue_type priority labels description in
      total = spec_priority_weight priority + spec_type_weight issue_type
              + spec_keyword_weight labels description
      /\ 1 <= spec_priority_weight priority <= 4
      /\ 0 <= spec_type_weight issue_type <= 2
      /\ 0 <= spec_keyword_weight labels description <= 1
      /\ (6 <= total ->
          rating
          = "🔴 **HIGH** - Critical business impact requiring immediate attention")
      /\ (4 <= total < 6 ->
          rating
          = "🟡 **MEDIUM** - Moderate business impact, should be prioritized")
      /\ (total < 4 ->
          rating
          = "🟢 **LOW** - Minimal business impact, can be addressed in normal workflow"))
  /\ impact_score "Bug - Critical" "Highest" [] "" = 6
  /\ _assess_business_impact "Bug - Critical" "Highest" [] ""
     = "🔴 **HIGH** - Critical business impact requiring immediate attention"
  /\ impact_score "Task" "Low" ["customer impact"] "" = 2
  /\ _assess_business_impact "Task" "Low" ["customer impact"] ""
     = "🟢 **LOW** - Minimal business impact, can be addressed in normal workflow".
Proof.
  split; [| repeat split; reflexivity].
  intros issue_type priority labels description total rating.
  split; [apply impact_score_total |].
  assert (R : rating = level_text (if 6 <=? total then HIGH
                                   else if 4 <=? total then MEDIUM else LOW))
    by reflexivity.
  rewrite R. clear R.
  unfold spec_priority_weight, spec_type_weight, spec_keyword_weight.
  split; [| split; [| split; [| split; [| split]]]].
  1-3: repeat match goal with
              | |- context [if ?b then _ else _] => destruct b
              end; lia.
  all: intros H;
    destruct (Z.leb_spec 6 total); try lia; try reflexivity;
    destruct (Z.leb_spec 4 total); try lia; reflexivity.
Qed.

(** ** Calendar arithmetic *)

Lemma valid_datetime_bounds (d : datetime) :
  valid_datetime d = true ->
  1 <= year d <= 9999 /\ 1 <= month d <= 12
  /\ 1 <= day d <= days_in_month (year d) (month d)
  /\ 0 <= hour d <= 23 /\ 0 <= minute d <= 59 /\ 0 <= second d <= 59
  /\ 0 <= microsecond d <= 999999.
Proof.
  unfold valid_datetime. intros H.
  repeat (apply andb_prop in H; destruct H as [H ?]).
  repeat match goal with
         | H : (_ <=? _) = true |- _ => apply Z.leb_le in H
         end.
  lia.
Qed.

Lemma days_before_year_step (y : Z) :
  days_before_year (y + 1)
  = days_before_year y + 365 + (if is_leap y then 1 else 0).
Proof.
  unfold days_before_year, is_leap.
  replace (y + 1 - 1) with y by lia.
  destruct (y mod 4 =? 0) eqn:E4; destruct (y mod 100 =? 0) eqn:E100;
    destruct (y mod 400 =? 0) eqn:E400; simpl;
    rewrite ?Z.eqb_eq, ?Z.eqb_neq in *;
    Z.to_euclidean_division_equations; lia.
Qed.

Lemma days_before_year_mono (a b : Z) :
  a <= b -> days_before_year a <= days_before_year b.
Proof.
  unfold days_before_year. intros H.
  Z.to_euclidean_division_equations; lia.
Qed.

Lemma month_cases (m : Z) :
  1 <= m <= 12 ->
  m = 1 \/ m = 2 \/ m = 3 \/ m = 4 \/ m = 5 \/ m = 6 \/ m = 7 \/ m = 8
  \/ m = 9 \/ m = 10 \/ m = 11 \/ m = 12.
Proof. lia. Qed.

Ltac months H :=
  destruct H as [-> | [-> | [-> | [-> | [-> | [-> | [-> | [-> | [-> | [-> | [-> | ->]]]]]]]]]]].

Ltac table_entries :=
  repeat match goal with
         | |- context [nth ?n days_before_month_table 0] =>
             let v := eval vm_compute in (nth n days_before_month_table 0) in
             change (nth n days_before_month_table 0) with v
         | |- context [Z.ltb ?a ?b] =>
             let v := eval vm_compute in (Z.ltb a b) in
             change (Z.ltb a b) with v
         | H : context [Z.eqb ?a ?b] |- _ =>
             let v := eval vm_compute in (Z.eqb a b) in
             change (Z.eqb a b) with v in H
         end;
  cbn [andb orb] in *.

Lemma day_of_year_bounds (y m d : Z) :
  1 <= m <= 12 -> 1 <= d <= days_in_month y m ->
  1 <= days_before_month y m + d <= 365 + (if is_leap y then 1 else 0).
Proof.
  intros Hm Hd. apply month_cases in Hm.
  unfold days_before_month, days_in_month in *.
  destruct (is_leap y); months Hm; table_entries; lia.
Qed.

Lemma day_of_year_month_mono (y m1 d1 m2 d2 : Z) :
  1 <= m1 <= 12 -> 1 <= m2 <= 12 ->
  1 <= d1 <= days_in_month y m1 -> 1 <= d2 <= days_in_month y m2 ->
  m1 < m2 ->
  days_before_month y m1 + d1 < days_before_month y m2 + d2.
Proof.
  intros Hm1 Hm2 Hd1 Hd2 Hlt.
  apply month_cases in Hm1. apply month_cases in Hm2.
  unfold days_before_month, days_in_month in *.
  destruct (is_leap y); months Hm1; months Hm2; table_entries; lia.
Qed.

Lemma toordinal_lex (a b : datetime) :
  valid_datetime a = true -> valid_datetime b = true ->
  (year a < year b
   \/ (year a = year b /\ month a < month b)
   \/ (year a = year b /\ month a = month b /\ day a < day b)) ->
  toordinal a < toordinal b.
Proof.
  intros Ha Hb H.
  apply valid_datetime_bounds in Ha, Hb.
  unfold toordinal.
  destruct H as [H | [[Hy H] | [Hy [Hm H]]]].
  - pose proof (day_of_year_bounds (year a) (month a) (day a)
                  ltac:(lia) ltac:(lia)) as Ba.
    pose proof (day_of_year_bounds (year b) (month b) (day b)
                  ltac:(lia) ltac:(lia)) as Bb.
    pose proof (days_before_year_step (year a)) as St.
    pose proof (days_before_year_mono (year a + 1) (year b) ltac:(lia)) as Mo.
    lia.
  - rewrite Hy in *.
    pose proof (day_of_year_month_mono (year b) (month a) (day a) (month b)
                  (day b) ltac:(lia) ltac:(lia) ltac:(lia) ltac:(lia) H).
    lia.
  - rewrite Hy, Hm. lia.
Qed.

Lemma wall_micros_split (d : datetime) :
  wall_micros d = toordinal d * 86400000000 + day_micros d.
Proof. unfold wall_micros, day_micros. lia. Qed.

Lemma fields_ge_wall (a b : datetime) :
  valid_datetime a = true -> valid_datetime b = true ->
  fields_ge a b = (wall_micros b <=? wall_micros a).
Proof.
  intros Ha Hb.
  pose proof (toordinal_lex a b Ha Hb) as Lab.
  pose proof (toordinal_lex b a Hb Ha) as Lba.
  pose proof (valid_datetime_bounds a Ha) as Ba.
  pose proof (valid_datetime_bounds b Hb) as Bb.
  rewrite !wall_micros_split. unfold day_micros.
  assert (E : year a = year b -> month a = month b -> day a = day b ->
              toordinal a = toordinal b).
  { unfold toordinal. intros -> -> ->. reflexivity. }
  unfold fields_ge.
  repeat match goal with
         | |- context [?x =? ?y] =>
             destruct (Z.eqb_spec x y)
         end;
    match goal with
    | |- context [?x <? ?y] => destruct (Z.ltb_spec x y)
    | _ => idtac
    end;
    symmetry; first [apply Z.leb_le | apply Z.leb_gt]; lia.
Qed.

(** ** Comparison of instants *)

Lemma compare_dates_try_cases (a b : datetime) :
  _compare_dates_try (Some a) (Some b)
  = match tzinfo a, tzinfo b with
    | Some _, Some _ => datetime_ge a b
    | None, None => datetime_ge a b
    | None, Some _ => datetime_ge (replace_tzinfo_utc a) b
    | Some _, None => datetime_ge a (replace_tzinfo_utc b)
    end.
Proof.
  unfold _compare_dates_try, py_and, tz_is_not_None, tz_is_None, get_tzinfo,
    py_replace_utc, py_ge.
  destruct (tzinfo a), (tzinfo b); reflexivity.
Qed.

Lemma replace_tzinfo_utc_valid (d : datetime) :
  valid_datetime d = true -> valid_datetime (replace_tzinfo_utc d) = true.
Proof.
  unfold valid_datetime. cbn [replace_tzinfo_utc year month day hour minute
                               second microsecond tzinfo].
  intros H. repeat (apply andb_prop in H; destruct H as [H ?]).
  repeat (apply andb_true_intro; split); auto.
Qed.

Lemma replace_tzinfo_utc_wall (d : datetime) :
  wall_micros (replace_tzinfo_utc d) = wall_micros d.
Proof. reflexivity. Qed.

Lemma datetime_ge_aware (a b : datetime) (oa ob : Z) :
  valid_datetime a = true -> valid_datetime b = true ->
  tzinfo a = Some oa -> tzinfo b = Some ob ->
  datetime_ge a b = Ok (wall_micros b - ob <=? wall_micros a - oa).
Proof.
  intros Ha Hb Ta Tb. unfold datetime_ge. rewrite Ta, Tb.
  destruct (Z.eqb_spec oa ob) as [-> | Hne].
  - rewrite (fields_ge_wall a b Ha Hb). f_equal.
    destruct (Z.leb_spec (wall_micros b) (wall_micros a));
      symmetry; [apply Z.leb_le | apply Z.leb_gt]; lia.
  - f_equal.
    destruct (Z.leb_spec 0 (wall_micros a - wall_micros b + ob - oa));
      symmetry; [apply Z.leb_le | apply Z.leb_gt]; lia.
Qed.

Lemma compare_dates_utc_micros (a b : datetime) :
  valid_datetime a = true -> valid_datetime b = true ->
  _compare_dates_try (Some a) (Some b) = Ok (utc_micros b <=? utc_micros a).
Proof.
  intros Ha Hb. rewrite compare_dates_try_cases. unfold utc_micros.
  destruct (tzinfo a) as [oa|] eqn:Ta, (tzinfo b) as [ob|] eqn:Tb.
  - apply datetime_ge_aware; assumption.
  - rewrite (datetime_ge_aware a (replace_tzinfo_utc b) oa 0);
      auto using replace_tzinfo_utc_valid.
  - rewrite (datetime_ge_aware (replace_tzinfo_utc a) b 0 ob);
      auto using replace_tzinfo_utc_valid.
  - unfold datetime_ge. rewrite Ta, Tb.
    rewrite (fields_ge_wall a b Ha Hb). do 2 f_equal; lia.
Qed.

Lemma compare_dates_assume_utc (a b : datetime) :
  _compare_dates (Some a) (Some b)
  = _compare_dates (Some (assume_utc a)) (Some (assume_utc b)).
Proof.
  unfold _compare_dates. rewrite !compare_dates_try_cases.
  unfold assume_utc.
  destruct (tzinfo a) as [oa|] eqn:Ta, (tzinfo b) as [ob|] eqn:Tb;
    cbn [tzinfo replace_tzinfo_utc]; rewrite ?Ta, ?Tb; try reflexivity.
  unfold datetime_ge. rewrite Ta, Tb. reflexivity.
Qed.

(** C6.  On valid instants [_compare_dates] answers whether the first is at
    or after the second as instants of UTC, a naive operand being read as
    UTC: the answer depends only on the two UTC readings, not on which
    operand carries an offset.  A comparison with a naive operand agrees
    with the comparison in which that operand is made aware at UTC; two
    aware or two naive operands are compared directly. *)
Theorem compare_dates_offset_consistent (a b : datetime)
    (Ha : valid_datetime a = true) (Hb : valid_datetime b = true) :
  _compare_dates (Some a) (Some b) = (utc_micros b <=? utc_micros a)
  /\ _compare_dates (Some a) (Some b)
     = _compare_dates (Some (assume_utc a)) (Some (assume_utc b))
  /\ (is_None (tzinfo a) = is_None (tzinfo b) ->
      _compare_dates_try (Some a) (Some b) = datetime_ge a b)
  /\ (tzinfo a = None -> tzinfo b <> None ->
      _compare_dates_try (Some a) (Some b)
      = datetime_ge (replace_tzinfo_utc a) b)
  /\ (tzinfo a <> None -> tzinfo b = None ->
      _compare_dates_try (Some a) (Some b)
      = datetime_ge a (replace_tzinfo_utc b)).
Proof.
  split; [| split; [| repeat split]].
  - unfold _compare_dates. now rewrite compare_dates_utc_micros.
  - apply compare_dates_assume_utc.
  - rewrite compare_dates_try_cases.
    destruct (tzinfo a), (tzinfo b); cbn; intros; congruence.
  - rewrite compare_dates_try_cases.
    destruct (tzinfo a), (tzinfo b); cbn; intros; congruence.
  - rewrite compare_dates_try_cases.
    destruct (tzinfo a), (tzinfo b); cbn; intros; congruence.
Qed.

(** ** Activity classifier *)

Lemma rbind_Ok {A B : Type} (r : result A) (k : A -> result B) (b : B) :
  rbind r k = Ok b -> exists a, r = Ok a /\ k a = Ok b.
Proof. destruct r; simpl; [eauto | discriminate]. Qed.

Section Classifier.

Variable strptime : string -> string -> option datetime.

Lemma parse_loop_first_parse (s clean : string) (fmts : list string) :
  clean_date (JStr s) = Ok clean ->
  parse_loop strptime (JStr s) fmts = Ok (first_parse strptime clean fmts).
Proof.
  intros Hc. induction fmts as [|fmt rest IH]; cbn [parse_loop first_parse];
    [reflexivity |].
  rewrite Hc. cbn [rbind]. unfold call_strptime.
  destruct (strptime clean fmt); cbn [is_ValueError]; [reflexivity | exact IH].
Qed.

Lemma clean_date_str (s : string) : exists clean, clean_date (JStr s) = Ok clean.
Proof. simpl. eauto. Qed.

Lemma parse_timestamp_total (v : json) :
  is_timestamp v = true -> exists r, _parse_jira_date strptime v = Ok r.
Proof.
  destruct v; try discriminate; intros _; unfold _parse_jira_date.
  - simpl. eauto.
  - destruct (negb (truthy (JStr s))); [eauto |].
    destruct (clean_date_str s) as [clean Hc].
    rewrite (parse_loop_first_parse s clean formats Hc). eauto.
Qed.

Lemma first_parse_none (text : string) (fmts : list string) :
  (forall fmt, In fmt fmts -> strptime text fmt = None) ->
  first_parse strptime text fmts = None.
Proof.
  induction fmts as [|fmt rest IH]; simpl; intros H; [reflexivity |].
  rewrite (H fmt (or_introl eq_refl)). apply IH. intros f Hf. apply H. now right.
Qed.

Lemma parse_unparseable (updated : json) :
  unparseable strptime updated -> _parse_jira_date strptime updated = Ok None.
Proof.
  intros [-> | [s [-> H]]]; unfold _parse_jira_date; [reflexivity |].
  destruct (negb (truthy (JStr s))); [reflexivity |].
  destruct (clean_date_str s) as [clean Hc].
  rewrite (parse_loop_first_parse s clean formats Hc).
  f_equal. apply first_parse_none. intros fmt Hf. exact (H clean Hc fmt Hf).
Qed.

Lemma cat_append_list (c : categorized) (b b' : bucket) (issue : json) :
  cat_list b' (cat_append c b issue)
  = (cat_list b' c ++ (if bucket_eqb b b' then [issue] else []))%list.
Proof. destruct b, b'; cbn; now rewrite ?app_nil_r. Qed.

(** The loop puts every issue into the list of its own bucket and into no
    other list, keeping the order. *)
Lemma categorize_all_places (cutoff_date : datetime) (all_issues : list json) :
  forall acc res,
    categorize_all strptime cutoff_date all_issues acc = Ok res ->
    forall b,
      cat_list b res
      = (cat_list b acc
         ++ filter (fun issue =>
                      match categorize_issue strptime cutoff_date issue with
                      | Ok b' => bucket_eqb b' b
                      | Raise _ => false
                      end) all_issues)%list.
Proof.
  induction all_issues as [|issue rest IH]; intros acc res; cbn [categorize_all].
  - intros E b. inversion E. cbn. now rewrite app_nil_r.
  - destruct (categorize_issue strptime cutoff_date issue) as [bi|] eqn:Ei;
      cbn [rbind]; [| discriminate].
    intros E b. rewrite (IH _ _ E b), cat_append_list. cbn [filter].
    rewrite Ei. destruct (bucket_eqb bi b); now rewrite <- app_assoc.
Qed.

(** C2.  An issue whose lower-cased status name contains one of blocked,
    impediment, hold, waiting, stuck is classified as blocked, whatever the
    cutoff, whatever its updated timestamp (absent, or any text, parseable or
    not), and whatever the library's parser answers; the loop of
    [get_issues_by_date_range] puts it into the blocked list. *)
Theorem blocked_status_is_blocked (cutoff_date : datetime)
    (issue : json) (status : string) (created updated : json)
    (Hstatus : issue_status_lower issue = Ok status)
    (Hblocked : any_in blocked_terms status = true)
    (Hcreated : issue_field issue "created" = Ok created)
    (Hupdated : issue_field issue "updated" = Ok updated)
    (Tcreated : is_timestamp created = true)
    (Tupdated : is_timestamp updated = true) :
  categorize_issue strptime cutoff_date issue = Ok blocked
  /\ forall all_issues acc res,
       In issue all_issues ->
       categorize_all strptime cutoff_date all_issues acc = Ok res ->
       In issue (cat_blocked res).
Proof.
  assert (E : categorize_issue strptime cutoff_date issue = Ok blocked).
  { unfold categorize_issue.
    rewrite Hstatus, Hcreated. cbn [rbind].
    destruct (parse_timestamp_total created Tcreated) as [c ->]. cbn [rbind].
    rewrite Hupdated. cbn [rbind].
    destruct (parse_timestamp_total updated Tupdated) as [u ->]. cbn [rbind].
    now rewrite Hblocked. }
  split; [exact E |].
  intros all_issues acc res Hin Hall.
  pose proof (categorize_all_places cutoff_date all_issues acc res Hall blocked)
    as P.
  cbn [cat_list] in P. rewrite P. apply in_or_app. right.
  apply filter_In. split; [exact Hin |]. now rewrite E.
Qed.

(** C3.  An issue whose updated timestamp is absent, or is a text that
    parses under none of the five formats, is never classified as started or
    completed: it is blocked when its status matches a blocked keyword, and
    other in every other case, done-like and in-progress-like statuses
    included. *)
Theorem unparseable_update_is_other (cutoff_date : datetime)
    (issue : json) (status : string) (created updated : json)
    (Hstatus : issue_status_lower issue = Ok status)
    (Hcreated : issue_field issue "created" = Ok created)
    (Hupdated : issue_field issue "updated" = Ok updated)
    (Tcreated : is_timestamp created = true)
    (Hnone : unparseable strptime updated) :
  exists b,
    categorize_issue strptime cutoff_date issue = Ok b
    /\ b <> started /\ b <> completed
    /\ b = (if any_in blocked_terms status then blocked else other).
Proof.
  unfold categorize_issue.
  rewrite Hstatus, Hcreated. cbn [rbind].
  destruct (parse_timestamp_total created Tcreated) as [c ->]. cbn [rbind].
  rewrite Hupdated. cbn [rbind].
  rewrite (parse_unparseable updated Hnone). cbn [rbind updated_since].
  destruct (any_in blocked_terms status);
    [| destruct (any_in done_terms status);
       [| destruct (any_in progress_terms status)]];
    eexists; (split; [reflexivity |]); repeat split; discriminate.
Qed.

Lemma compare_dates_try_total (a b : datetime) :
  exists r, _compare_dates_try (Some a) (Some b) = Ok r.
Proof.
  rewrite compare_dates_try_cases. unfold datetime_ge.
  destruct (tzinfo a) as [oa|] eqn:Ta, (tzinfo b) as [ob|] eqn:Tb;
    cbn [tzinfo replace_tzinfo_utc]; rewrite ?Ta, ?Tb;
    repeat match goal with
           | |- context [if ?c then _ else _] => destruct c
           end; eauto.
Qed.

Lemma updated_since_compared (updated_date : option datetime)
    (cutoff_date : datetime) :
  updated_since updated_date cutoff_date = true ->
  exists u, updated_date = Some u
            /\ _compare_dates_try (Some u) (Some cutoff_date) = Ok true.
Proof.
  destruct updated_date as [u|]; cbn [updated_since]; [| discriminate].
  unfold _compare_dates.
  destruct (_compare_dates_try (Some u) (Some cutoff_date)) as [r|e] eqn:E;
    [| discriminate].
  intros ->. exists u. split; [reflexivity | exact E].
Qed.

(** C10.  [_compare_dates] returns a boolean on every pair of operands and
    lets no exception out: when its body raises, whatever the exception, the
    answer is [False]; on two datetimes the body raises nothing; a [None]
    operand makes it raise, and the answer is [False].  An issue is
    classified as started or completed only after a comparison of its parsed
    updated instant with the cutoff that succeeded and answered [True]. *)
Theorem compare_dates_never_raises :
  (forall date1 date2 e,
      _compare_dates_try date1 date2 = Raise e ->
      _compare_dates date1 date2 = false)
  /\ (forall a b, exists r,
         _compare_dates_try (Some a) (Some b) = Ok r
         /\ _compare_dates (Some a) (Some b) = r)
  /\ (forall b,
         _compare_dates_try None (Some b) = Raise AttributeError
         /\ _compare_dates None (Some b) = false
         /\ _compare_dates (Some b) None = false)
  /\ (forall cutoff_date issue b,
         categorize_issue strptime cutoff_date issue = Ok b ->
         b = started \/ b = completed ->
         exists updated u,
           issue_field issue "updated" = Ok updated
           /\ _parse_jira_date strptime updated = Ok (Some u)
           /\ _compare_dates_try (Some u) (Some cutoff_date) = Ok true
           /\ _compare_dates (Some u) (Some cutoff_date) = true).
Proof.
  split; [| split; [| split]].
  - intros date1 date2 e H. unfold _compare_dates. now rewrite H.
  - intros a b. destruct (compare_dates_try_total a b) as [r Hr].
    exists r. unfold _compare_dates. now rewrite Hr.
  - intros b. unfold _compare_dates, _compare_dates_try, py_and,
      tz_is_not_None, tz_is_None, get_tzinfo.
    destruct (tzinfo b); repeat split; reflexivity.
  - intros cutoff_date issue b H Hb. unfold categorize_issue in H.
    apply rbind_Ok in H as [status [_ H]].
    apply rbind_Ok in H as [created [_ H]].
    apply rbind_Ok in H as [created_date [_ H]].
    apply rbind_Ok in H as [updated [Hupdated H]].
    apply rbind_Ok in H as [updated_date [Hparse H]].
    assert (Hs : updated_since updated_date cutoff_date = true).
    { destruct (any_in blocked_terms status);
        [destruct Hb; congruence |].
      destruct (any_in done_terms status);
        [destruct (updated_since updated_date cutoff_date);
         [reflexivity | destruct Hb; congruence] |].
      destruct (any_in progress_terms status);
        [destruct (updated_since updated_date cutoff_date);
         [reflexivity | destruct Hb; congruence] |].
      destruct Hb; congruence. }
    apply updated_since_compared in Hs as [u [-> Hu]].
    exists updated, u. repeat split; auto.
    unfold _compare_dates. now rewrite Hu.
Qed.

End Classifier.

(** ** The library model is regular *)

Module StrptimeFacts.
Import Strptime.

Lemma marks_of_app (a b : list ascii) :
  marks_of (a ++ b)%list = (marks_of a + marks_of b)%nat.
Proof. induction a as [|c a IH]; simpl; [reflexivity | rewrite IH; lia]. Qed.

Lemma marks_list_ascii (s : string) :
  marks s = marks_of (list_ascii_of_string s).
Proof. induction s as [|c s IH]; simpl; [reflexivity | now rewrite IH]. Qed.

Lemma class_marks_hit (k : cclass) (c : ascii) :
  cmatch k c = true -> is_mark c = true -> class_marks k = 1%nat.
Proof.
  unfold is_mark, class_marks. intros Hm Hc.
  apply orb_true_iff in Hc as [Hc | Hc]; apply Ascii.eqb_eq in Hc; subst c;
    rewrite Hm; [reflexivity | now rewrite orb_true_r].
Qed.

Lemma rmatch_marks (r : regex) :
  forall s rest, In rest (rmatch r s) ->
  exists pre, s = (pre ++ rest)%list /\ (marks_of pre <= regex_marks r)%nat.
Proof.
  induction r as [k | r1 IH1 r2 IH2 | r1 IH1 r2 IH2 | r1 IH1];
    intros s rest Hin; cbn [rmatch regex_marks] in *.
  - destruct s as [|c t]; [contradiction |].
    destruct (cmatch k c) eqn:Hk; [| contradiction].
    destruct Hin as [<- | []]. exists [c]. split; [reflexivity |].
    cbn [marks_of]. destruct (is_mark c) eqn:Hc; [| lia].
    rewrite (class_marks_hit k c Hk Hc). lia.
  - apply in_flat_map in Hin as [mid [H1 H2]].
    destruct (IH1 _ _ H1) as [p1 [-> B1]].
    destruct (IH2 _ _ H2) as [p2 [-> B2]].
    exists (p1 ++ p2)%list. split; [now rewrite app_assoc |].
    rewrite marks_of_app. lia.
  - apply in_app_or in Hin as [H | H].
    + destruct (IH1 _ _ H) as [p [-> B]]. exists p. split; [reflexivity | lia].
    + destruct (IH2 _ _ H) as [p [-> B]]. exists p. split; [reflexivity | lia].
  - apply in_app_or in Hin as [H | H].
    + destruct (IH1 _ _ H) as [p [-> B]]. exists p. split; [reflexivity | lia].
    + destruct H as [<- | []]. exists []. split; [reflexivity | simpl; lia].
Qed.

Lemma match_items_marks (items : list item) :
  forall s found rest, In (found, rest) (match_items items s) ->
  exists pre, s = (pre ++ rest)%list /\ (marks_of pre <= items_marks items)%nat.
Proof.
  induction items as [|it items IH]; intros s found rest Hin.
  - destruct Hin as [E | []]. inversion E; subst.
    exists []. split; [reflexivity | simpl; lia].
  - destruct it as [c | name r]; cbn [match_items items_marks] in *.
    + apply in_flat_map in Hin as [mid [H1 H2]].
      destruct (rmatch_marks (Chr (CLitI c)) _ _ H1) as [p1 [-> B1]].
      destruct (IH _ _ _ H2) as [p2 [-> B2]].
      exists (p1 ++ p2)%list. split; [now rewrite app_assoc |].
      rewrite marks_of_app. cbn [regex_marks] in B1. lia.
    + apply in_flat_map in Hin as [mid [H1 H2]].
      apply in_map_iff in H2 as [[found' rest'] [E H2]].
      inversion E; subst. cbn [snd] in *.
      destruct (rmatch_marks r _ _ H1) as [p1 [-> B1]].
      destruct (IH _ _ _ H2) as [p2 [-> B2]].
      exists (p1 ++ p2)%list. split; [now rewrite app_assoc |].
      rewrite marks_of_app. lia.
Qed.

Lemma strptime_matched (text fmt : string) (d : datetime) :
  strptime text fmt = Some d ->
  exists items found,
    pattern (list_ascii_of_string fmt) = Some items
    /\ In (found, []) (match_items items (list_ascii_of_string text)).
Proof.
  unfold strptime.
  destruct (pattern (list_ascii_of_string fmt)) as [items|]; [| discriminate].
  destruct (match_items items (list_ascii_of_string text))
    as [|[found rest] more] eqn:E; [discriminate |].
  destruct rest; [| discriminate].
  intros _. exists items, found. split; [reflexivity | rewrite E; apply in_eq].
Qed.

Lemma strptime_model_regular : strptime_regular strptime.
Proof.
  intros text fmt d Hfmt Hparse.
  destruct (strptime_matched text fmt d Hparse) as [items [found [Hp Hin]]].
  split.
  - intros ->. 
    repeat (destruct Hfmt as [<- | Hfmt];
            [vm_compute in Hp; inversion Hp; subst items;
             vm_compute in Hin; contradiction |]).
    contradiction.
  - destruct (match_items_marks items _ _ _ Hin) as [pre [E B]].
    rewrite app_nil_r in E. rewrite marks_list_ascii, E.
    assert (Hb : (items_marks items <= 1)%nat); [| lia].
    clear B E Hin.
    repeat (destruct Hfmt as [<- | Hfmt];
            [vm_compute in Hp; inversion Hp; subst items;
             vm_compute; lia |]).
    contradiction.
Qed.

End StrptimeFacts.

(** ** Date parser *)

Lemma marks_app (a b : string) : marks (a ++ b) = (marks a + marks b)%nat.
Proof. induction a as [|c a IH]; simpl; [reflexivity | rewrite IH; lia]. Qed.

Lemma endswith_Z_split (s : string) :
  Str.endswith "Z" s = true -> exists p, s = p ++ "Z".
Proof.
  induction s as [|c t IH]; cbn [Str.endswith].
  - simpl. discriminate.
  - destruct (String.eqb_spec "Z" (String c t)) as [<- | _].
    + intros _. now exists "".
    + intros H. destruct (IH H) as [p ->]. now exists (String c p).
Qed.

Lemma endswith_Z_no (s : string) :
  Str.endswith "Z" s = false -> rewrite_Z_suffix s = s.
Proof.
  induction s as [|c t IH]; [reflexivity |].
  cbn [Str.endswith].
  destruct (String.eqb_spec "Z" (String c t)) as [_ | Hne]; [discriminate |].
  intros H. cbn [rewrite_Z_suffix]. destruct t as [|c' t'].
  - destruct (Ascii.eqb_spec c "Z") as [-> | _]; [now elim Hne | reflexivity].
  - now rewrite (IH H).
Qed.

Lemma rewrite_Z_suffix_app (p : string) :
  rewrite_Z_suffix (p ++ "Z") = p ++ "+0000".
Proof.
  induction p as [|c p IH]; [reflexivity |].
  cbn [append rewrite_Z_suffix]. rewrite IH.
  destruct (p ++ "Z") eqn:E; [| reflexivity].
  destruct p; discriminate.
Qed.

Lemma append_assoc (a b c : string) : a ++ (b ++ c) = (a ++ b) ++ c.
Proof. induction a as [|x a IH]; [reflexivity | cbn [append]; now rewrite IH]. Qed.

Lemma replace_app (old : ascii) (new a b : string) :
  Str.replace old new (a ++ b)
  = Str.replace old new a ++ Str.replace old new b.
Proof.
  induction a as [|c a IH]; [reflexivity |].
  cbn [append Str.replace]. rewrite IH.
  destruct (Ascii.eqb c old); [apply append_assoc | reflexivity].
Qed.

Lemma replace_no_Z (new p : string) :
  has_Z p = false -> Str.replace "Z" new p = p.
Proof.
  induction p as [|c p IH]; [reflexivity |].
  cbn [has_Z Str.replace]. intros H. apply orb_false_iff in H as [Hc Hp].
  now rewrite Hc, (IH Hp).
Qed.

Lemma has_Z_marks (p : string) :
  has_Z p = true ->
  (1 <= marks p)%nat /\ (1 <= marks (Str.replace "Z" "+0000" p))%nat.
Proof.
  induction p as [|c p IH]; [discriminate |].
  cbn [has_Z Str.replace marks]. intros H.
  destruct (Ascii.eqb c "Z") eqn:Hc.
  - cbn [orb]. rewrite marks_app. simpl (marks "+0000"). lia.
  - cbn [orb] in *. destruct (IH H) as [H1 H2]. cbn [marks]. lia.
Qed.

Section Parser.

Variable strptime : string -> string -> option datetime.

Lemma first_parse_some (text : string) (fmts : list string) (d : datetime) :
  first_parse strptime text fmts = Some d <->
  exists earlier fmt later,
    fmts = (earlier ++ fmt :: later)%list
    /\ (forall f, In f earlier -> strptime text f = None)
    /\ strptime text fmt = Some d.
Proof.
  induction fmts as [|f0 rest IH]; cbn [first_parse].
  - split; [discriminate |].
    intros [earlier [fmt [later [E _]]]]. destruct earlier; discriminate.
  - destruct (strptime text f0) as [d0|] eqn:E0.
    + split.
      * intros H. exists [], f0, rest. repeat split; [contradiction | congruence].
      * intros [earlier [fmt [later [E [Hn Hs]]]]].
        destruct earlier as [|e earlier]; inversion E; subst.
        -- congruence.
        -- rewrite (Hn e (or_introl eq_refl)) in E0. discriminate.
    + rewrite IH. split.
      * intros [earlier [fmt [later [-> [Hn Hs]]]]].
        exists (f0 :: earlier), fmt, later. repeat split; auto.
        intros f [<- | Hf]; auto.
      * intros [earlier [fmt [later [E [Hn Hs]]]]].
        destruct earlier as [|e earlier]; inversion E; subst.
        -- congruence.
        -- exists earlier, fmt, later. repeat split; auto.
           intros f Hf. apply Hn. now right.
Qed.

Lemma first_parse_none_iff (text : string) (fmts : list string) :
  first_parse strptime text fmts = None <->
  forall fmt, In fmt fmts -> strptime text fmt = None.
Proof.
  split; [| apply first_parse_none].
  induction fmts as [|f0 rest IH]; cbn [first_parse]; [contradiction |].
  destruct (strptime text f0) eqn:E0; [discriminate |].
  intros H fmt [<- | Hf]; auto.
Qed.

(** Whatever the library answers, the result is the first success among
    the formats on the cleaned text, and the cleaned text of a text with a
    single Z, at its end, is the text with +0000 in place of the Z. *)
Lemma parse_jira_date_cleaned (raw clean : string) :
  raw <> "" -> clean_date (JStr raw) = Ok clean ->
  _parse_jira_date strptime (JStr raw)
  = Ok (first_parse strptime clean formats).
Proof.
  intros Hne Hc. unfold _parse_jira_date. cbn [truthy].
  destruct (String.eqb_spec raw "") as [E | _]; [contradiction |].
  exact (parse_loop_first_parse strptime raw clean formats Hc).
Qed.

Lemma clean_date_suffix (p : string) :
  has_Z p = false -> clean_date (JStr (p ++ "Z")) = Ok (p ++ "+0000").
Proof.
  intros Hp. cbn [clean_date]. f_equal.
  assert (E : Str.endswith "Z" (p ++ "Z") = true).
  { clear. induction p as [|c p IH]; [reflexivity |].
    cbn [append Str.endswith]. rewrite IH.
    now destruct (String.eqb "Z" (String c (p ++ "Z"))). }
  rewrite E, replace_app, (replace_no_Z "+0000" p Hp). reflexivity.
Qed.

Hypothesis regular : strptime_regular strptime.

Lemma first_parse_two_marks (text : string) :
  (2 <= marks text)%nat -> first_parse strptime text formats = None.
Proof.
  intros H. apply first_parse_none. intros fmt Hf.
  destruct (strptime text fmt) as [d|] eqn:E; [| reflexivity].
  destruct (regular text fmt d Hf E). lia.
Qed.

Lemma first_parse_clean (raw clean : string) :
  clean_date (JStr raw) = Ok clean ->
  first_parse strptime clean formats
  = first_parse strptime (rewrite_Z_suffix raw) formats.
Proof.
  cbn [clean_date]. intros H. inversion H as [Hc]. clear H.
  destruct (Str.endswith "Z" raw) eqn:Hz.
  - destruct (endswith_Z_split raw Hz) as [p ->].
    rewrite rewrite_Z_suffix_app, replace_app.
    change (Str.replace "Z" "+0000" "Z") with "+0000".
    destruct (has_Z p) eqn:Hp.
    + destruct (has_Z_marks p Hp) as [M1 M2].
      rewrite !first_parse_two_marks; [reflexivity | |];
        rewrite marks_app; simpl (marks "+0000"); lia.
    + now rewrite (replace_no_Z "+0000" p Hp).
  - now rewrite (endswith_Z_no raw Hz).
Qed.

(** C7.  For every input string the parser tries exactly the five formats
    of [formats], in their order (fractional seconds with offset, whole
    seconds with offset, fractional seconds with Z, whole seconds with Z,
    bare date), on the text whose Z suffix is rewritten to +0000: its result
    is the value of the first format that parses, and none when no format
    parses. *)
Theorem parse_jira_date_first_format (raw : string) :
  formats = ["%Y-%m-%dT%H:%M:%S.%f%z"; "%Y-%m-%dT%H:%M:%S%z";
             "%Y-%m-%dT%H:%M:%S.%fZ"; "%Y-%m-%dT%H:%M:%SZ"; "%Y-%m-%d"]
  /\ _parse_jira_date strptime (JStr raw) = Ok (spec_parse strptime raw)
  /\ (forall d,
         _parse_jira_date strptime (JStr raw) = Ok (Some d) <->
         exists earlier fmt later,
           formats = (earlier ++ fmt :: later)%list
           /\ (forall f, In f earlier ->
                         strptime (rewrite_Z_suffix raw) f = None)
           /\ strptime (rewrite_Z_suffix raw) fmt = Some d)
  /\ (_parse_jira_date strptime (JStr raw) = Ok None <->
      forall fmt, In fmt formats ->
                  strptime (rewrite_Z_suffix raw) fmt = None).
Proof.
  assert (E : _parse_jira_date strptime (JStr raw)
              = Ok (spec_parse strptime raw)).
  { unfold _parse_jira_date, spec_parse. cbn [truthy].
    destruct (String.eqb_spec raw "") as [-> | Hne]; cbn [negb].
    - f_equal. symmetry. apply first_parse_none. intros fmt Hf.
      cbn [rewrite_Z_suffix].
      destruct (strptime "" fmt) as [d|] eqn:Ed; [| reflexivity].
      destruct (regular "" fmt d Hf Ed) as [Hd _]. now elim Hd.
    - destruct (clean_date (JStr raw)) as [clean|] eqn:Hc; [| discriminate].
      rewrite (parse_loop_first_parse strptime raw clean formats Hc).
      f_equal. now apply first_parse_clean. }
  split; [reflexivity |]. split; [exact E |]. rewrite E. unfold spec_parse.
  split.
  - intros d. rewrite <- first_parse_some. split; congruence.
  - rewrite <- first_parse_none_iff. split; congruence.
Qed.

End Parser.

(** Unfolds one layer of the method monad. *)
Ltac run :=
  unfold try_catch, bind, get_self, ret, lift, session_get; cbn beta iota.

(** ** Issue discovery *)

Section Discovery.

Variable server : request -> outcome.

Lemma agile_issues_failed (board_id : string) (max_results : Z)
    (self : JiraManager) :
  let req := mk_request
               (base_url self ++ "/rest/agile/1.0/board/" ++ board_id
                ++ "/issue")
               [("maxResults", JNum max_results)] in
  tier_failed (server req) = true ->
  get_board_issues_agile server board_id max_results self
  = (Ok (Continue (JArr [])), record_request req self).
Proof.
  intros req H. unfold get_board_issues_agile. run. fold req.
  unfold tier_failed in H.
  destruct (server req) as [r | [|]]; cbn; try reflexivity.
  destruct (status_code r =? 200); cbn in H |- *; [| reflexivity].
  unfold response_json. destruct (body r); [discriminate | reflexivity].
Qed.

Lemma greenhopper_issues_failed (board_id : string) (issues : json)
    (self : JiraManager) :
  let req := mk_request
               (base_url self
                ++ "/rest/greenhopper/1.0/xboard/work/allData/?rapidViewId="
                ++ board_id) [] in
  tier_failed (server req) = true ->
  get_board_issues_greenhopper server board_id issues self
  = (Ok (Continue issues), record_request req self).
Proof.
  intros req H. unfold get_board_issues_greenhopper. run. fold req.
  unfold tier_failed in H.
  destruct (server req) as [r | [|]]; cbn; try reflexivity.
  destruct (status_code r =? 200); cbn in H |- *; [| reflexivity].
  unfold response_json. destruct (body r); [discriminate | reflexivity].
Qed.

Lemma get_board_by_id_value (board_id : string) (self self' : JiraManager) :
  base_url self = base_url self' ->
  fst (get_board_by_id server board_id self)
  = fst (get_board_by_id server board_id self').
Proof.
  intros E. unfold get_board_by_id. run. rewrite <- E.
  destruct (server _) as [r | [|]]; cbn; try reflexivity.
  destruct (status_code r =? 200); cbn.
  - destruct (response_json r); reflexivity.
  - destruct (server _) as [r' | [|]]; cbn; try reflexivity.
    destruct (status_code r' =? 200); cbn; [| reflexivity].
    destruct (response_json r'); cbn; [| reflexivity].
    destruct (board_of_view a); reflexivity.
Qed.

Lemma get_board_by_id_total (board_id : string) (self : JiraManager) :
  exists board_info, fst (get_board_by_id server board_id self) = Ok board_info.
Proof.
  unfold get_board_by_id. run.
  destruct (server _) as [r | [|]]; cbn; eauto.
  destruct (status_code r =? 200); cbn.
  - destruct (response_json r); cbn; eauto.
  - destruct (server _) as [r' | [|]]; cbn; eauto.
    destruct (status_code r' =? 200); cbn; eauto.
    destruct (response_json r'); cbn; eauto.
    destruct (board_of_view a); cbn; eauto.
Qed.

(** The last tier when the lookup resolves no owning project key: the
    issues collected so far, unless the location cannot be read. *)
Lemma board_issues_project_unresolved (board_id : string) (max_results : Z)
    (issues board_info : json) (self : JiraManager) :
  fst (get_board_by_id server board_id self) = Ok board_info ->
  no_project_key board_info = true ->
  fst (get_board_issues_project server board_id max_results issues self)
  = if location_unreadable board_info then Raise AttributeError else Ok issues.
Proof.
  intros Hboard Hkey. unfold get_board_issues_project, bind at 1.
  destruct (get_board_by_id server board_id self) as [res self'].
  cbn [fst] in Hboard. subst res. unfold location_unreadable.
  destruct board_info as [|b|n|s|l|kvs]; cbn [truthy].
  - reflexivity.
  - destruct b; reflexivity.
  - destruct (n =? 0); reflexivity.
  - destruct (String.eqb s ""); reflexivity.
  - destruct l; reflexivity.
  - destruct kvs as [|kv kvs]; [reflexivity |]. set (l := kv :: kvs) in *.
    cbn [no_project_key] in Hkey. unfold bind, lift, dict_get, dict_get1.
    cbn [rbind andb].
    destruct (assoc "location" l) as [[|b|n|s|items|loc]|]; try reflexivity.
    cbn [rbind dict_get].
    destruct (assoc "projectKey" loc) as [k|]; [| reflexivity].
    apply negb_true_iff in Hkey. rewrite Hkey. reflexivity.
Qed.

End Discovery.

(** C5.  [get_board_issues] can raise when its three tiers are exhausted.
    For every server and board: when the agile request and the
    board-work-data request both fail (network error, a status other than
    200, or a body that is not JSON) and the board lookup of the last tier
    resolves no owning project key, the result is the empty list, except
    when the board found, or its location, is no dictionary: then the
    unguarded lookup of the project key raises an [AttributeError], which
    no handler catches.  A server whose issue backends answer 404 and whose
    board has a null location shows it: the three tiers fail, no project key
    is resolved, and the [AttributeError] reaches the caller after the three
    requests. *)
Theorem board_issues_exhausted_can_raise :
  (forall server board_id max_results self board_info,
      tier_failed
        (server (mk_request (base_url self ++ "/rest/agile/1.0/board/"
                             ++ board_id ++ "/issue")
                            [("maxResults", JNum max_results)])) = true ->
      tier_failed
        (server (mk_request
                   (base_url self
                    ++ "/rest/greenhopper/1.0/xboard/work/allData/?rapidViewId="
                    ++ board_id) [])) = true ->
      fst (get_board_by_id server board_id self) = Ok board_info ->
      no_project_key board_info = true ->
      fst (get_board_issues server board_id max_results self)
      = if location_unreadable board_info then Raise AttributeError
        else Ok (JArr []))
  /\ (tier_failed
        (unplaced_server
           (mk_request (ops_base ++ "/rest/agile/1.0/board/42/issue")
                       [("maxResults", JNum 100)])) = true
      /\ tier_failed
           (unplaced_server
              (mk_request
                 (ops_base
                  ++ "/rest/greenhopper/1.0/xboard/work/allData/?rapidViewId=42")
                 [])) = true
      /\ fst (get_board_by_id unplaced_server "42" ops_session)
         = Ok unplaced_board
      /\ no_project_key unplaced_board = true
      /\ fst (get_board_issues unplaced_server "42" 100 ops_session)
         = Raise AttributeError
      /\ map url (sent (snd (get_board_issues unplaced_server "42" 100
                               ops_session)))
         = ["https://jira.example.com/rest/agile/1.0/board/42/issue";
            "https://jira.example.com/rest/greenhopper/1.0/xboard/work/allData/?rapidViewId=42";
            "https://jira.example.com/rest/agile/1.0/board/42"]).
Proof.
  split.
  - intros server board_id max_results self board_info Hagile Hlegacy Hboard
      Hkey.
    unfold get_board_issues. unfold bind at 1.
    rewrite (agile_issues_failed server board_id max_results self Hagile).
    unfold bind at 1.
    rewrite (greenhopper_issues_failed server board_id (JArr [])
               (record_request _ self) Hlegacy).
    apply board_issues_project_unresolved; [| exact Hkey].
    rewrite <- Hboard. symmetry. now apply get_board_by_id_value.
  - vm_compute. repeat split.
Qed.

(** ** Board discovery *)

Lemma append_each_list (f : json -> result json) (xs : list json) :
  forall acc r,
    append_each f xs (JArr acc) = Ok r ->
    exists ys, r = JArr (acc ++ ys)%list
               /\ Forall2 (fun x y => f x = Ok y) xs ys.
Proof.
  induction xs as [|x xs IH]; intros acc r; cbn [append_each].
  - intros E. inversion E. exists []. split; [now rewrite app_nil_r | constructor].
  - destruct (f x) as [y|] eqn:Ef; cbn [rbind py_append]; [| discriminate].
    intros E. destruct (IH _ _ E) as [ys [-> F]].
    exists (y :: ys). split; [now rewrite <- app_assoc | now constructor].
Qed.

Lemma append_each_raises (f : json -> result json) (P : exn -> Prop) :
  (forall x e, f x = Raise e -> P e) ->
  forall xs acc e, append_each f xs (JArr acc) = Raise e -> P e.
Proof.
  intros Hf xs. induction xs as [|x xs IH]; intros acc e; cbn [append_each];
    [discriminate |].
  destruct (f x) as [y|e'] eqn:Ef; cbn [rbind py_append].
  - apply IH.
  - intros E. inversion E; subst. eauto.
Qed.

Lemma rbind_Raise {A B : Type} (r : result A) (k : A -> result B) (e : exn) :
  rbind r k = Raise e -> r = Raise e \/ exists a, r = Ok a /\ k a = Raise e.
Proof.
  destruct r; simpl; [eauto | intros E; left; inversion E; reflexivity].
Qed.

Lemma dict_get_raises (d : json) (k : string) (default : json) (e : exn) :
  dict_get d k default = Raise e -> e = AttributeError.
Proof. destruct d; simpl; congruence. Qed.

Lemma extract_project_raises (q : json) (e : exn) :
  _extract_project_from_filter q = Raise e -> e = TypeError.
Proof.
  unfold _extract_project_from_filter.
  destruct (negb (truthy q)); [discriminate |].
  destruct q; try congruence.
  destruct (Filter.search _); discriminate.
Qed.

Lemma board_of_view_raises (view : json) (e : exn) :
  board_of_view view = Raise e -> e = AttributeError \/ e = TypeError.
Proof.
  unfold board_of_view, dict_get1. intros H.
  repeat match type of H with
         | rbind (dict_get _ _ _) _ = Raise _ =>
             apply rbind_Raise in H as [H | [? [_ H]]];
             [left; eapply dict_get_raises; eassumption |]
         end.
  apply rbind_Raise in H as [H | [? [_ H]]]; [| discriminate].
  right. eapply extract_project_raises; eassumption.
Qed.

Lemma append_each_projects (ps : list (string * string)) (acc : list json) :
  append_each board_of_project (map project_record ps) (JArr acc)
  = Ok (JArr (acc ++ map proxy_board ps)%list).
Proof.
  revert acc. induction ps as [|p ps IH]; intros acc; cbn [map append_each].
  - now rewrite app_nil_r.
  - change (board_of_project (project_record p)) with (Ok (proxy_board p)).
    cbn [rbind py_append]. rewrite IH. now rewrite <- app_assoc.
Qed.

Lemma proxy_board_is_proxy (p : string * string) : is_proxy_of p (proxy_board p).
Proof. repeat split. Qed.

Section Boards.

Variable server : request -> outcome.

Lemma agile_boards_empty (self : JiraManager) :
  let req := mk_request (base_url self ++ "/rest/agile/1.0/board") [] in
  reported "values" (server req) = Some [] ->
  get_boards_agile server self
  = (Ok (Continue (JArr [])), record_request req self).
Proof.
  intros req H. unfold get_boards_agile. run. fold req.
  unfold reported in H.
  destruct (server req) as [r | [|]]; cbn; try reflexivity.
  destruct (status_code r =? 200); cbn in H |- *; [| reflexivity].
  unfold response_json.
  destruct (body r) as [[| | | | |kvs]|]; try discriminate; [| reflexivity].
  cbn. destruct (assoc "values" kvs) as [[| | | |[|b bs]|]|];
    try discriminate; reflexivity.
Qed.

Lemma agile_boards_found (self : JiraManager) (b : json) (bs : list json) :
  let req := mk_request (base_url self ++ "/rest/agile/1.0/board") [] in
  reported "values" (server req) = Some (b :: bs) ->
  get_boards_agile server self
  = (Ok (Return (JArr (b :: bs))), record_request req self).
Proof.
  intros req H. unfold get_boards_agile. run. fold req.
  unfold reported in H.
  destruct (server req) as [r | [|]]; cbn; try discriminate.
  destruct (status_code r =? 200); cbn in H |- *; [| discriminate].
  unfold response_json.
  destruct (body r) as [[| | | | |kvs]|]; try discriminate.
  cbn. destruct (assoc "values" kvs) as [[| | | |l|]|];
    try discriminate. inversion H; subst. reflexivity.
Qed.

Lemma greenhopper_boards_empty (self : JiraManager) :
  let req := mk_request (base_url self ++ "/rest/greenhopper/1.0/rapidview")
                        [] in
  reported "views" (server req) = Some [] ->
  get_boards_greenhopper server (JArr []) self
  = (Ok (Continue (JArr [])), record_request req self).
Proof.
  intros req H. unfold get_boards_greenhopper. run. fold req.
  unfold reported in H.
  destruct (server req) as [r | [|]]; cbn; try reflexivity.
  destruct (status_code r =? 200); cbn in H |- *; [| reflexivity].
  unfold response_json.
  destruct (body r) as [[| | | | |kvs]|]; try discriminate; [| reflexivity].
  cbn. destruct (assoc "views" kvs) as [[| | | |[|b bs]|]|];
    try discriminate; reflexivity.
Qed.

Lemma greenhopper_boards_found (self : JiraManager) (v : json)
    (vs : list json) :
  let req := mk_request (base_url self ++ "/rest/greenhopper/1.0/rapidview")
                        [] in
  reported "views" (server req) = Some (v :: vs) ->
  get_boards_greenhopper server (JArr []) self
  = (match append_each board_of_view (v :: vs) (JArr []) with
     | Ok boards => Ok (Return boards)
     | Raise e => Raise e
     end, record_request req self).
Proof.
  intros req H. unfold get_boards_greenhopper. run. fold req.
  unfold reported in H.
  destruct (server req) as [r | [|]]; try discriminate.
  destruct (status_code r =? 200); [| discriminate].
  unfold response_json.
  destruct (body r) as [[| | | | |kvs]|]; try discriminate.
  cbn [dict_get]. destruct (assoc "views" kvs) as [[| | | |l|]|];
    try discriminate. inversion H; subst. cbn [py_len py_iter].
  destruct (append_each board_of_view (v :: vs) (JArr [])) as [boards|e] eqn:E.
  - destruct (append_each_list _ _ _ _ E) as [ys [-> F]].
    inversion F; subst. reflexivity.
  - assert (He : e = AttributeError \/ e = TypeError).
    { exact (append_each_raises board_of_view
               (fun e => e = AttributeError \/ e = TypeError)
               board_of_view_raises _ _ _ E). }
    destruct He as [-> | ->]; reflexivity.
Qed.

(** C4.  When the agile endpoint and the rapid-view endpoint both yield an
    empty board set, [get_boards] returns one project-proxy board for each
    selected project, in order: the project owns it and its id is the text
    project- followed by the project key.  When the agile endpoint reports a
    non-empty set, that set is returned as it is; when only the rapid-view
    endpoint reports a non-empty set, the boards returned are the converted
    views, one per view: no proxy is made in either case. *)
Theorem project_proxy_boards (self : JiraManager)
    (projects : list (string * string))
    (Hprojects : selected_projects self = map project_record projects) :
  let agile :=
    server (mk_request (base_url self ++ "/rest/agile/1.0/board") []) in
  let legacy :=
    server (mk_request (base_url self ++ "/rest/greenhopper/1.0/rapidview")
                       []) in
  (reported "values" agile = Some [] -> reported "views" legacy = Some [] ->
   exists boards,
     fst (get_boards server self) = Ok (JArr boards)
     /\ Forall2 is_proxy_of projects boards)
  /\ (forall b bs,
         reported "values" agile = Some (b :: bs) ->
         fst (get_boards server self) = Ok (JArr (b :: bs)))
  /\ (forall v vs boards,
         reported "values" agile = Some [] ->
         reported "views" legacy = Some (v :: vs) ->
         fst (get_boards server self) = Ok boards ->
         exists converted,
           boards = JArr converted
           /\ Forall2 (fun view board => board_of_view view = Ok board)
                      (v :: vs) converted).
Proof.
  intros agile legacy. split; [| split].
  - intros H1 H2. exists (map proxy_board projects). split.
    + unfold get_boards. unfold bind at 1.
      rewrite (agile_boards_empty self H1). unfold bind at 1.
      rewrite (greenhopper_boards_empty (record_request _ self) H2).
      unfold get_boards_projects. run.
      cbn [selected_projects record_request]. rewrite Hprojects.
      destruct projects as [|p ps]; [reflexivity |].
      cbn [truthy negb andb map].
      change (project_record p :: map project_record ps)
        with (map project_record (p :: ps)).
      rewrite append_each_projects. reflexivity.
    + clear. induction projects as [|p ps IH]; constructor;
        [apply proxy_board_is_proxy | exact IH].
  - intros b bs H1. unfold get_boards. unfold bind at 1.
    rewrite (agile_boards_found self b bs H1). reflexivity.
  - intros v vs boards H1 H2. unfold get_boards. unfold bind at 1.
    rewrite (agile_boards_empty self H1). unfold bind at 1.
    rewrite (greenhopper_boards_found (record_request _ self) v vs H2).
    destruct (append_each board_of_view (v :: vs) (JArr [])) as [bl|e] eqn:E;
      cbn [fst]; [| discriminate].
    unfold ret. cbn [fst]. intros X. inversion X; subst.
    destruct (append_each_list _ _ _ _ E) as [ys [-> F]]. eauto.
Qed.

End Boards.

(** ** Remapping of the legacy issue shape *)

Lemma dict_get_present (d : json) (k : string) (v default : json) :
  dict_get1 d k = Ok v -> v <> JNull -> dict_get d k default = Ok v.
Proof.
  unfold dict_get1, dict_get. destruct d; try discriminate.
  destruct (assoc k members); intros E Hv; inversion E; subst;
    [reflexivity | now elim Hv].
Qed.

Lemma dict_get1_dict (d : json) (k : string) (v : json) :
  dict_get1 d k = Ok v -> exists kvs, d = JObj kvs.
Proof. destruct d; try discriminate. eauto. Qed.

(** C9.  A record of the legacy board work data, remapped by tier 2 of
    [get_board_issues], shows the same key, the same status name and the
    same assignee name as a record of the modern shape that carries the same
    data; an issue without assignee is remapped to a null assignee, shown as
    Unassigned in both shapes. *)
Theorem legacy_remap_preserves (d : issue_facts) (issue_data modern : json)
    (Hlegacy : legacy_shape d issue_data)
    (Hmodern : modern_shape d modern) :
  exists issue,
    issue_of_work_data issue_data = Ok issue
    /\ shown_key issue = Ok (JStr (fact_key d))
    /\ shown_key modern = Ok (JStr (fact_key d))
    /\ shown_status issue = Ok (JStr (fact_status d))
    /\ shown_status modern = Ok (JStr (fact_status d))
    /\ shown_assignee issue = Ok (JStr (assignee_shown d))
    /\ shown_assignee modern = Ok (JStr (assignee_shown d))
    /\ issue_status_lower issue = issue_status_lower modern
    /\ (fact_assignee d = None -> issue_field issue "assignee" = Ok JNull).
Proof.
  destruct d as [key status assignee].
  destruct Hlegacy as [Lkey [Lstatus Lassignee]].
  destruct Hmodern as [Mkey [fields [st [Mfields [Mstatus [Mname Massignee]]]]]].
  cbn [fact_key fact_status fact_assignee] in *.
  destruct (dict_get1_dict _ _ _ Lkey) as [kvs ->].
  assert (Hs : dict_get (JObj kvs) "statusName" (JStr "Unknown")
               = Ok (JStr status))
    by (apply dict_get_present; [assumption | discriminate]).
  assert (Mk : shown_key modern = Ok (JStr key))
    by (apply dict_get_present; [assumption | discriminate]).
  destruct (dict_get1_dict _ _ _ Mstatus) as [fkvs ->].
  destruct (dict_get1_dict _ _ _ Mname) as [skvs ->].
  assert (Mf : dict_get modern "fields" (JObj []) = Ok (JObj fkvs))
    by (apply dict_get_present; [assumption | discriminate]).
  assert (Ms : dict_get (JObj fkvs) "status" (JObj []) = Ok (JObj skvs))
    by (apply dict_get_present; [assumption | discriminate]).
  assert (Mn : forall default,
             dict_get (JObj skvs) "name" default = Ok (JStr status))
    by (intros; apply dict_get_present; [assumption | discriminate]).
  assert (Mst : shown_status modern = Ok (JStr status)).
  { unfold shown_status. rewrite Mf. cbn [rbind]. rewrite Ms. cbn [rbind].
    apply Mn. }
  assert (Mlow : issue_status_lower modern = Ok (Str.lower status)).
  { unfold issue_status_lower. rewrite Mf. cbn [rbind]. rewrite Ms.
    cbn [rbind]. rewrite Mn. reflexivity. }
  unfold issue_of_work_data.
  rewrite Lkey, Hs. unfold assignee_shown. cbn [rbind fact_assignee].
  destruct assignee as [a|].
  - destruct Lassignee as [Ha La].
    destruct Massignee as [asg [Masg Mdisp]].
    destruct (dict_get1_dict _ _ _ Mdisp) as [akvs ->].
    rewrite La.
    assert (Ta : truthy (JStr a) = true).
    { cbn [truthy]. destruct (String.eqb_spec a ""); [contradiction | reflexivity]. }
    cbn [rbind]. rewrite Ta.
    rewrite (dict_get_present _ _ _ (JStr "Unassigned") La ltac:(discriminate)).
    cbn [rbind dict_get1 dict_get].
    eexists. split; [reflexivity |].
    repeat split; try assumption; try reflexivity; try discriminate.
    + unfold shown_assignee. rewrite Mf. cbn [rbind]. rewrite Masg.
      cbn [rbind].
      assert (Tk : truthy (JObj akvs) = true).
      { destruct akvs; [discriminate | reflexivity]. }
      rewrite Tk. apply dict_get_present; [assumption | discriminate].
    + now rewrite Mlow.
  - assert (Fa : exists v, dict_get1 (JObj kvs) "assigneeName" = Ok v
                           /\ truthy v = false).
    { destruct Lassignee as [E | E]; rewrite E; eauto. }
    destruct Fa as [v [Ev Tv]]. rewrite Ev. cbn [rbind]. rewrite Tv.
    cbn [rbind dict_get1 dict_get].
    eexists. split; [reflexivity |].
    repeat split; try assumption; try reflexivity.
    + unfold shown_assignee. rewrite Mf. cbn [rbind]. rewrite Massignee.
      reflexivity.
    + now rewrite Mlow.
Qed.

(** ** Version negotiation *)

Section Negotiation.

Variable server : request -> outcome.

(** X1.  The requests that [test_connection] sends: the modern probe, then the
    legacy probe exactly when the modern answer is 404 or an HTML page with
    status 200. *)
Lemma test_connection_requests (self : JiraManager) (r : response) :
  server (modern_probe self) = Responded r ->
  sent (snd (test_connection server self))
  = (sent self ++ modern_probe self
       :: (if ((status_code r =? 404) || is_html_200 r)%bool
           then [legacy_probe self] else []))%list.
Proof.
  intros H. unfold test_connection. run. fold (modern_probe self). rewrite H.
  destruct ((status_code r =? 404) || is_html_200 r)%bool.
  - run. cbn [base_url record_request]. fold (legacy_probe self).
    destruct (server (legacy_probe self)) as [r2 | [|]]; cbn;
      try (now rewrite <- app_assoc).
    destruct (status_code r2 =? 200); cbn; [| now rewrite <- app_assoc].
    destruct (response_json r2) as [u|e]; cbn.
    + destruct (dict_get u _ _) as [x|e]; cbn;
        [now rewrite <- app_assoc |].
      destruct (is_JSONDecodeError e); cbn;
        [now rewrite <- app_assoc |].
      destruct (is_RequestException e); cbn; now rewrite <- app_assoc.
    + destruct (is_JSONDecodeError e); cbn;
        [now rewrite <- app_assoc |].
      destruct (is_RequestException e); cbn; now rewrite <- app_assoc.
  - cbn. destruct (status_code r =? 200); cbn; [| reflexivity].
    destruct (response_json r) as [u|e]; cbn.
    + destruct (dict_get u _ _) as [x|e]; cbn; [reflexivity |].
      destruct (is_JSONDecodeError e); cbn; [reflexivity |].
      destruct (is_RequestException e); reflexivity.
    + destruct (is_JSONDecodeError e); cbn; [reflexivity |].
      destruct (is_RequestException e); reflexivity.
Qed.

(** X3.  Another status than 200 and 404 is a failure: nothing is sent to the
    legacy family and the answer is [False]. *)
Lemma test_connection_hard_failure (self : JiraManager) (r : response) :
  server (modern_probe self) = Responded r ->
  status_code r <> 200 -> status_code r <> 404 ->
  test_connection server self
  = (Ok false,
     mk_JiraManager (base_url self) (Some "v3") (selected_projects self)
                    (sent self ++ [modern_probe self])).
Proof.
  intros H H200 H404. unfold test_connection. run.
  fold (modern_probe self). rewrite H. unfold is_html_200.
  apply Z.eqb_neq in H200, H404. rewrite H200, H404.
  cbn [orb andb]. unfold set_api_version. cbn. rewrite H200. reflexivity.
Qed.

(** X5.  Once the legacy family is bound, [get_projects] builds the legacy path
    only. *)
Lemma get_projects_bound_legacy (self : JiraManager) :
  api_version self = Some "v2" ->
  sent (snd (get_projects server self))
  = (sent self ++ [mk_request (base_url self ++ "/rest/api/2/project") []])%list.
Proof.
  intros H. unfold get_projects. run. unfold api_version_is. rewrite H.
  cbn [String.eqb Ascii.eqb Bool.eqb negb andb].
  destruct (server _) as [r | [|]]; cbn; try reflexivity.
  rewrite andb_false_r.
  destruct (is_html_200 r); cbn;
    (destruct (status_code r =? 200); cbn; [| reflexivity];
     destruct (response_json r) as [u|e]; cbn;
     [destruct (py_len u) as [x|e]; cbn; [reflexivity |];
      destruct (is_JSONDecodeError e); cbn; [reflexivity |];
      destruct (is_RequestException e); reflexivity
     | destruct (is_JSONDecodeError e); cbn; [reflexivity |];
       destruct (is_RequestException e); reflexivity]).
Qed.

(** X7.  Once the legacy family is bound, [get_issue_details] builds the legacy
    path only. *)
Lemma get_issue_details_bound_legacy (self : JiraManager) (issue_key : string) :
  api_version self = Some "v2" ->
  sent (snd (get_issue_details server issue_key self))
  = (sent self
     ++ [mk_request (base_url self ++ "/rest/api/2/issue/" ++ issue_key)
                    issue_detail_params])%list.
Proof.
  intros H. unfold get_issue_details. run. unfold api_version_is. rewrite H.
  cbn [String.eqb Ascii.eqb Bool.eqb negb andb].
  destruct (server _) as [r | [|]]; cbn; try reflexivity.
  rewrite andb_false_r.
  destruct (status_code r =? 200); cbn; [| reflexivity].
  destruct (response_json r) as [u|e]; cbn; [reflexivity |].
  destruct (is_RequestException e); reflexivity.
Qed.

(** [get_project_issues] builds the modern path first, whatever family is
    bound. *)
Lemma get_project_issues_first_request (self : JiraManager)
    (project_key : json) (max_results : Z) :
  exists later,
    sent (snd (get_project_issues server project_key max_results self))
    = (sent self
       ++ mk_request (base_url self ++ "/rest/api/3/search")
                     (search_params project_key max_results) :: later)%list.
Proof.
  unfold get_project_issues. run. fold (search_params project_key max_results).
  destruct (server _) as [r | [|]]; cbn; try (now exists []).
  destruct (status_code r =? 404); cbn.
  - run. cbn [base_url record_request].
    destruct (server _) as [r2 | [|]]; cbn;
      try (eexists; rewrite <- app_assoc; reflexivity).
    destruct (status_code r2 =? 200); cbn;
      [| eexists; rewrite <- app_assoc; reflexivity].
    destruct (response_json r2) as [u|e]; cbn.
    + destruct (dict_get u _ _) as [x|e]; cbn;
        [eexists; rewrite <- app_assoc; reflexivity |].
      destruct (is_RequestException e); cbn;
        eexists; rewrite <- app_assoc; reflexivity.
    + destruct (is_RequestException e); cbn;
        eexists; rewrite <- app_assoc; reflexivity.
  - destruct (status_code r =? 200); cbn; [| now exists []].
    destruct (response_json r) as [u|e]; cbn.
    + destruct (dict_get u _ _) as [x|e]; cbn; [now exists [] |].
      destruct (is_RequestException e); cbn; now exists [].
    + destruct (is_RequestException e); cbn; now exists [].
Qed.

End Negotiation.

(** C1.  [get_project_issues] does not use the bound family: whatever
    [api_version] holds, its first request goes to the modern search path.
    On a server that answers every modern path with an HTML page of status
    200 and serves the legacy family, [test_connection] falls back, binds the
    legacy family and succeeds, and [get_projects] then asks the legacy path
    only; [get_project_issues] still asks the modern path, takes the HTML
    page for an answer and returns no issue, although the legacy search path
    holds one. *)
Theorem project_search_ignores_bound_family :
  (forall server self project_key max_results,
      exists later,
        sent (snd (get_project_issues server project_key max_results self))
        = (sent self
           ++ mk_request (base_url self ++ "/rest/api/3/search")
                         (search_params project_key max_results)
              :: later)%list)
  /\ (let self := snd (test_connection html_fronted_server
                         (fresh_session html_fronted_base)) in
      fst (test_connection html_fronted_server
             (fresh_session html_fronted_base)) = Ok true
      /\ api_version self = Some "v2"
      /\ map url (sent self)
         = ["https://jira.example.com/rest/api/3/myself";
            "https://jira.example.com/rest/api/2/myself"]
      /\ map url (sent (snd (get_projects html_fronted_server self)))
         = (map url (sent self)
            ++ ["https://jira.example.com/rest/api/2/project"])%list
      /\ map url (sent (snd (get_project_issues html_fronted_server
                               (JStr "OPS") 50 self)))
         = (map url (sent self)
            ++ ["https://jira.example.com/rest/api/3/search"])%list
      /\ fst (get_project_issues html_fronted_server (JStr "OPS") 50 self)
         = Ok (JArr [])
      /\ html_fronted_server
           (mk_request "https://jira.example.com/rest/api/2/search"
                       (search_params (JStr "OPS") 50))
         = Responded (mk_response 200 "{...}"
                        (Some (JObj [("issues", JArr [legacy_issue])])))).
Proof.
  split.
  - intros. apply get_project_issues_first_request.
  - vm_compute. repeat split.
Qed.

(** ** The loop of the classifier and the successful tiers *)

Section Loops.

Variable strptime : string -> string -> option datetime.
Variable server : request -> outcome.

Lemma append_each_converted (f : json -> result json) (xs ys acc : list json) :
  Forall2 (fun x y => f x = Ok y) xs ys ->
  append_each f xs (JArr acc) = Ok (JArr (acc ++ ys)%list).
Proof.
  intros F. revert acc.
  induction F as [|x y xs ys Hxy F IH]; intros acc; cbn [append_each].
  - now rewrite app_nil_r.
  - rewrite Hxy. cbn [rbind py_append]. rewrite IH. now rewrite <- app_assoc.
Qed.

(** X12.  When the agile tier fails and the board work data are served with
    status 200, as a JSON object whose member issuesData holds a list of
    records under issues, whatever else the body holds, [get_board_issues]
    returns the remapped records, one issue per record and in their order,
    after these two requests: the project search is not asked. *)
Lemma greenhopper_issues_converted (board_id : string) (max_results : Z)
    (self : JiraManager) (r : response) (kvs data : list (string * json))
    (records issues : list json) :
  let agile := mk_request (base_url self ++ "/rest/agile/1.0/board/"
                           ++ board_id ++ "/issue")
                          [("maxResults", JNum max_results)] in
  let legacy := mk_request
                  (base_url self
                   ++ "/rest/greenhopper/1.0/xboard/work/allData/?rapidViewId="
                   ++ board_id) [] in
  tier_failed (server agile) = true ->
  server legacy = Responded r ->
  status_code r = 200 ->
  body r = Some (JObj kvs) ->
  assoc "issuesData" kvs = Some (JObj data) ->
  assoc "issues" data = Some (JArr records) ->
  Forall2 (fun record issue => issue_of_work_data record = Ok issue)
          records issues ->
  get_board_issues server board_id max_results self
  = (Ok (JArr issues), record_request legacy (record_request agile self)).
Proof.
  intros agile legacy H1 H2 Hs Hb Hd Hi F.
  unfold get_board_issues. unfold bind at 1.
  rewrite (agile_issues_failed server board_id max_results self H1).
  unfold bind at 1. unfold get_board_issues_greenhopper. run.
  cbn [base_url record_request]. fold agile legacy. rewrite H2, Hs.
  cbn [Z.eqb Pos.eqb].
  unfold response_json. rewrite Hb. cbn [rbind dict_get]. rewrite Hd.
  cbn [rbind dict_get]. rewrite Hi. cbn [rbind py_iter].
  rewrite (append_each_converted issue_of_work_data records issues [] F).
  reflexivity.
Qed.

(** X2.  The family that [test_connection] binds: the modern one when the
    modern probe is taken as it is; after a fallback the legacy one, unless
    the legacy probe fails in transit, which leaves the binding as it
    was. *)
Lemma test_connection_binding (self : JiraManager) (r : response) :
  server (modern_probe self) = Responded r ->
  api_version (snd (test_connection server self))
  = if ((status_code r =? 404) || is_html_200 r)%bool then
      match server (legacy_probe self) with
      | Responded _ => Some "v2"
      | Failed _ => api_version self
      end
    else Some "v3".
Proof.
  intros H. unfold test_connection. run. fold (modern_probe self). rewrite H.
  destruct ((status_code r =? 404) || is_html_200 r)%bool.
  - run. cbn [base_url record_request]. fold (legacy_probe self).
    destruct (server (legacy_probe self)) as [r2 | [|]]; cbn;
      try reflexivity.
    destruct (status_code r2 =? 200); cbn; [| reflexivity].
    destruct (response_json r2) as [u|e]; cbn.
    + destruct (dict_get u _ _) as [x|e]; cbn; [reflexivity |].
      destruct (is_JSONDecodeError e); cbn; [reflexivity |].
      destruct (is_RequestException e); reflexivity.
    + destruct (is_JSONDecodeError e); cbn; [reflexivity |].
      destruct (is_RequestException e); reflexivity.
  - cbn. destruct (status_code r =? 200); cbn; [| reflexivity].
    destruct (response_json r) as [u|e]; cbn.
    + destruct (dict_get u _ _) as [x|e]; cbn; [reflexivity |].
      destruct (is_JSONDecodeError e); cbn; [reflexivity |].
      destruct (is_RequestException e); reflexivity.
    + destruct (is_JSONDecodeError e); cbn; [reflexivity |].
      destruct (is_RequestException e); reflexivity.
Qed.

End Loops.

(** ** Worked examples *)

(** The sample timestamps of the comments of [_parse_jira_date]. *)
Example parse_fraction_offset :
  _parse_jira_date Strptime.strptime (JStr "2024-01-15T10:30:45.123+0000")
  = Ok (Some (mk_datetime 2024 1 15 10 30 45 123000 (Some 0))).
Proof. reflexivity. Qed.

Example parse_whole_offset :
  _parse_jira_date Strptime.strptime (JStr "2024-01-15T10:30:45+0530")
  = Ok (Some (mk_datetime 2024 1 15 10 30 45 0 (Some 19800000000))).
Proof. reflexivity. Qed.

Example parse_fraction_Z :
  _parse_jira_date Strptime.strptime (JStr "2024-01-15T10:30:45.123Z")
  = Ok (Some (mk_datetime 2024 1 15 10 30 45 123000 (Some 0))).
Proof. reflexivity. Qed.

Example parse_bare_date :
  _parse_jira_date Strptime.strptime (JStr "2024-01-15")
  = Ok (Some (mk_datetime 2024 1 15 0 0 0 0 None)).
Proof. reflexivity. Qed.

Example parse_garbage :
  _parse_jira_date Strptime.strptime (JStr "15/01/2024") = Ok None.
Proof. reflexivity. Qed.

(** A done issue updated ten days before the cutoff is other; one updated
    after the cutoff is completed. *)

Example done_before_cutoff :
  categorize_issue Strptime.strptime noon_utc
    (done_issue "2024-01-05T12:00:00.000+0000") = Ok other.
Proof. reflexivity. Qed.

Example done_after_cutoff :
  categorize_issue Strptime.strptime noon_utc
    (done_issue "2024-01-15T14:00:00.000+0100") = Ok completed.
Proof. reflexivity. Qed.

Example done_bare_date_after_cutoff :
  categorize_issue Strptime.strptime noon_utc (done_issue "2024-01-16")
  = Ok completed.
Proof. reflexivity. Qed.

(** ** The theorems at sample inputs *)

Lemma compare_dates_offset_consistent_witness :
  valid_datetime noon_naive = true
  /\ valid_datetime two_pm_plus_two = true
  /\ _compare_dates (Some noon_naive) (Some two_pm_plus_two) = true
  /\ _compare_dates (Some two_pm_plus_two) (Some noon_naive) = true
  /\ _compare_dates (Some noon_utc) (Some two_pm_plus_two) = true.
Proof.
  split; [reflexivity |]. split; [reflexivity |].
  pose proof (compare_dates_offset_consistent noon_naive two_pm_plus_two
                eq_refl eq_refl) as [H _].
  split; [rewrite H; reflexivity |].
  split; reflexivity.
Defined.

Lemma blocked_status_is_blocked_witness :
  issue_status_lower blocked_issue = Ok "blocked - waiting on vendor"
  /\ any_in blocked_terms "blocked - waiting on vendor" = true
  /\ issue_field blocked_issue "updated" = Ok (JStr "yesterday")
  /\ categorize_issue Strptime.strptime noon_utc blocked_issue = Ok blocked.
Proof.
  split; [reflexivity |]. split; [reflexivity |]. split; [reflexivity |].
  apply (blocked_status_is_blocked Strptime.strptime noon_utc blocked_issue
           "blocked - waiting on vendor"
           (JStr "2024-01-10T09:00:00.000+0000") (JStr "yesterday"));
    reflexivity.
Defined.

Lemma undated_text_unparseable :
  unparseable Strptime.strptime (JStr "15/01/2024").
Proof.
  right. exists "15/01/2024". split; [reflexivity |].
  intros clean Hc. inversion Hc; subst clean.
  intros fmt Hf.
  repeat (destruct Hf as [<- | Hf]; [reflexivity |]).
  contradiction.
Defined.

Lemma unparseable_update_is_other_witness :
  issue_status_lower undated_done_issue = Ok "done"
  /\ any_in done_terms "done" = true
  /\ unparseable Strptime.strptime (JStr "15/01/2024")
  /\ exists b,
       categorize_issue Strptime.strptime noon_utc undated_done_issue = Ok b
       /\ b <> started /\ b <> completed
       /\ b = (if any_in blocked_terms "done" then blocked else other).
Proof.
  split; [reflexivity |]. split; [reflexivity |].
  split; [exact undated_text_unparseable |].
  apply (unparseable_update_is_other Strptime.strptime noon_utc
           undated_done_issue "done"
           (JStr "2024-01-10T09:00:00.000+0000") (JStr "15/01/2024"));
    try reflexivity.
  exact undated_text_unparseable.
Defined.

Lemma parse_jira_date_first_format_witness :
  strptime_regular Strptime.strptime
  /\ _parse_jira_date Strptime.strptime (JStr "2024-01-15T10:30:45Z")
     = Ok (spec_parse Strptime.strptime "2024-01-15T10:30:45Z")
  /\ spec_parse Strptime.strptime "2024-01-15T10:30:45Z"
     = Some (mk_datetime 2024 1 15 10 30 45 0 (Some 0)).
Proof.
  split; [exact StrptimeFacts.strptime_model_regular |].
  split; [| reflexivity].
  exact (proj1 (proj2 (parse_jira_date_first_format Strptime.strptime
                         StrptimeFacts.strptime_model_regular
                         "2024-01-15T10:30:45Z"))).
Defined.

Lemma project_proxy_boards_witness :
  selected_projects ops_session
  = map project_record [("OPS", "Operations"); ("WEB", "Website")]
  /\ reported "values"
       (locked_server (mk_request (ops_base ++ "/rest/agile/1.0/board") []))
     = Some []
  /\ reported "views"
       (locked_server
          (mk_request (ops_base ++ "/rest/greenhopper/1.0/rapidview") []))
     = Some []
  /\ exists boards,
       fst (get_boards locked_server ops_session) = Ok (JArr boards)
       /\ Forall2 is_proxy_of [("OPS", "Operations"); ("WEB", "Website")]
                   boards.
Proof.
  split; [reflexivity |]. split; [reflexivity |]. split; [reflexivity |].
  exact (proj1 (project_proxy_boards locked_server ops_session
                  [("OPS", "Operations"); ("WEB", "Website")] eq_refl)
           eq_refl eq_refl).
Defined.

Lemma legacy_remap_preserves_witness :
  legacy_shape (mk_issue_facts "OPS-9" "In Review" (Some "Ada Lovelace"))
               legacy_record
  /\ modern_shape (mk_issue_facts "OPS-9" "In Review" (Some "Ada Lovelace"))
                  modern_record
  /\ exists issue,
       issue_of_work_data legacy_record = Ok issue
       /\ shown_key issue = shown_key modern_record
       /\ shown_status issue = shown_status modern_record
       /\ shown_assignee issue = shown_assignee modern_record.
Proof.
  assert (L : legacy_shape
                (mk_issue_facts "OPS-9" "In Review" (Some "Ada Lovelace"))
                legacy_record).
  { repeat split. discriminate. }
  assert (M : modern_shape
                (mk_issue_facts "OPS-9" "In Review" (Some "Ada Lovelace"))
                modern_record).
  { split; [reflexivity |]. do 2 eexists.
    split; [reflexivity |]. split; [reflexivity |]. split; [reflexivity |].
    eexists. split; reflexivity. }
  split; [exact L |]. split; [exact M |].
  destruct (legacy_remap_preserves _ _ _ L M)
    as [issue [E [K1 [K2 [S1 [S2 [A1 [A2 _]]]]]]]].
  exists issue. split; [exact E |].
  split; [now rewrite K1, K2 |]. split; [now rewrite S1, S2 |].
  now rewrite A1, A2.
Defined.

(* ================================================================== *)
(** * Further properties of the code *)
(* ================================================================== *)

(** ** Version negotiation and fallbacks *)

Section Fallbacks.

Variable server : request -> outcome.

(** X4.  A modern probe that fails in transit is answered by [False]:
    [test_connection] sends nothing to the legacy family and binds no
    family. *)
Theorem test_connection_transport_failure (self : JiraManager)
    (f : transport_failure)
    (Hfail : server (modern_probe self) = Failed f) :
  test_connection server self
  = (Ok false, record_request (modern_probe self) self).
Proof.
  unfold test_connection. run. fold (modern_probe self). rewrite Hfail.
  destruct f; reflexivity.
Qed.

(** X6.  While the legacy family is not bound, [get_projects] asks the
    modern path, and then the legacy path exactly when the answer is 404 or
    an HTML page with status 200; it binds no family itself. *)
Theorem get_projects_fallback (self : JiraManager) (r : response)
    (Hfamily : api_version self <> Some "v2")
    (Hmodern :
       server (mk_request (base_url self ++ "/rest/api/3/project") [])
       = Responded r) :
  sent (snd (get_projects server self))
  = (sent self
     ++ mk_request (base_url self ++ "/rest/api/3/project") []
     :: (if ((status_code r =? 404) || is_html_200 r)%bool
         then [mk_request (base_url self ++ "/rest/api/2/project") []]
         else []))%list
  /\ api_version (snd (get_projects server self)) = api_version self.
Proof.
  assert (V : api_version_is "v2" self = false).
  { unfold api_version_is. destruct (api_version self) as [v|]; [| reflexivity].
    destruct (String.eqb_spec v "v2"); [subst; now elim Hfamily | reflexivity]. }
  unfold get_projects. run. rewrite V. cbn [negb andb].
  rewrite Hmodern. cbn [fst snd]. rewrite andb_true_r.
  destruct (is_html_200 r) eqn:Hh.
  - rewrite orb_true_r. run. cbn [base_url record_request].
    destruct (server (mk_request (base_url self ++ "/rest/api/2/project") []))
      as [r2 | [|]]; cbn; try (now rewrite <- app_assoc).
    destruct (status_code r2 =? 200); cbn; [| now rewrite <- app_assoc].
    destruct (response_json r2) as [u|e]; cbn.
    + destruct (py_len u) as [x|e]; cbn; [now rewrite <- app_assoc |].
      destruct (is_JSONDecodeError e); cbn; [now rewrite <- app_assoc |].
      destruct (is_RequestException e); cbn; now rewrite <- app_assoc.
    + destruct (is_JSONDecodeError e); cbn; [now rewrite <- app_assoc |].
      destruct (is_RequestException e); cbn; now rewrite <- app_assoc.
  - rewrite orb_false_r. destruct (status_code r =? 404) eqn:H4.
    + run. cbn [base_url record_request].
      destruct (server (mk_request (base_url self ++ "/rest/api/2/project") []))
        as [r2 | [|]]; cbn; try (now rewrite <- app_assoc).
      destruct (status_code r2 =? 200); cbn; [| now rewrite <- app_assoc].
      destruct (response_json r2) as [u|e]; cbn.
      * destruct (py_len u) as [x|e]; cbn; [now rewrite <- app_assoc |].
        destruct (is_JSONDecodeError e); cbn; [now rewrite <- app_assoc |].
        destruct (is_RequestException e); cbn; now rewrite <- app_assoc.
      * destruct (is_JSONDecodeError e); cbn; [now rewrite <- app_assoc |].
        destruct (is_RequestException e); cbn; now rewrite <- app_assoc.
    + cbn. destruct (status_code r =? 200); cbn; [| now split].
      destruct (response_json r) as [u|e]; cbn.
      * destruct (py_len u) as [x|e]; cbn; [now split |].
        destruct (is_JSONDecodeError e); cbn; [now split |].
        destruct (is_RequestException e); now split.
      * destruct (is_JSONDecodeError e); cbn; [now split |].
        destruct (is_RequestException e); now split.
Qed.

(** X8.  While the legacy family is not bound, [get_issue_details] falls
    back on 404 only.  An answer of status 200 is taken as it is: its JSON
    body is the result, and a body that is no JSON, such as an HTML page,
    gives [None] without a second request.  The method always returns. *)
Theorem get_issue_details_fallback (self : JiraManager) (issue_key : string)
    (r : response)
    (Hfamily : api_version self <> Some "v2")
    (Hmodern :
       server (mk_request (base_url self ++ "/rest/api/3/issue/" ++ issue_key)
                          issue_detail_params) = Responded r) :
  sent (snd (get_issue_details server issue_key self))
  = (sent self
     ++ mk_request (base_url self ++ "/rest/api/3/issue/" ++ issue_key)
                   issue_detail_params
     :: (if status_code r =? 404
         then [mk_request (base_url self ++ "/rest/api/2/issue/" ++ issue_key)
                          issue_detail_params]
         else []))%list
  /\ (status_code r = 200 -> body r = None ->
      fst (get_issue_details server issue_key self) = Ok JNull)
  /\ (forall details, status_code r = 200 -> body r = Some details ->
      fst (get_issue_details server issue_key self) = Ok details)
  /\ exists details, fst (get_issue_details server issue_key self) = Ok details.
Proof.
  assert (V : api_version_is "v2" self = false).
  { unfold api_version_is. destruct (api_version self) as [v|]; [| reflexivity].
    destruct (String.eqb_spec v "v2"); [subst; now elim Hfamily | reflexivity]. }
  unfold get_issue_details. run. rewrite V. cbn [negb andb].
  rewrite Hmodern. cbn [fst snd]. rewrite andb_true_r.
  destruct (Z.eqb_spec (status_code r) 404) as [E4 | N4].
  - run. cbn [base_url record_request]. repeat split.
    + destruct (server (mk_request (base_url self ++ "/rest/api/2/issue/"
                                    ++ issue_key) issue_detail_params))
        as [r2 | [|]]; cbn; try (now rewrite <- app_assoc).
      destruct (status_code r2 =? 200); cbn; [| now rewrite <- app_assoc].
      destruct (response_json r2) as [u|e]; cbn; [now rewrite <- app_assoc |].
      destruct (is_RequestException e); cbn; now rewrite <- app_assoc.
    + intros E2. congruence.
    + intros d E2. congruence.
    + destruct (server (mk_request (base_url self ++ "/rest/api/2/issue/"
                                    ++ issue_key) issue_detail_params))
        as [r2 | [|]]; cbn; eauto.
      destruct (status_code r2 =? 200); cbn; eauto.
      unfold response_json. destruct (body r2); cbn; eauto.
  - cbn. unfold response_json. repeat split.
    + destruct (status_code r =? 200); cbn; [| reflexivity].
      destruct (body r); reflexivity.
    + intros -> ->. reflexivity.
    + intros d -> ->. reflexivity.
    + destruct (status_code r =? 200); cbn; eauto.
      destruct (body r); cbn; eauto.
Qed.

(** X9.  [get_project_issues] asks the legacy search path exactly when the
    modern one answers 404, with the same parameters; an answer of another
    status than 200, or a legacy request that fails in transit, gives the
    empty list. *)
Theorem get_project_issues_fallback (self : JiraManager) (project_key : json)
    (max_results : Z) (r : response)
    (Hmodern :
       server (mk_request (base_url self ++ "/rest/api/3/search")
                          (search_params project_key max_results))
       = Responded r) :
  let modern := mk_request (base_url self ++ "/rest/api/3/search")
                           (search_params project_key max_results) in
  let legacy := mk_request (base_url self ++ "/rest/api/2/search")
                           (search_params project_key max_results) in
  sent (snd (get_project_issues server project_key max_results self))
  = (sent self
     ++ modern :: (if status_code r =? 404 then [legacy] else []))%list
  /\ (status_code r <> 404 -> status_code r <> 200 ->
      fst (get_project_issues server project_key max_results self)
      = Ok (JArr []))
  /\ (status_code r = 404 ->
      forall r2, server legacy = Responded r2 -> status_code r2 <> 200 ->
      fst (get_project_issues server project_key max_results self)
      = Ok (JArr []))
  /\ (status_code r = 404 ->
      forall f, server legacy = Failed f ->
      fst (get_project_issues server project_key max_results self)
      = Ok (JArr [])).
Proof.
  cbv zeta.
  set (modern := mk_request (base_url self ++ "/rest/api/3/search")
                            (search_params project_key max_results)) in *.
  set (legacy := mk_request (base_url self ++ "/rest/api/2/search")
                            (search_params project_key max_results)).
  unfold get_project_issues. run. fold (search_params project_key max_results).
  fold modern. rewrite Hmodern.
  destruct (Z.eqb_spec (status_code r) 404) as [E404 | N404].
  - run. cbn [base_url record_request]. fold legacy.
    repeat split.
    + destruct (server legacy) as [r2 | [|]]; cbn;
        try (now rewrite <- app_assoc).
      destruct (status_code r2 =? 200); cbn; [| now rewrite <- app_assoc].
      destruct (response_json r2) as [u|e]; cbn.
      * destruct (dict_get u _ _) as [x|e]; cbn; [now rewrite <- app_assoc |].
        destruct (is_RequestException e); cbn; now rewrite <- app_assoc.
      * destruct (is_RequestException e); cbn; now rewrite <- app_assoc.
    + intros H. contradiction.
    + intros _ r2 H2 N200. rewrite H2. cbn.
      apply Z.eqb_neq in N200. rewrite N200. reflexivity.
    + intros _ f Hf. rewrite Hf. destruct f; reflexivity.
  - cbn. repeat split.
    + destruct (status_code r =? 200); cbn; [| reflexivity].
      destruct (response_json r) as [u|e]; cbn.
      * destruct (dict_get u _ _) as [x|e]; cbn; [reflexivity |].
        destruct (is_RequestException e); reflexivity.
      * destruct (is_RequestException e); reflexivity.
    + intros _ N200. apply Z.eqb_neq in N200. rewrite N200. reflexivity.
    + intros E. contradiction.
    + intros E. contradiction.
Qed.

(** X10.  [get_board_by_id] lets no exception out, whatever the server
    answers, and sends one request, to the agile backend, or two, the second
    to the rapid-view backend. *)
Theorem get_board_by_id_never_raises (board_id : string) (self : JiraManager) :
  exists board_info later,
    fst (get_board_by_id server board_id self) = Ok board_info
    /\ sent (snd (get_board_by_id server board_id self))
       = (sent self
          ++ mk_request (base_url self ++ "/rest/agile/1.0/board/" ++ board_id)
                        [] :: later)%list
    /\ (later = []
        \/ later = [mk_request (base_url self
                                ++ "/rest/greenhopper/1.0/rapidview/"
                                ++ board_id) []]).
Proof.
  unfold get_board_by_id. run.
  destruct (server _) as [r | [|]]; cbn;
    try (do 2 eexists; split; [reflexivity | split; [reflexivity | now left]]).
  destruct (status_code r =? 200); cbn.
  - destruct (response_json r); cbn;
      do 2 eexists; (split; [reflexivity | split; [reflexivity | now left]]).
  - destruct (server _) as [r' | [|]]; cbn;
      try (do 2 eexists; split; [reflexivity |];
           split; [rewrite <- app_assoc; reflexivity | now right]).
    destruct (status_code r' =? 200); cbn;
      [| do 2 eexists; split; [reflexivity |];
         split; [rewrite <- app_assoc; reflexivity | now right]].
    destruct (response_json r'); cbn;
      [| do 2 eexists; split; [reflexivity |];
         split; [rewrite <- app_assoc; reflexivity | now right]].
    destruct (board_of_view a); cbn;
      do 2 eexists; (split; [reflexivity |];
         split; [rewrite <- app_assoc; reflexivity | now right]).
Qed.

(** X11.  When the agile backend serves the issues of a board,
    [get_board_issues] returns them as they are after that one request: no
    other backend is asked. *)
Theorem board_issues_agile_first (board_id : string) (max_results : Z)
    (self : JiraManager) (r : response) (kvs : list (string * json))
    (issues : list json)
    (Hagile :
       server (mk_request (base_url self ++ "/rest/agile/1.0/board/"
                           ++ board_id ++ "/issue")
                          [("maxResults", JNum max_results)]) = Responded r)
    (Hstatus : status_code r = 200)
    (Hbody : body r = Some (JObj kvs))
    (Hissues : assoc "issues" kvs = Some (JArr issues)) :
  get_board_issues server board_id max_results self
  = (Ok (JArr issues),
     record_request
       (mk_request (base_url self ++ "/rest/agile/1.0/board/" ++ board_id
                    ++ "/issue") [("maxResults", JNum max_results)]) self).
Proof.
  unfold get_board_issues, get_board_issues_agile. run.
  rewrite Hagile, Hstatus. cbn [Z.eqb Pos.eqb]. unfold response_json.
  rewrite Hbody. cbn [dict_get]. rewrite Hissues. reflexivity.
Qed.

End Fallbacks.

(** ** The classifier as a partition *)

Lemma cat_append_total (c : categorized) (b : bucket) (issue : json) :
  cat_total (cat_append c b issue) = S (cat_total c).
Proof.
  destruct b; unfold cat_total; cbn; rewrite length_app; cbn; lia.
Qed.

Lemma categorize_all_total
    (strptime : string -> string -> option datetime) (cutoff_date : datetime)
    (issues : list json) :
  forall acc res,
    categorize_all strptime cutoff_date issues acc = Ok res ->
    cat_total res = (cat_total acc + List.length issues)%nat.
Proof.
  induction issues as [|i rest IH]; intros acc res; cbn [categorize_all].
  - intros E. inversion E. cbn. lia.
  - destruct (categorize_issue strptime cutoff_date i) as [b|];
      cbn [rbind]; [| discriminate].
    intros E. rewrite (IH _ _ E), cat_append_total. cbn. lia.
Qed.

(** X13.  The loop of [get_issues_by_date_range] puts every issue in exactly
    one of its four lists: when it ends, the lists together hold as many
    issues as were given and each list holds the given issues of its own
    class only; it ends without exception exactly when every issue can be
    classified. *)
Theorem categorize_all_partition
    (strptime : string -> string -> option datetime) (cutoff_date : datetime)
    (all_issues : list json) :
  (forall res,
      categorize_all strptime cutoff_date all_issues no_issues = Ok res ->
      cat_total res = List.length all_issues
      /\ forall b issue, In issue (cat_list b res) ->
           In issue all_issues
           /\ categorize_issue strptime cutoff_date issue = Ok b)
  /\ ((exists res,
          categorize_all strptime cutoff_date all_issues no_issues = Ok res)
      <-> Forall (fun issue =>
                    exists b, categorize_issue strptime cutoff_date issue = Ok b)
                 all_issues).
Proof.
  split.
  - intros res H. split.
    + rewrite (categorize_all_total _ _ _ _ _ H). reflexivity.
    + intros b issue Hin.
      rewrite (categorize_all_places strptime cutoff_date all_issues _ _ H b)
        in Hin.
      destruct b; cbn [cat_list no_issues cat_started cat_completed
                         cat_blocked cat_other app] in Hin;
        apply filter_In in Hin as [Hi Hc];
        (split; [exact Hi |]);
        destruct (categorize_issue strptime cutoff_date issue) as [b'|];
        try discriminate; destruct b'; try discriminate; reflexivity.
  - generalize no_issues.
    induction all_issues as [|i rest IH]; intros acc; cbn [categorize_all].
    + split; [constructor | eauto].
    + destruct (categorize_issue strptime cutoff_date i) as [b|e] eqn:Ei;
        cbn [rbind].
      * rewrite IH. split.
        -- intros F. constructor; eauto.
        -- intros F. now inversion F.
      * split.
        -- intros [res E]. discriminate.
        -- intros F. inversion F as [|? ? [b Hb] ?]. congruence.
Qed.

(** ** Order of timestamps *)

(** X14.  On valid timestamps [_compare_dates] is a total preorder, the
    order of the instants with a naive operand read as UTC: every timestamp
    is at or after itself, of two timestamps one is at or after the other,
    the relation is transitive, and two timestamps that are each at or after
    the other are the same instant. *)
Theorem compare_dates_total_preorder (a b c : datetime)
    (Ha : valid_datetime a = true) (Hb : valid_datetime b = true)
    (Hc : valid_datetime c = true) :
  _compare_dates (Some a) (Some a) = true
  /\ (_compare_dates (Some a) (Some b) = true
      \/ _compare_dates (Some b) (Some a) = true)
  /\ (_compare_dates (Some a) (Some b) = true ->
      _compare_dates (Some b) (Some c) = true ->
      _compare_dates (Some a) (Some c) = true)
  /\ (_compare_dates (Some a) (Some b) = true ->
      _compare_dates (Some b) (Some a) = true ->
      utc_micros a = utc_micros b).
Proof.
  assert (E : forall x y, valid_datetime x = true -> valid_datetime y = true ->
                _compare_dates (Some x) (Some y)
                = (utc_micros y <=? utc_micros x)).
  { intros x y Hx Hy. unfold _compare_dates.
    rewrite (compare_dates_utc_micros x y Hx Hy). reflexivity. }
  rewrite !E by assumption.
  repeat split; rewrite ?Z.leb_le; lia.
Qed.

(** ** Impact ratings *)

Lemma prefix_app_weaken (p q s : string) :
  String.prefix (p ++ q) s = true -> String.prefix p s = true.
Proof.
  revert s. induction p as [|c p IH]; intros s; [now destruct s |].
  destruct s as [|d s]; cbn; [discriminate |].
  destruct (Ascii.ascii_dec c d); [apply IH | discriminate].
Qed.

Lemma contains_app_weaken (p q s : string) :
  Str.contains (p ++ q) s = true -> Str.contains p s = true.
Proof.
  induction s as [|d s IH]; cbn [Str.contains].
  - destruct (String.prefix (p ++ q) "") eqn:E; [| discriminate].
    intros _. now rewrite (prefix_app_weaken p q _ E).
  - destruct (String.prefix (p ++ q) (String d s)) eqn:E.
    + intros _. now rewrite (prefix_app_weaken p q _ E).
    + intros H. rewrite (IH H). now destruct (String.prefix p (String d s)).
Qed.

(** X15.  The priority bounds the rating of [_assess_business_impact]: the
    score lies between 1 and 7; no issue is rated HIGH unless its priority
    holds critical or high (highest included), and an issue whose priority
    holds critical or highest is never rated LOW. *)
Theorem impact_rating_follows_priority (issue_type priority : string)
    (labels : list string) (description : string) :
  let rating := _assess_business_impact issue_type priority labels description in
  let priority_lower := Str.lower priority in
  1 <= impact_score issue_type priority labels description <= 7
  /\ (Str.contains "critical" priority_lower = false ->
      Str.contains "high" priority_lower = false ->
      rating <> level_text HIGH)
  /\ (Str.contains "critical" priority_lower = true
      \/ Str.contains "highest" priority_lower = true ->
      rating <> level_text LOW).
Proof.
  cbv zeta. unfold _assess_business_impact.
  rewrite impact_score_total. unfold spec_total.
  assert (Hk : 0 <= spec_keyword_weight labels description <= 1).
  { unfold spec_keyword_weight. destruct (existsb _ _); lia. }
  assert (Ht : 0 <= spec_type_weight issue_type <= 2).
  { unfold spec_type_weight.
    destruct (_ && _)%bool; [lia |].
    destruct (Str.contains "security" _); [lia |].
    destruct (_ || _)%bool; lia. }
  assert (Hh : Str.contains "highest" (Str.lower priority) = true ->
               Str.contains "high" (Str.lower priority) = true).
  { apply (contains_app_weaken "high" "est"). }
  unfold spec_priority_weight, level_of_score.
  destruct (Str.contains "critical" (Str.lower priority)) eqn:Pc;
    destruct (Str.contains "highest" (Str.lower priority)) eqn:Phh;
    destruct (Str.contains "high" (Str.lower priority)) eqn:Ph;
    try (specialize (Hh eq_refl); discriminate);
    destruct (Str.contains "medium" (Str.lower priority)) eqn:Pm;
    (split; [lia |]); split; intros;
    repeat match goal with
           | H : _ \/ _ |- _ => destruct H
           end;
    try discriminate;
    repeat match goal with
           | |- context [if ?a <=? ?b then _ else _] =>
               destruct (Z.leb_spec a b); try lia
           end;
    discriminate.
Qed.

Lemma lower_app (a b : string) :
  Str.lower (a ++ b) = Str.lower a ++ Str.lower b.
Proof. induction a as [|c a IH]; cbn; [reflexivity | now rewrite IH]. Qed.

Lemma lower_join (sep : string) (parts : list string) :
  Str.lower (Str.join sep parts)
  = Str.join (Str.lower sep) (map Str.lower parts).
Proof.
  unfold Str.join.
  induction parts as [|p [|q rest] IH]; cbn [String.concat map];
    [reflexivity | reflexivity |].
  rewrite !lower_app. cbn [map String.concat] in IH. now rewrite IH.
Qed.

(** X16.  The rating of [_assess_business_impact] does not depend on the
    case of the letters of the issue type, the priority, the labels or the
    description. *)
Theorem impact_rating_ignores_case (issue_type issue_type' priority priority'
    : string) (labels labels' : list string) (description description' : string)
    (Htype : Str.lower issue_type = Str.lower issue_type')
    (Hpriority : Str.lower priority = Str.lower priority')
    (Hlabels : map Str.lower labels = map Str.lower labels')
    (Hdescription : Str.lower description = Str.lower description') :
  _assess_business_impact issue_type priority labels description
  = _assess_business_impact issue_type' priority' labels' description'.
Proof.
  unfold _assess_business_impact, impact_score.
  rewrite !lower_join, !map_app. cbn [map].
  now rewrite Htype, Hpriority, Hlabels, Hdescription.
Qed.

(** ** The project key of a saved filter *)

Lemma take_while_forallb (p : ascii -> bool) (s : list ascii) :
  forallb p (Filter.take_while p s) = true.
Proof.
  induction s as [|c s IH]; cbn; [reflexivity |].
  destruct (p c) eqn:E; cbn; [now rewrite E | reflexivity].
Qed.

Lemma take_skip (p : ascii -> bool) (s : list ascii) :
  s = (Filter.take_while p s ++ Filter.skip_while p s)%list.
Proof.
  induction s as [|c s IH]; cbn; [reflexivity |].
  destruct (p c); cbn; [now rewrite <- IH | reflexivity].
Qed.

Lemma take_while_prefix (p : ascii -> bool) (s : list ascii) :
  exists post, s = (Filter.take_while p s ++ post)%list.
Proof. exists (Filter.skip_while p s). apply take_skip. Qed.

Lemma skip_while_split (p : ascii -> bool) (s : list ascii) :
  exists dropped, s = (dropped ++ Filter.skip_while p s)%list.
Proof. exists (Filter.take_while p s). apply take_skip. Qed.

Lemma after_word_suffix (word s rest : list ascii) :
  Filter.after_word word s = Some rest -> exists pre, s = (pre ++ rest)%list.
Proof.
  revert s. induction word as [|w word IH]; intros s; cbn.
  - intros E. inversion E. now exists [].
  - destruct s as [|c s]; [discriminate |].
    destruct (Ascii.eqb _ _); [| discriminate].
    intros E. destruct (IH _ E) as [pre ->]. now exists (c :: pre).
Qed.

Lemma match_here_shape (s g : list ascii) :
  Filter.match_here s = Some g ->
  is_project_key (string_of_list_ascii g) = true
  /\ exists pre post, s = (pre ++ g ++ post)%list.
Proof.
  unfold Filter.match_here.
  destruct (Filter.after_word _ s) as [s1|] eqn:E1; [| discriminate].
  destruct (after_word_suffix _ _ _ E1) as [p1 ->].
  destruct (skip_while_split Str.is_space s1) as [p2 E2].
  set (s2 := Filter.skip_while Str.is_space s1) in *.
  assert (Hop : forall s3,
             match s2 with
             | c :: t => if Ascii.eqb c "=" then Some t
                         else Filter.after_word (list_ascii_of_string "in") s2
             | [] => None
             end = Some s3 -> exists p3, s2 = (p3 ++ s3)%list).
  { intros s3. destruct s2 as [|c t]; [discriminate |].
    destruct (Ascii.eqb c "=").
    - intros E. inversion E. now exists [c].
    - apply after_word_suffix. }
  destruct (match s2 with [] => None | _ => _ end) as [s3|]; [| discriminate].
  destruct (Hop s3 eq_refl) as [p3 E3].
  destruct (skip_while_split Str.is_space s3) as [p4 E4].
  set (s4 := Filter.skip_while Str.is_space s3) in *.
  set (s5 := match s4 with
             | c :: t => if Ascii.eqb c "(" then t else s4
             | [] => s4
             end).
  assert (E5 : exists p5, s4 = (p5 ++ s5)%list).
  { unfold s5. destruct s4 as [|c t]; [now exists [] |].
    destruct (Ascii.eqb c "("); [now exists [c] | now exists []]. }
  destruct E5 as [p5 E5].
  destruct (skip_while_split Filter.is_quote s5) as [p6 E6].
  destruct (Filter.skip_while Filter.is_quote s5) as [|c t]; [discriminate |].
  destruct (Filter.is_alpha c) eqn:Ec; [| discriminate].
  intros E. inversion E; subst g. split.
  - unfold is_project_key. rewrite list_ascii_of_string_of_list_ascii.
    now rewrite Ec, take_while_forallb.
  - destruct (take_while_prefix Filter.is_alnum t) as [post Et].
    exists (p1 ++ p2 ++ p3 ++ p4 ++ p5 ++ p6)%list, post.
    rewrite E2, E3, E4, E5, E6. rewrite Et at 1.
    now rewrite <- !app_assoc.
Qed.

Lemma search_shape (s g : list ascii) :
  Filter.search s = Some g ->
  is_project_key (string_of_list_ascii g) = true
  /\ exists pre post, s = (pre ++ g ++ post)%list.
Proof.
  induction s as [|c s IH]; cbn [Filter.search].
  - destruct (Filter.match_here []) eqn:E; [| discriminate].
    intros X; inversion X; subst. now apply match_here_shape.
  - destruct (Filter.match_here (c :: s)) eqn:E.
    + intros X; inversion X; subst. now apply match_here_shape.
    + intros X. destruct (IH X) as [K [pre [post ->]]].
      split; [exact K |]. now exists (c :: pre), post.
Qed.

Lemma prefix_app (a b : string) : String.prefix a (a ++ b) = true.
Proof.
  induction a as [|c a IH]; cbn; [now destruct b |].
  destruct (Ascii.ascii_dec c c); [exact IH | congruence].
Qed.

Lemma contains_middle (pre g post : string) :
  Str.contains g (pre ++ g ++ post) = true.
Proof.
  induction pre as [|c pre IH].
  - cbn [append]. destruct (g ++ post) eqn:E; cbn [Str.contains];
      rewrite <- E, prefix_app; reflexivity.
  - cbn [append Str.contains]. rewrite IH.
    now destruct (String.prefix g (String c (pre ++ g ++ post))).
Qed.

Lemma string_of_list_ascii_app (a b : list ascii) :
  string_of_list_ascii (a ++ b)
  = string_of_list_ascii a ++ string_of_list_ascii b.
Proof. induction a as [|c a IH]; cbn; [reflexivity | now rewrite IH]. Qed.

Lemma list_ascii_of_string_app (a b : string) :
  list_ascii_of_string (a ++ b)
  = (list_ascii_of_string a ++ list_ascii_of_string b)%list.
Proof. induction a as [|c a IH]; cbn; [reflexivity | now rewrite IH]. Qed.

(** X17.  [_extract_project_from_filter] returns the placeholder N/A or a
    project key that occurs in the filter query: a letter followed by
    letters and digits.  A query that is false (null, the empty text) gives
    N/A, and the only exception is the [TypeError] of a query that is true
    and no string. *)
Theorem extract_project_key_shape (filter_query : json) :
  (truthy filter_query = false ->
   _extract_project_from_filter filter_query = Ok "N/A")
  /\ (forall e, _extract_project_from_filter filter_query = Raise e ->
                e = TypeError /\ forall q, filter_query <> JStr q)
  /\ (forall key, _extract_project_from_filter filter_query = Ok key ->
        key = "N/A"
        \/ (is_project_key key = true
            /\ exists q, filter_query = JStr q /\ Str.contains key q = true)).
Proof.
  unfold _extract_project_from_filter. repeat split.
  - now intros ->.
  - destruct (truthy filter_query); cbn [negb] in *; [| discriminate].
    destruct filter_query; try congruence.
    destruct (Filter.search _); discriminate.
  - destruct (truthy filter_query); cbn [negb] in *; [| discriminate].
    destruct filter_query; try discriminate.
    destruct (Filter.search _); discriminate.
  - intros key. destruct (truthy filter_query); cbn [negb];
      [| intros E; inversion E; now left].
    destruct filter_query as [| | |q| |]; try discriminate.
    destruct (Filter.search (list_ascii_of_string q)) as [g|] eqn:E;
      intros X; inversion X; subst; [| now left].
    right. destruct (search_shape _ _ E) as [K [pre [post Hq]]].
    split; [exact K |]. exists q. split; [reflexivity |].
    rewrite <- (string_of_list_ascii_of_string q), Hq.
    rewrite !string_of_list_ascii_app. apply contains_middle.
Qed.

(** ** Finding projects *)

Lemma prefix_refl (s : string) : String.prefix s s = true.
Proof.
  induction s as [|c s IH]; [reflexivity |]. cbn.
  destruct (Ascii.ascii_dec c c); [exact IH | congruence].
Qed.

Lemma contains_refl (s : string) : Str.contains s s = true.
Proof. destruct s; cbn [Str.contains]; now rewrite prefix_refl. Qed.

Lemma contains_empty (s : string) : Str.contains "" s = true.
Proof. now destruct s. Qed.

Lemma lower_char_idem (c : ascii) :
  Str.lower_char (Str.lower_char c) = Str.lower_char c.
Proof.
  destruct c as [[] [] [] [] [] [] [] []]; reflexivity.
Qed.

Lemma lower_idem (s : string) : Str.lower (Str.lower s) = Str.lower s.
Proof.
  induction s as [|c s IH]; cbn; [reflexivity |].
  now rewrite lower_char_idem, IH.
Qed.

Lemma find_project_by_name_from_filter (search_term : string)
    (projects : list json) :
  Forall is_project projects ->
  forall matches,
    find_project_by_name_from projects (Str.lower search_term) matches
    = Ok (matches ++ filter (project_matches search_term) projects)%list.
Proof.
  induction 1 as [|p ps [name [key [Hn Hk]]] _ IH]; intros matches;
    cbn [find_project_by_name_from filter].
  - now rewrite app_nil_r.
  - unfold project_matches at 1. rewrite Hn, Hk. cbn [rbind py_lower].
    assert (R : forall a b : string,
               (Str.contains a b || String.eqb b a)%bool = Str.contains a b).
    { intros a b. destruct (String.eqb_spec b a) as [-> |];
        [now rewrite contains_refl | apply orb_false_r]. }
    replace ((Str.contains (Str.lower search_term) (Str.lower name)
              || Str.contains (Str.lower search_term) (Str.lower key)
              || String.eqb (Str.lower name) (Str.lower search_term)
              || String.eqb (Str.lower key) (Str.lower search_term))%bool)
      with ((Str.contains (Str.lower search_term) (Str.lower name)
             || Str.contains (Str.lower search_term) (Str.lower key))%bool).
    2: { rewrite <- (R (Str.lower search_term) (Str.lower name)) at 1.
         rewrite <- (R (Str.lower search_term) (Str.lower key)) at 1.
         destruct (Str.contains _ (Str.lower name)),
                  (Str.contains _ (Str.lower key)),
                  (String.eqb (Str.lower name) _),
                  (String.eqb (Str.lower key) _); reflexivity. }
    destruct (_ || _)%bool; rewrite IH; [| reflexivity].
    now rewrite <- app_assoc.
Qed.

(** X18.  On project records [find_project_by_name] keeps, in order, the
    projects whose name or key holds the search term, letters compared
    without case: the two tests for equality add nothing.  An empty term
    keeps every project, and the name or the key of a project, in any
    case, finds it. *)
Theorem find_project_by_name_matches (projects : list json)
    (search_term : string) (Hprojects : Forall is_project projects) :
  find_project_by_name projects search_term
  = Ok (filter (project_matches search_term) projects)
  /\ (search_term = "" -> find_project_by_name projects search_term = Ok projects)
  /\ (forall project text,
        In project projects ->
        (py_getitem project "name" = Ok (JStr text)
         \/ py_getitem project "key" = Ok (JStr text)) ->
        Str.lower search_term = Str.lower text ->
        exists found,
          find_project_by_name projects search_term = Ok found
          /\ In project found).
Proof.
  assert (E : find_project_by_name projects search_term
              = Ok (filter (project_matches search_term) projects)).
  { unfold find_project_by_name.
    now rewrite (find_project_by_name_from_filter _ _ Hprojects). }
  split; [exact E |]. split.
  - intros ->. rewrite E. f_equal.
    clear E. induction Hprojects as [|p ps [name [key [Hn Hk]]] _ IH];
      [reflexivity |].
    cbn [filter]. unfold project_matches at 1. rewrite Hn, Hk.
    cbn [Str.lower]. rewrite contains_empty. cbn [orb]. now rewrite IH.
  - intros project text Hin Hfield Hterm. eexists. split; [exact E |].
    apply filter_In. split; [exact Hin |].
    rewrite Forall_forall in Hprojects.
    destruct (Hprojects _ Hin) as [name [key [Hn Hk]]].
    unfold project_matches. rewrite Hn, Hk, Hterm.
    destruct Hfield as [H | H]; rewrite H in *.
    + inversion Hn; subst. now rewrite contains_refl.
    + inversion Hk; subst. rewrite contains_refl. apply orb_true_r.
Qed.

(** ** Boards of the selected projects *)

Lemma filter_boards_from_filter (keys boards : list json) :
  forall acc kept,
    filter_boards_from keys boards acc = Ok kept ->
    kept = (acc ++ filter (board_selected keys) boards)%list.
Proof.
  induction boards as [|b bs IH]; intros acc kept; cbn [filter_boards_from filter].
  - intros E. inversion E. now rewrite app_nil_r.
  - unfold board_selected at 1.
    destruct (board_project_key b) as [k|e]; cbn [rbind]; [| discriminate].
    destruct (py_in k keys); intros E; rewrite (IH _ _ E);
      [now rewrite <- app_assoc | reflexivity].
Qed.

Lemma comprehension_keys (ps : list (string * string)) :
  comprehension (fun p => py_getitem p "key") (map project_record ps)
  = Ok (map (fun p => JStr (fst p)) ps).
Proof.
  induction ps as [|p ps IH]; [reflexivity |].
  cbn [map comprehension]. rewrite IH. reflexivity.
Qed.

Lemma py_in_key (p : string * string) (ps : list (string * string)) :
  In p ps -> py_in (JStr (fst p)) (map (fun p => JStr (fst p)) ps) = true.
Proof.
  intros H. unfold py_in. apply existsb_exists. exists (JStr (fst p)).
  split; [now apply (in_map (fun p => JStr (fst p))) |].
  cbn. apply String.eqb_refl.
Qed.

Lemma filter_boards_from_proxies (keys : list json)
    (ps : list (string * string)) :
  (forall p, In p ps -> py_in (JStr (fst p)) keys = true) ->
  forall acc,
    filter_boards_from keys (map proxy_board ps) acc
    = Ok (acc ++ map proxy_board ps)%list.
Proof.
  induction ps as [|p ps IH]; intros H acc; cbn [map filter_boards_from].
  - now rewrite app_nil_r.
  - change (board_project_key (proxy_board p)) with (Ok (JStr (fst p))).
    cbn [rbind]. rewrite (H p (or_introl eq_refl)).
    rewrite IH by (intros q Hq; apply H; now right).
    now rewrite <- app_assoc.
Qed.

Section Selection.

Variable server : request -> outcome.

(** X19.  [filter_boards_by_project] leaves [self] as it is.  Without selected
    projects it returns the boards as given; otherwise what it returns is
    the boards whose owning project key equals the key of a selected
    project, in their order. *)
Theorem filter_boards_by_project_keeps (boards : list json)
    (self : JiraManager) :
  snd (filter_boards_by_project boards self) = self
  /\ (selected_projects self = [] ->
      fst (filter_boards_by_project boards self) = Ok boards)
  /\ (forall kept,
        selected_projects self <> [] ->
        fst (filter_boards_by_project boards self) = Ok kept ->
        exists selected_project_keys,
          comprehension (fun p => py_getitem p "key") (selected_projects self)
          = Ok selected_project_keys
          /\ kept = filter (board_selected selected_project_keys) boards).
Proof.
  unfold filter_boards_by_project. run.
  destruct (selected_projects self) as [|p ps] eqn:Hs; cbn [truthy negb].
  - split; [reflexivity |]. split; [reflexivity |].
    intros kept H. now elim H.
  - cbn [fst snd].
    destruct (comprehension _ (p :: ps)) as [keys|e]; cbn [fst snd].
    + split; [reflexivity |]. split; [discriminate |].
      intros kept _ E. exists keys. split; [reflexivity |].
      exact (filter_boards_from_filter _ _ _ _ E).
    + split; [reflexivity |]. split; discriminate.
Qed.

(** X20.  The project-proxy boards that [get_boards] makes when both
    listing backends are empty all pass [filter_boards_by_project]: the
    filter returns the boards of [get_boards] as they are. *)
Theorem proxy_boards_pass_filter (self : JiraManager)
    (projects : list (string * string))
    (Hprojects : selected_projects self = map project_record projects)
    (Hagile :
       reported "values"
         (server (mk_request (base_url self ++ "/rest/agile/1.0/board") []))
       = Some [])
    (Hlegacy :
       reported "views"
         (server (mk_request (base_url self
                              ++ "/rest/greenhopper/1.0/rapidview") []))
       = Some []) :
  exists boards,
    fst (get_boards server self) = Ok (JArr boards)
    /\ fst (filter_boards_by_project boards (snd (get_boards server self)))
       = Ok boards.
Proof.
  exists (map proxy_board projects).
  assert (G : exists self',
             get_boards server self = (Ok (JArr (map proxy_board projects)), self')
             /\ selected_projects self' = map project_record projects).
  { unfold get_boards. unfold bind at 1.
    rewrite (agile_boards_empty server self Hagile). unfold bind at 1.
    rewrite (greenhopper_boards_empty server (record_request _ self) Hlegacy).
    unfold get_boards_projects. run.
    cbn [selected_projects record_request]. rewrite Hprojects.
    destruct projects as [|p ps];
      [eexists; split; [reflexivity | exact Hprojects] |].
    cbn [truthy negb andb map].
    change (project_record p :: map project_record ps)
      with (map project_record (p :: ps)).
    rewrite append_each_projects.
    eexists; split; [reflexivity | exact Hprojects]. }
  destruct G as [self' [G S]]. rewrite G. cbn [fst snd].
  split; [reflexivity |].
  unfold filter_boards_by_project. run. rewrite S.
  destruct projects as [|p ps]; [reflexivity |].
  cbn [map truthy negb]. 
  change (project_record p :: map project_record ps)
    with (map project_record (p :: ps)).
  change (proxy_board p :: map proxy_board ps)
    with (map proxy_board (p :: ps)).
  rewrite comprehension_keys. cbn [fst snd].
  rewrite filter_boards_from_proxies; [reflexivity |].
  intros q Hq. now apply py_in_key.
Qed.

End Selection.

(** ** Issues of a board by status *)

Lemma dict_set_keys (k : string) (v : list json) (d : groups) :
  forall k', In k' (map fst (dict_set k v d)) <-> k' = k \/ In k' (map fst d).
Proof.
  induction d as [|[k1 v1] d IH]; intros k'; cbn [dict_set map fst In].
  - intuition congruence.
  - destruct (String.eqb_spec k k1) as [-> | N]; cbn [map fst In].
    + intuition congruence.
    + rewrite IH. intuition congruence.
Qed.

Lemma dict_set_NoDup (k : string) (v : list json) (d : groups) :
  NoDup (map fst d) -> NoDup (map fst (dict_set k v d)).
Proof.
  induction d as [|[k1 v1] d IH]; cbn [dict_set map fst]; intros H.
  - constructor; [intros [] | constructor].
  - inversion H as [|? ? Hn Hd]; subst.
    destruct (String.eqb_spec k k1) as [-> | N]; cbn [map fst].
    + now constructor.
    + constructor; [| now apply IH].
      rewrite dict_set_keys. intros [-> | Hin]; [now elim N | now elim Hn].
Qed.

Lemma dict_set_empty (k : string) (d : groups) :
  grouped d = [] -> grouped (dict_set k [] d) = [].
Proof.
  unfold grouped.
  induction d as [|[k1 v1] d IH]; cbn [dict_set map snd concat]; intros H.
  - reflexivity.
  - apply app_eq_nil in H as [-> H].
    destruct (String.eqb k k1); cbn [map snd concat app]; [exact H | now apply IH].
Qed.

Lemma fold_set_facts (statuses : list string) :
  forall d,
    NoDup (map fst d) -> grouped d = [] ->
    let d' := fold_left (fun d status => dict_set status [] d) statuses d in
    NoDup (map fst d') /\ grouped d' = []
    /\ forall k, In k (map fst d') <-> In k statuses \/ In k (map fst d).
Proof.
  induction statuses as [|s rest IH]; intros d Hn He; cbv zeta;
    cbn [fold_left].
  - split; [exact Hn |]. split; [exact He |]. intros k. cbn [In]. tauto.
  - destruct (IH (dict_set s [] d) (dict_set_NoDup _ _ _ Hn)
                 (dict_set_empty _ _ He)) as [N [E K]].
    split; [exact N |]. split; [exact E |]. intros k.
    rewrite K, dict_set_keys. cbn [In]. intuition congruence.
Qed.

Lemma empty_groups_facts (statuses : list string) :
  NoDup (map fst (empty_groups statuses))
  /\ grouped (empty_groups statuses) = []
  /\ forall k, In k (map fst (empty_groups statuses))
               <-> k = "Other" \/ In k statuses.
Proof.
  unfold empty_groups.
  destruct (fold_set_facts statuses [] (NoDup_nil _) eq_refl) as [N [E K]].
  split; [now apply dict_set_NoDup |]. split; [now apply dict_set_empty |].
  intros k. rewrite dict_set_keys, K. cbn [map In]. tauto.
Qed.

Lemma dict_append_present (k : string) (x : json) (d : groups) :
  In k (map fst d) ->
  exists d', dict_append k x d = Ok d'
             /\ map fst d' = map fst d
             /\ Permutation (grouped d') (x :: grouped d).
Proof.
  unfold grouped.
  induction d as [|[k1 v1] d IH]; cbn [map fst In dict_append]; [tauto |].
  intros H. destruct (String.eqb_spec k k1) as [-> | N].
  - eexists. split; [reflexivity |]. split; [reflexivity |].
    cbn [map snd concat]. rewrite <- app_assoc. cbn [app].
    rewrite <- Permutation_middle. reflexivity.
  - destruct H as [-> | H]; [now elim N |].
    destruct (IH H) as [d' [E [K P]]]. rewrite E. cbn [rbind].
    eexists. split; [reflexivity |]. cbn [map fst snd concat].
    split; [now rewrite K |].
    rewrite P. now rewrite Permutation_middle.
Qed.

Lemma match_status_some (statuses : list string) (issue_status : json)
    (status : string) :
  match_status statuses issue_status = Ok (Some status) -> In status statuses.
Proof.
  induction statuses as [|s rest IH]; cbn [match_status]; [discriminate |].
  destruct (py_lower issue_status) as [low|]; cbn [rbind]; [| discriminate].
  destruct (_ || _)%bool.
  - intros E. inversion E. now left.
  - intros E. right. now apply IH.
Qed.

Lemma match_status_raises (statuses : list string) (issue_status : json)
    (e : exn) :
  match_status statuses issue_status = Raise e -> e = AttributeError.
Proof.
  induction statuses as [|s rest IH]; cbn [match_status]; [discriminate |].
  destruct issue_status; cbn [py_lower rbind]; try congruence.
  destruct (_ || _)%bool; [discriminate | exact IH].
Qed.

Lemma shown_status_raises (issue : json) (e : exn) :
  shown_status issue = Raise e -> e = AttributeError.
Proof.
  unfold shown_status. intros H.
  apply rbind_Raise in H as [H | [fields [_ H]]];
    [now apply dict_get_raises in H |].
  apply rbind_Raise in H as [H | [status [_ H]]];
    now apply dict_get_raises in H.
Qed.

Lemma group_issues_facts (statuses : list string) (all_issues : list json) :
  forall d,
    (forall k, k = "Other" \/ In k statuses -> In k (map fst d)) ->
    (forall d', group_issues statuses all_issues d = Ok d' ->
                map fst d' = map fst d
                /\ Permutation (grouped d') (grouped d ++ all_issues))
    /\ (forall e, group_issues statuses all_issues d = Raise e ->
                  e = AttributeError).
Proof.
  induction all_issues as [|issue rest IH]; intros d Hk;
    cbn [group_issues].
  - split; [| discriminate]. intros d' E. inversion E; subst.
    now rewrite app_nil_r.
  - destruct (shown_status issue) as [st|e0] eqn:Es; cbn [rbind].
    2: { split; [discriminate |]. intros e E. inversion E; subst.
         now apply (shown_status_raises issue). }
    destruct (match_status statuses st) as [m|e0] eqn:Em; cbn [rbind].
    2: { split; [discriminate |]. intros e E. inversion E; subst.
         now apply (match_status_raises statuses st). }
    assert (A : exists k, In k (map fst d)
                /\ match m with
                   | Some status =>
                       if negb (String.eqb status "")
                       then dict_append status issue d
                       else dict_append "Other" issue d
                   | None => dict_append "Other" issue d
                   end = dict_append k issue d).
    { destruct m as [s|].
      - destruct (negb (String.eqb s "")).
        + exists s. split; [| reflexivity]. apply Hk. right.
          now apply (match_status_some statuses st).
        + exists "Other". split; [apply Hk; now left | reflexivity].
      - exists "Other". split; [apply Hk; now left | reflexivity]. }
    destruct A as [k [Hin ->]].
    destruct (dict_append_present k issue d Hin) as [d1 [E1 [K1 P1]]].
    rewrite E1. cbn [rbind].
    destruct (IH d1) as [Iok Iraise].
    { intros k' H. rewrite K1. now apply Hk. }
    split; [| exact Iraise].
    intros d' E. destruct (Iok d' E) as [K P]. split; [congruence |].
    rewrite P, P1. cbn [app]. now rewrite <- Permutation_middle.
Qed.

Lemma drop_empty_facts (d : groups) :
  grouped (drop_empty d) = grouped d
  /\ (forall k l, In (k, l) (drop_empty d) -> l <> [] /\ In (k, l) d)
  /\ (NoDup (map fst d) -> NoDup (map fst (drop_empty d))).
Proof.
  unfold grouped, drop_empty. repeat split.
  - induction d as [|[k [|x l]] d IH]; cbn [filter snd map concat app];
      [reflexivity | exact IH | now rewrite IH].
  - apply filter_In in H as [_ H]. cbn in H. now destruct l.
  - now apply filter_In in H as [H _].
  - induction d as [|[k l] d IH]; cbn [filter map fst snd]; intros N;
      [constructor |].
    inversion N as [|? ? Hn Hd]; subst.
    destruct l; [now apply IH |]. cbn [map fst]. constructor; [| now apply IH].
    intros H. apply Hn. apply in_map_iff in H as [[k' l'] [Ek H]].
    apply filter_In in H as [H _]. apply in_map_iff. now exists (k', l').
Qed.

Section StatusGroupFacts.

Variable server : request -> outcome.

(** X21.  The groups that [get_board_issues_by_status] returns split the issues
    of the board: their lists together hold each issue once, no list is
    empty, no status names two groups, and each group is named by one of
    the statuses asked for or by Other.  The loop looks up no missing
    status: it can raise an [AttributeError] (a status name that is no
    string, an issue that is no dictionary) and nothing else. *)
Theorem board_issues_by_status_partition (board_id : string)
    (statuses : option (list string)) (self self' : JiraManager)
    (by_status : groups)
    (Hreturns :
       get_board_issues_by_status server board_id statuses self
       = (Ok by_status, self')) :
  let asked := match statuses with
               | None => default_statuses
               | Some given => given
               end in
  exists all_issues issues,
    get_board_issues server board_id 100 self = (Ok all_issues, self')
    /\ py_iter all_issues = Ok issues
    /\ Permutation (concat (map snd by_status)) issues
    /\ NoDup (map fst by_status)
    /\ (forall status group,
          In (status, group) by_status ->
          group <> [] /\ (status = "Other" \/ In status asked))
    /\ forall others e,
         group_issues asked others (empty_groups asked) = Raise e ->
         e = AttributeError.
Proof.
  intros asked. unfold get_board_issues_by_status in Hreturns.
  fold asked in Hreturns. unfold bind, lift, ret in Hreturns.
  destruct (get_board_issues server board_id 100 self) as [[all|e] s1];
    [| discriminate].
  destruct (py_iter all) as [issues|e] eqn:Ei; [| discriminate].
  destruct (empty_groups_facts asked) as [N [E K]].
  assert (Hk : forall k, k = "Other" \/ In k asked ->
                         In k (map fst (empty_groups asked))).
  { intros k. apply K. }
  destruct (group_issues asked issues (empty_groups asked)) as [d|e] eqn:G;
    [| discriminate].
  inversion Hreturns; subst. exists all, issues.
  destruct (group_issues_facts asked issues _ Hk) as [Gok _].
  destruct (Gok d G) as [Kd Pd].
  destruct (drop_empty_facts d) as [Dg [Dk Dn]].
  split; [reflexivity |]. split; [exact Ei |].
  split. { fold (grouped (drop_empty d)). rewrite Dg, Pd.
           unfold grouped in E. unfold grouped. now rewrite E. }
  split. { apply Dn. now rewrite Kd. }
  split.
  - intros status group H. destruct (Dk _ _ H) as [Hne Hin].
    split; [exact Hne |]. apply K. rewrite <- Kd.
    apply in_map_iff. now exists (status, group).
  - intros others e H.
    now apply (proj2 (group_issues_facts asked others _ Hk) e).
Qed.

End StatusGroupFacts.

(** ** Text of the executive summaries *)

Lemma sub_from_skip (match_len : list ascii -> option nat)
    (repl a b : list ascii) :
  Re.sub_from match_len repl (List.length a) (a ++ b)
  = Re.sub_from match_len repl O b.
Proof.
  induction a as [|c a IH]; [reflexivity |].
  cbn [List.length app Re.sub_from]. exact IH.
Qed.











Lemma skip_while_Forall (P : ascii -> Prop) (p : ascii -> bool)
    (s : list ascii) :
  Forall P s -> Forall P (Filter.skip_while p s).
Proof.
  induction 1 as [|c t Hc Ht IH]; cbn; [constructor |].
  destruct (p c); [exact IH | now constructor].
Qed.





Lemma assess_decoded_text (issue_type priority labels description : json)
    (rating : string) :
  assess_decoded issue_type priority labels description = Ok rating ->
  (exists text, description = JStr text)
  /\ exists level, rating = level_text level.
Proof.
  unfold assess_decoded.
  destruct priority; try discriminate. destruct issue_type; try discriminate.
  destruct labels; try discriminate.
  destruct (all_str items); cbn [rbind]; [| discriminate].
  destruct description; try discriminate.
  intros E. inversion E. split; eauto. unfold _assess_business_impact. eauto.
Qed.

Lemma generate_executive_summary_returns (issue_details : json)
    (summary : string) :
  truthy issue_details = true ->
  generate_executive_summary issue_details = Ok summary ->
  exists fields description lines level,
    dict_get issue_details "fields" (JObj []) = Ok fields
    /\ dict_get fields "description" (JStr "") = Ok (JStr description)
    /\ summary
       = Str.join newline
           (lines
            ++ [("**Business Impact:** " ++ level_text level)%string])%list.
Proof.
  intros T H. unfold generate_executive_summary in H.
  rewrite T in H. cbn [negb] in H.
  apply rbind_Ok in H as [fields [Hf H]].
  apply rbind_Ok in H as [key [_ H]].
  apply rbind_Ok in H as [summ [_ H]].
  apply rbind_Ok in H as [description [Hd H]].
  apply rbind_Ok in H as [issue_type [_ H]].
  apply rbind_Ok in H as [priority [_ H]].
  apply rbind_Ok in H as [status [_ H]].
  apply rbind_Ok in H as [assignee [_ H]].
  apply rbind_Ok in H as [assignee_name [_ H]].
  apply rbind_Ok in H as [components [_ H]].
  apply rbind_Ok in H as [labels [_ H]].
  apply rbind_Ok in H as [comments [_ H]].
  apply rbind_Ok in H as [recent [_ H]].
  apply rbind_Ok in H as [parts1 [_ H]].
  apply rbind_Ok in H as [parts2 [_ H]].
  apply rbind_Ok in H as [parts3 [_ H]].
  apply rbind_Ok in H as [rating [Hr H]].
  destruct (assess_decoded_text _ _ _ _ _ Hr) as [[text ->] [level ->]].
  inversion H. exists fields, text, parts3, level. repeat split; assumption.
Qed.

Lemma generate_executive_summary_no_text (issue_details fields description
    : json) :
  truthy issue_details = true ->
  dict_get issue_details "fields" (JObj []) = Ok fields ->
  dict_get fields "description" (JStr "") = Ok description ->
  (forall text, description <> JStr text) ->
  exists e, generate_executive_summary issue_details = Raise e.
Proof.
  intros T Hf Hd Hn.
  destruct (generate_executive_summary issue_details) as [summary|e] eqn:E;
    [| eauto].
  destruct (generate_executive_summary_returns _ _ T E)
    as [f [d [_ [_ [Hf' [Hd' _]]]]]].
  rewrite Hf in Hf'. inversion Hf'; subst f. rewrite Hd in Hd'.
  inversion Hd'; subst. now elim (Hn d).
Qed.

(** X23.  [generate_executive_summary] writes a summary only for an issue whose
    description is text (or absent): when it returns for an issue that is
    found, the description is a string and the last line of the summary is
    the impact rating; a description that is null, or the document that the
    modern family serves, makes it raise.  For an issue that is not found
    it returns its fixed line. *)
Theorem executive_summary_needs_text (issue_details : json) :
  (truthy issue_details = false ->
   generate_executive_summary issue_details
   = Ok "Unable to generate summary - issue details not available.")
  /\ (forall summary,
        truthy issue_details = true ->
        generate_executive_summary issue_details = Ok summary ->
        exists fields description lines level,
          dict_get issue_details "fields" (JObj []) = Ok fields
          /\ dict_get fields "description" (JStr "") = Ok (JStr description)
          /\ summary
             = Str.join newline
                 (lines
                  ++ [("**Business Impact:** " ++ level_text level)%string])%list)
  /\ (forall fields description,
        truthy issue_details = true ->
        dict_get issue_details "fields" (JObj []) = Ok fields ->
        dict_get fields "description" (JStr "") = Ok description ->
        (forall text, description <> JStr text) ->
        exists e, generate_executive_summary issue_details = Raise e).
Proof.
  split; [| split].
  - unfold generate_executive_summary. now intros ->.
  - intros summary. apply generate_executive_summary_returns.
  - intros fields description. apply generate_executive_summary_no_text.
Qed.

(** ** Issue lines of the weekly report *)

Section ReportFacts.

Variable server : request -> outcome.

Lemma format_issues_offline (other : request -> outcome) (category : string)
    (issues : list json) :
  forall lines self,
    format_issues_from server issues category false lines self
    = format_issues_from other issues category false lines self
    /\ snd (format_issues_from server issues category false lines self) = self.
Proof.
  induction issues as [|issue rest IH]; intros lines self;
    cbn [format_issues_from]; [now split |].
  unfold bind, get_self, lift, ret.
  repeat match goal with
         | |- context [match ?r with Ok _ => _ | Raise _ => _ end] =>
             destruct r; try (split; reflexivity)
         end;
  apply IH.
Qed.

(** X24.  Without executive summaries [_format_issues_for_report] does not use the
    session: it sends nothing, leaves [self] as it is, and its text does not
    depend on the server.  For no issues it returns the fixed line, with or
    without summaries. *)
Theorem report_without_summaries_offline (other : request -> outcome)
    (issues : list json) (category : string) (self : JiraManager) :
  snd (_format_issues_for_report server issues category false self) = self
  /\ _format_issues_for_report server issues category false self
     = _format_issues_for_report other issues category false self
  /\ forall include_summaries,
       _format_issues_for_report server [] category include_summaries self
       = (Ok ("*No items for this period.*" ++ newline), self).
Proof.
  unfold _format_issues_for_report.
  destruct issues as [|issue rest]; cbn [truthy negb]; [now repeat split |].
  unfold bind, ret.
  destruct (format_issues_offline other category (issue :: rest) [] self)
    as [E S].
  rewrite <- E.
  destruct (format_issues_from server (issue :: rest) category false [] self)
    as [[lines|e] self'] eqn:F; cbn [snd] in *; subst; now repeat split.
Qed.

(** X25.  With executive summaries, an issue whose description is no text (null,
    or the document of the modern family) stops the report with an
    exception: when the heading lines of the issues can be written and the
    details of the first issue are served with such a description,
    [_format_issues_for_report] raises. *)
Theorem report_fails_without_description (issue : json) (rest : list json)
    (category : string) (self self' : JiraManager) (text : string)
    (key issue_details fields description : json)
    (Hheadings :
       fst (_format_issues_for_report server (issue :: rest) category false
              self) = Ok text)
    (Hkey : dict_get issue "key" (JStr "Unknown") = Ok key)
    (Hdetails :
       get_issue_details server (Fmt.py_str key) self
       = (Ok issue_details, self'))
    (Hfound : truthy issue_details = true)
    (Hfields : dict_get issue_details "fields" (JObj []) = Ok fields)
    (Hdescription :
       dict_get fields "description" (JStr "") = Ok description)
    (Hnotext : forall s, description <> JStr s) :
  exists e,
    _format_issues_for_report server (issue :: rest) category true self
    = (Raise e, self').
Proof.
  destruct (generate_executive_summary_no_text _ _ _ Hfound Hfields
              Hdescription Hnotext) as [e G].
  exists e.
  unfold _format_issues_for_report in *. cbn [truthy negb] in *.
  unfold bind, ret in *. cbn [format_issues_from] in *.
  unfold bind, get_self, lift, ret in *. rewrite Hkey in *.
  repeat match goal with
         | H : fst (let (_, _) := match ?r with Ok _ => _ | Raise _ => _ end in _) = Ok _ |- _ =>
             destruct r; [| discriminate]
         end.
  rewrite Hdetails, Hfound, G. reflexivity.
Qed.

End ReportFacts.

(** ** The base URL of the setup *)

Lemma startswith_app (p s : string) :
  Str.startswith p s = true -> exists rest, s = p ++ rest.
Proof.
  unfold Str.startswith. revert s.
  induction p as [|c p IH]; intros s; [exists s; reflexivity |].
  destruct s as [|d s]; cbn; [discriminate |].
  destruct (Ascii.ascii_dec c d) as [-> |]; [| discriminate].
  intros H. destruct (IH _ H) as [rest ->]. now exists rest.
Qed.

Lemma length_list_ascii (s : string) :
  List.length (list_ascii_of_string s) = String.length s.
Proof. induction s as [|c s IH]; cbn; [reflexivity | now rewrite IH]. Qed.

Lemma replace_at_start (old new rest : string) :
  old <> "" ->
  Re.replace old new (old ++ rest) = new ++ Re.replace old new rest.
Proof.
  intros Hold. unfold Re.replace, Re.sub.
  destruct old as [|c old]; [now elim Hold |].
  change (list_ascii_of_string (String c old ++ rest))
    with (c :: list_ascii_of_string (old ++ rest)).
  cbn [Re.sub_from]. unfold Re.literal at 1.
  change (string_of_list_ascii (c :: list_ascii_of_string (old ++ rest)))
    with (String c (string_of_list_ascii (list_ascii_of_string (old ++ rest)))).
  rewrite string_of_list_ascii_of_string.
  change (String c (old ++ rest)) with (String c old ++ rest).
  rewrite prefix_app. cbn [String.length].
  rewrite list_ascii_of_string_app.
  rewrite <- (length_list_ascii old) at 1.
  rewrite sub_from_skip. now rewrite string_of_list_ascii_app,
    string_of_list_ascii_of_string.
Qed.

(** X26.  The validity test of [interactive_setup] cannot fail: whatever line is
    typed, the base URL that reaches the test starts with http:// or
    https://. *)
Theorem interactive_setup_url_accepted (line : string) :
  has_scheme (interactive_setup_base_url line) = true.
Proof.
  assert (S : forall rest, has_scheme ("https://" ++ rest) = true).
  { intros rest. unfold has_scheme, Str.startswith.
    rewrite (prefix_app "https://" rest). apply orb_true_r. }
  unfold interactive_setup_base_url.
  set (base_url := Re.rstrip_char "/" (Str.strip line)).
  destruct (Str.startswith "htpps://" base_url) eqn:E1.
  - destruct (startswith_app _ _ E1) as [rest ->].
    rewrite replace_at_start by discriminate. apply S.
  - destruct (Str.startswith "htpp://" base_url) eqn:E2.
    + destruct (startswith_app _ _ E2) as [rest ->].
      rewrite replace_at_start by discriminate. apply S.
    + destruct (has_scheme base_url) eqn:E3; [exact E3 | apply S].
Qed.

(** ** The further properties at sample inputs *)

Lemma test_connection_requests_witness :
  html_fronted_server (modern_probe (fresh_session html_fronted_base))
  = Responded (mk_response 200 "<html><body>Log in</body></html>" None)
  /\ sent (snd (test_connection html_fronted_server
                  (fresh_session html_fronted_base)))
     = [modern_probe (fresh_session html_fronted_base);
        legacy_probe (fresh_session html_fronted_base)].
Proof.
  split; [reflexivity |].
  exact (test_connection_requests html_fronted_server
           (fresh_session html_fronted_base) _ eq_refl).
Defined.

Lemma test_connection_binding_witness :
  html_fronted_server (modern_probe (fresh_session html_fronted_base))
  = Responded (mk_response 200 "<html><body>Log in</body></html>" None)
  /\ api_version (snd (test_connection html_fronted_server
                         (fresh_session html_fronted_base)))
     = Some "v2".
Proof.
  split; [reflexivity |].
  exact (test_connection_binding html_fronted_server
           (fresh_session html_fronted_base) _ eq_refl).
Defined.

Lemma test_connection_hard_failure_witness :
  denying_server (modern_probe (fresh_session ops_base))
  = Responded (mk_response 401 "Unauthorized" None)
  /\ test_connection denying_server (fresh_session ops_base)
     = (Ok false,
        mk_JiraManager ops_base (Some "v3") []
                       [modern_probe (fresh_session ops_base)]).
Proof.
  split; [reflexivity |].
  apply (test_connection_hard_failure denying_server (fresh_session ops_base)
           (mk_response 401 "Unauthorized" None));
    [reflexivity | cbn; lia | cbn; lia].
Defined.

Lemma test_connection_transport_failure_witness :
  down_server (modern_probe (fresh_session ops_base)) = Failed NoConnection
  /\ test_connection down_server (fresh_session ops_base)
     = (Ok false,
        record_request (modern_probe (fresh_session ops_base))
                       (fresh_session ops_base)).
Proof.
  split; [reflexivity |].
  exact (test_connection_transport_failure down_server
           (fresh_session ops_base) NoConnection eq_refl).
Defined.

Lemma get_projects_bound_legacy_witness :
  api_version ops_session = Some "v2"
  /\ sent (snd (get_projects locked_server ops_session))
     = [mk_request (ops_base ++ "/rest/api/2/project") []].
Proof.
  split; [reflexivity |].
  exact (get_projects_bound_legacy locked_server ops_session eq_refl).
Defined.

Lemma get_projects_fallback_witness :
  api_version (fresh_session html_fronted_base) <> Some "v2"
  /\ sent (snd (get_projects html_fronted_server
                  (fresh_session html_fronted_base)))
     = [mk_request (html_fronted_base ++ "/rest/api/3/project") [];
        mk_request (html_fronted_base ++ "/rest/api/2/project") []]
  /\ api_version (snd (get_projects html_fronted_server
                         (fresh_session html_fronted_base))) = None.
Proof.
  assert (H : api_version (fresh_session html_fronted_base) <> Some "v2")
    by discriminate.
  split; [exact H |].
  exact (get_projects_fallback html_fronted_server
           (fresh_session html_fronted_base)
           (mk_response 200 "<html><body>Log in</body></html>" None)
           H eq_refl).
Defined.

Lemma get_issue_details_bound_legacy_witness :
  api_version ops_session = Some "v2"
  /\ sent (snd (get_issue_details locked_server "OPS-1" ops_session))
     = [mk_request (ops_base ++ "/rest/api/2/issue/OPS-1")
                   issue_detail_params].
Proof.
  split; [reflexivity |].
  exact (get_issue_details_bound_legacy locked_server ops_session "OPS-1"
           eq_refl).
Defined.

Lemma get_issue_details_fallback_witness :
  api_version (fresh_session html_fronted_base) <> Some "v2"
  /\ sent (snd (get_issue_details html_fronted_server "OPS-1"
                  (fresh_session html_fronted_base)))
     = [mk_request (html_fronted_base ++ "/rest/api/3/issue/OPS-1")
                   issue_detail_params]
  /\ fst (get_issue_details html_fronted_server "OPS-1"
            (fresh_session html_fronted_base)) = Ok JNull.
Proof.
  assert (H : api_version (fresh_session html_fronted_base) <> Some "v2")
    by discriminate.
  split; [exact H |].
  pose proof (get_issue_details_fallback html_fronted_server
                (fresh_session html_fronted_base) "OPS-1"
                (mk_response 200 "<html><body>Log in</body></html>" None)
                H eq_refl) as [T [N _]].
  split; [exact T | exact (N eq_refl eq_refl)].
Defined.

Lemma get_project_issues_fallback_witness :
  locked_server (mk_request (ops_base ++ "/rest/api/3/search")
                            (search_params (JStr "OPS") 50))
  = Responded (mk_response 404 "" None)
  /\ sent (snd (get_project_issues locked_server (JStr "OPS") 50 ops_session))
     = [mk_request (ops_base ++ "/rest/api/3/search")
                   (search_params (JStr "OPS") 50);
        mk_request (ops_base ++ "/rest/api/2/search")
                   (search_params (JStr "OPS") 50)]
  /\ fst (get_project_issues locked_server (JStr "OPS") 50 ops_session)
     = Ok (JArr []).
Proof.
  split; [reflexivity |].
  pose proof (get_project_issues_fallback locked_server ops_session
                (JStr "OPS") 50 (mk_response 404 "" None) eq_refl)
    as [T [_ [L _]]].
  split; [exact T |].
  apply (L eq_refl (mk_response 404 "" None)); [reflexivity | cbn; lia].
Defined.

Lemma board_issues_agile_first_witness :
  get_board_issues kanban_server "7" 100 ops_session
  = (Ok (JArr [legacy_issue; done_issue "2024-01-15T14:00:00.000+0100";
               blocked_issue]),
     record_request
       (mk_request (ops_base ++ "/rest/agile/1.0/board/7/issue")
                   [("maxResults", JNum 100)]) ops_session).
Proof.
  exact (board_issues_agile_first kanban_server "7" 100 ops_session _ _ _
           eq_refl eq_refl eq_refl eq_refl).
Defined.

Lemma greenhopper_issues_converted_witness :
  tier_failed
    (kanban_server (mk_request (ops_base ++ "/rest/agile/1.0/board/8/issue")
                               [("maxResults", JNum 100)])) = true
  /\ exists issue,
       issue_of_work_data legacy_record = Ok issue
       /\ get_board_issues kanban_server "8" 100 ops_session
          = (Ok (JArr [issue]),
             record_request
               (mk_request
                  (ops_base
                   ++ "/rest/greenhopper/1.0/xboard/work/allData/?rapidViewId=8")
                  [])
               (record_request
                  (mk_request (ops_base ++ "/rest/agile/1.0/board/8/issue")
                              [("maxResults", JNum 100)]) ops_session)).
Proof.
  split; [reflexivity |].
  eexists. split; [reflexivity |].
  apply (greenhopper_issues_converted kanban_server "8" 100 ops_session
           (mk_response 200 "{...}"
              (Some (JObj [("rapidViewId", JNum 8);
                           ("issuesData",
                            JObj [("rankCustomFieldId", JNum 10100);
                                  ("issues", JArr [legacy_record])])])))
           [("rapidViewId", JNum 8);
            ("issuesData", JObj [("rankCustomFieldId", JNum 10100);
                                 ("issues", JArr [legacy_record])])]
           [("rankCustomFieldId", JNum 10100);
            ("issues", JArr [legacy_record])]
           [legacy_record]);
    try reflexivity.
  constructor; [reflexivity | constructor].
Defined.

Lemma compare_dates_total_preorder_witness :
  valid_datetime two_pm_plus_two = true
  /\ valid_datetime noon_naive = true
  /\ _compare_dates (Some two_pm_plus_two) (Some noon_naive) = true
  /\ _compare_dates (Some noon_naive) (Some two_pm_plus_two) = true
  /\ utc_micros two_pm_plus_two = utc_micros noon_naive.
Proof.
  split; [reflexivity |]. split; [reflexivity |].
  split; [reflexivity |]. split; [reflexivity |].
  exact (proj2 (proj2 (proj2 (compare_dates_total_preorder two_pm_plus_two
                                noon_naive noon_utc eq_refl eq_refl eq_refl)))
           eq_refl eq_refl).
Defined.

Lemma impact_rating_ignores_case_witness :
  _assess_business_impact "BUG - Critical" "HIGHEST" ["Security"] "Outage"
  = _assess_business_impact "bug - critical" "highest" ["security"] "outage".
Proof.
  exact (impact_rating_ignores_case "BUG - Critical" "bug - critical"
           "HIGHEST" "highest" ["Security"] ["security"] "Outage" "outage"
           eq_refl eq_refl eq_refl eq_refl).
Defined.

Lemma listed_projects_are_projects : Forall is_project listed_projects.
Proof. repeat constructor; do 2 eexists; split; reflexivity. Defined.

Lemma find_project_by_name_matches_witness :
  Forall is_project listed_projects
  /\ find_project_by_name listed_projects "WEB"
     = Ok [JObj [("id", JStr "10001"); ("key", JStr "WEB");
                 ("name", JStr "Website")];
           JObj [("id", JStr "10002"); ("key", JStr "DOC");
                 ("name", JStr "Web Documentation")]].
Proof.
  split; [exact listed_projects_are_projects |].
  exact (proj1 (find_project_by_name_matches listed_projects "WEB"
                  listed_projects_are_projects)).
Defined.

Lemma proxy_boards_pass_filter_witness :
  selected_projects ops_session
  = map project_record [("OPS", "Operations"); ("WEB", "Website")]
  /\ exists boards,
       fst (get_boards locked_server ops_session) = Ok (JArr boards)
       /\ fst (filter_boards_by_project boards
                 (snd (get_boards locked_server ops_session))) = Ok boards.
Proof.
  split; [reflexivity |].
  exact (proxy_boards_pass_filter locked_server ops_session
           [("OPS", "Operations"); ("WEB", "Website")]
           eq_refl eq_refl eq_refl).
Defined.

Lemma board_issues_by_status_partition_witness :
  get_board_issues_by_status kanban_server "7" None ops_session
  = (Ok [("In Progress", [legacy_issue]);
         ("Done", [done_issue "2024-01-15T14:00:00.000+0100"]);
         ("Other", [blocked_issue])],
     record_request
       (mk_request (ops_base ++ "/rest/agile/1.0/board/7/issue")
                   [("maxResults", JNum 100)]) ops_session)
  /\ exists all_issues issues,
       get_board_issues kanban_server "7" 100 ops_session
       = (Ok all_issues,
          record_request
            (mk_request (ops_base ++ "/rest/agile/1.0/board/7/issue")
                        [("maxResults", JNum 100)]) ops_session)
       /\ py_iter all_issues = Ok issues
       /\ Permutation
            [legacy_issue; done_issue "2024-01-15T14:00:00.000+0100";
             blocked_issue] issues.
Proof.
  split; [reflexivity |].
  destruct (board_issues_by_status_partition kanban_server "7" None
              ops_session _ _ eq_refl) as [all [issues [G [I [P _]]]]].
  exists all, issues. split; [exact G |]. split; [exact I | exact P].
Defined.

Lemma report_fails_without_description_witness :
  get_issue_details kanban_server "OPS-1" ops_session
  = (Ok undescribed_details,
     record_request (mk_request (ops_base ++ "/rest/api/2/issue/OPS-1")
                                issue_detail_params) ops_session)
  /\ (exists text,
        fst (_format_issues_for_report kanban_server [legacy_issue] "started"
               false ops_session) = Ok text)
  /\ exists e,
       _format_issues_for_report kanban_server [legacy_issue] "started" true
                                 ops_session
       = (Raise e,
          record_request (mk_request (ops_base ++ "/rest/api/2/issue/OPS-1")
                                     issue_detail_params) ops_session).
Proof.
  split; [reflexivity |].
  split; [eexists; reflexivity |].
  refine (report_fails_without_description kanban_server legacy_issue []
            "started" ops_session _ _ (JStr "OPS-1") undescribed_details
            _ JNull eq_refl eq_refl eq_refl eq_refl eq_refl eq_refl _).
  intros s. discriminate.
Defined.
